(** * Verification of [pele_analysis/_msm_clustering.py]

    A shallow embedding of the [ligand_msm] class and of [_plot_Nice_PES]:
    Python dictionaries are insertion-ordered association lists, methods
    are computations in a state-and-exception monad over the instance
    attributes, and the external collaborators (pyemma, matplotlib, the
    trajectory files) are parameters of the development. *)

From stdpp Require Import base list strings pretty.
From Stdlib Require Import ZArith Reals Lra.

Local Open Scope string_scope.
Local Open Scope list_scope.
Local Open Scope Z_scope.

(** ** Python exceptions and results *)

(** What a KeyError carries: a key of a dictionary of the class (a name,
    or a (protein, ligand) tuple as used by [self.trajectories]), a
    message, or the labels a pandas selection by a list of labels did not
    find, which pandas reports in a message that lists them. *)
Inductive pykey :=
| KStr (s : string)
| KInt (z : Z)
| KPair (a b : string)
| KMissing (labels : list string).

Inductive exn :=
| KeyError (k : pykey)
| IndexError
| AssertionError
| ValueError (msg : string)
| ExternalError (msg : string).

Inductive result (A : Type) :=
| Ok (a : A)
| Raise (e : exn).
Arguments Ok {A} a.
Arguments Raise {A} e.

#[global] Instance pykey_eq_dec : EqDecision pykey.
Proof. solve_decision. Defined.
#[global] Instance exn_eq_dec : EqDecision exn.
Proof. solve_decision. Defined.

#[global] Instance result_ret : MRet result := fun A a => Ok a.
#[global] Instance result_bind : MBind result := fun A B f m =>
  match m with
  | Ok a => f a
  | Raise e => Raise e
  end.

(** ** Insertion-ordered dictionaries

    A Python [dict] keeps its keys in insertion order, and assigning to a
    key that is present keeps the key's position. *)
Module Dict.
Section Dict.
Context {K : Type} `{EqDecision K} {A : Type}.

Definition t := list (K * A).

Fixpoint get (k : K) (d : t) : option A :=
    match d with
    | [] => None
    | (k', v) :: d' => if decide (k = k') then Some v else get k d'
    end.

  (** [d[k] = v] *)
Fixpoint set (k : K) (v : A) (d : t) : t :=
    match d with
    | [] => [(k, v)]
    | (k', v') :: d' =>
        if decide (k = k') then (k, v) :: d' else (k', v') :: set k v d'
    end.

  (** [k in d] *)
Definition mem (k : K) (d : t) : bool :=
    match get k d with Some _ => true | None => false end.

  (** [list(d)]: the keys in iteration order *)
Definition keys (d : t) : list K := map fst d.

Lemma get_set_eq k v d : get k (set k v d) = Some v.
Proof.
    induction d as [|[k' v'] d IH]; simpl.
    - by rewrite decide_True.
    - destruct (decide (k = k')) as [->|Hne]; simpl.
      + by rewrite decide_True.
      + by rewrite decide_False.
Qed.

Lemma get_set_ne k k' v d : k ≠ k' → get k' (set k v d) = get k' d.
Proof.
    intros Hne. induction d as [|[k0 v0] d IH]; simpl.
    - by rewrite decide_False.
    - destruct (decide (k = k0)) as [->|Hne0]; simpl.
      + by rewrite !decide_False.
      + destruct (decide (k' = k0)); done.
Qed.

Lemma set_set k v1 v2 d : set k v2 (set k v1 d) = set k v2 d.
Proof.
    induction d as [|[k' v'] d IH]; simpl.
    - by rewrite decide_True.
    - destruct (decide (k = k')) as [->|Hne]; simpl.
      + by rewrite decide_True.
      + rewrite decide_False by done. by rewrite IH.
Qed.

Lemma set_id k v d : get k d = Some v → set k v d = d.
Proof.
    induction d as [|[k' v'] d IH]; simpl; [done|].
    destruct (decide (k = k')) as [->|Hne].
    - by intros [= ->].
    - intros H. by rewrite IH.
Qed.

Lemma mem_get k d : mem k d = true ↔ is_Some (get k d).
Proof.
    unfold mem. destruct (get k d); split; try done; try by eexists.
Qed.

Lemma get_keys k d : is_Some (get k d) ↔ k ∈ keys d.
Proof.
    induction d as [|[k' v'] d IH]; simpl.
    - split; [by intros [? ?]|by intros ?%elem_of_nil].
    - destruct (decide (k = k')) as [->|Hne].
      + split; [intros _; by left|by eauto].
      + rewrite IH. split; [by right|].
        by intros [?|?]%elem_of_cons.
Qed.
End Dict.
Arguments t : clear implicits.
End Dict.

(** ** The combined results table

    [pele_analysis.data] is a pandas table with a multi-level row index.
    The class that builds it is not part of the sources, so the layout of
    the index is data of the model: the names of the levels, the labels of
    each level, and for every row its index tuple and its cells. *)
Inductive label :=
| LStr (s : string)
| LInt (z : Z).

#[global] Instance label_eq_dec : EqDecision label.
Proof. solve_decision. Defined.

(** Position of the first occurrence of [x] in [l]. *)
Fixpoint index_of (x : string) (l : list string) : option nat :=
  match l with
  | [] => None
  | y :: l' => if decide (x = y) then Some 0%nat else S <$> index_of x l'
  end.

(** Positions of all occurrences of [x] in [l], in order. *)
Fixpoint positions (x : string) (l : list string) : list nat :=
  match l with
  | [] => []
  | y :: l' =>
      (if decide (x = y) then [0%nat] else []) ++ map S (positions x l')
  end.

(** [for x in l: out.append(f(x))], stopping at the first exception. *)
Fixpoint for_each {A B : Type} (f : A → result B) (l : list A) : result (list B) :=
  match l with
  | [] => Ok []
  | x :: l' => y ← f x; ys ← for_each f l'; Ok (y :: ys)
  end.

Section Table.
Context {V : Type}.

Record DataFrame := {
    index_names : list string;          (* data.index.names *)
    index_levels : list (list label);   (* data.index.levels *)
    columns : list string;              (* data.keys() *)
    rows : list (list label * list V);  (* index tuple and cells, per row *)
    (* A cell as [to_numpy] holds it in the array made of the columns at
       the given positions: every cell is converted to the common dtype of
       these columns, which changes nothing when they have one dtype. *)
    common_dtype : list nat → V → V
  }.

  (** 2-D arrays: the column count is kept apart from the rows, as
      [shape[1]] is defined for an array without rows. *)
Record ndarray := {
    shape1 : nat;
    cells : list (list V)
  }.
Definition shape0 (a : ndarray) : nat := length (cells a).

  (** What [to_numpy] returns: a 1-D array for a Series, a 2-D array for a
      DataFrame. *)
Inductive nparray :=
  | Array1 (l : list V)
  | Array2 (a : ndarray).

  (** The level number of [index.get_level_values(name)]: a name that
      occurs several times among the names of the index is refused, and so
      is one that is no name of the index. *)
Definition level_position (name : string) (df : DataFrame) : result nat :=
    match positions name (index_names df) with
    | [] => Raise (KeyError (KStr ("Level " +:+ name +:+ " not found")))
    | [p] => Ok p
    | _ :: _ :: _ =>
        Raise (ValueError ("The name " +:+ name
                             +:+ " occurs multiple times, use a level number"))
    end.

  (** The label of a row at index level [p] is [x]. *)
Definition at_level (p : nat) (x : label) (r : list label * list V) : Prop :=
    r.1 !! p = Some x.

#[global] Instance at_level_dec p x r : Decision (at_level p x r).
Proof. unfold at_level. apply _. Defined.

  (** [df[df.index.get_level_values(name) == x]]: a boolean mask keeps the
      matching rows; the names and the levels of the index are those of
      [df], whether or not their labels still occur. *)
Definition select_level (name : string) (x : label) (df : DataFrame)
    : result DataFrame :=
    p ← level_position name df;
    Ok {| index_names := index_names df;
          index_levels := index_levels df;
          columns := columns df;
          rows := filter (at_level p x) (rows df);
          common_dtype := common_dtype df |}.

  (** [df.index.levels[3]] *)
Definition levels3 (df : DataFrame) : result (list label) :=
    match index_levels df !! 3%nat with
    | Some lv => Ok lv
    | None => Raise IndexError
    end.

  (** The columns at the positions [cs], as [to_numpy] returns them for
      a DataFrame. *)
Definition to_numpy (cs : list nat) (df : DataFrame) : ndarray :=
    {| shape1 := length cs;
       cells := map (λ r, omap (λ c, common_dtype df cs <$> r.2 !! c) cs)
                  (rows df) |}.

  (** [df[metric].to_numpy()]: a name that is a column once selects a
      Series, whose array is 1-D and holds the cells as they are; a name
      that several columns bear selects the DataFrame of these columns. *)
Definition column (metric : string) (df : DataFrame) : result nparray :=
    match positions metric (columns df) with
    | [] => Raise (KeyError (KStr metric))
    | [c] => Ok (Array1 (omap (λ r, r.2 !! c) (rows df)))
    | cs => Ok (Array2 (to_numpy cs df))
    end.

  (** [df[metrics].to_numpy()] for a list of names: every column that
      bears a listed name, name after name, as a 2-D array. *)
Definition columns_to_numpy (metrics : list string) (df : DataFrame)
    : result ndarray :=
    if decide (Forall (λ m, m ∈ columns df) metrics)
    then Ok (to_numpy (concat (map (λ m, positions m (columns df)) metrics))
               df)
    else Raise (KeyError
                  (KMissing (filter (λ m, m ∉ columns df) metrics))).

  (** Lines 183-190, on the table held by the analysis object. *)
Definition getMetricData_table (data : DataFrame)
      (ligand protein metric : string) : result (list nparray) :=
    ligand_data ← select_level "Ligand" (LStr ligand) data;
    protein_data ← select_level "Protein" (LStr protein) ligand_data;
    trajectory_labels ← levels3 ligand_data;
    for_each (λ trajectory,
        trajectory_data ← select_level "Trajectory" trajectory protein_data;
        column metric trajectory_data)
      trajectory_labels.

  (** Every row has one cell per column. *)
Definition rows_wf (df : DataFrame) : Prop :=
    Forall (λ r, length r.2 = length (columns df)) (rows df).

  (** The rows of the (protein, ligand) pair whose Trajectory label is [t],
      for an index with the three levels at [pl], [pp] and [pt]. *)
Definition frames_of (pl pp pt : nat) (ligand protein : string) (t : label)
      (df : DataFrame) : list (list label * list V) :=
    filter (at_level pt t)
      (filter (at_level pp (LStr protein))
         (filter (at_level pl (LStr ligand)) (rows df))).

  (** The Trajectory labels that occur on the rows of the (protein, ligand)
      pair, each once, in order of first occurrence. *)
Definition pair_trajectory_labels (pl pp pt : nat) (ligand protein : string)
      (df : DataFrame) : list label :=
    remove_dups
      (omap (λ r, r.1 !! pt)
         (filter (at_level pp (LStr protein))
            (filter (at_level pl (LStr ligand)) (rows df)))).
End Table.
Arguments DataFrame : clear implicits.
Arguments ndarray : clear implicits.
Arguments nparray : clear implicits.

(** ** Arrays *)
Section Arrays.
Context {V : Type}.
Implicit Types a b : ndarray V.

  (** [np.concatenate([a, b], axis=1)] *)
Definition concatenate_axis1 a b : result (ndarray V) :=
    if decide (shape0 a = shape0 b)
    then Ok {| shape1 := shape1 a + shape1 b;
               cells := zip_with app (cells a) (cells b) |}
    else Raise (ValueError "all the input array dimensions except for the concatenation axis must match exactly").

  (** [np.concatenate(l)], along the rows *)
Definition concatenate (l : list (ndarray V)) : result (ndarray V) :=
    match l with
    | [] => Raise (ValueError "need at least one array to concatenate")
    | a :: l' =>
        if forallb (λ b, Nat.eqb (shape1 b) (shape1 a)) l'
        then Ok {| shape1 := shape1 a; cells := concat (map cells l) |}
        else Raise (ValueError "all the input array dimensions except for the concatenation axis must match exactly")
    end.

  (** [a[:, i]] for [i >= 0] *)
Definition column_at (i : nat) a : result (list V) :=
    if decide (i < shape1 a)%nat
    then Ok (omap (λ r, r !! i) (cells a))
    else Raise IndexError.

  (** The stop of the slice [[:k]] on a dimension of size [n]. *)
Definition slice_stop (k : Z) (n : nat) : nat :=
    if decide (0 ≤ k) then Nat.min (Z.to_nat k) n
    else Z.to_nat (Z.of_nat n + k).

  (** [a[:, :k]] *)
Definition columns_upto (k : Z) a : ndarray V :=
    {| shape1 := slice_stop k (shape1 a);
       cells := map (take (slice_stop k (shape1 a))) (cells a) |}.
End Arrays.

(** [range(lo, hi)] *)
Definition py_range (lo hi : Z) : list Z :=
  map (λ i, lo + Z.of_nat i) (seq 0 (Z.to_nat (hi - lo))).

(** [list(itertools.combinations(l, r=2))] *)
Fixpoint combinations2 {A : Type} (l : list A) : list (A * A) :=
  match l with
  | [] => []
  | x :: l' => map (λ y, (x, y)) l' ++ combinations2 l'
  end.

(** ** The instance and its collaborators *)
Section Model.
Context {V path featurizer selection tica_model : Type}.

Abbreviation array := (ndarray V).

  (** The analysis object handed to the constructor. *)
Record PeleAnalysis := {
    proteins : list string;
    pele_combinations : list (string * string);
    pele_data : DataFrame V               (* pele_analysis.data *)
  }.

  (** The parts of pyemma the class calls; each call may raise. *)
Record Pyemma := {
    coordinates_load : list path → featurizer → result (list array);
    feat_select : featurizer → string → result selection;
    feat_add_selection : featurizer → selection → result featurizer;
    coordinates_tica : list array → Z → result tica_model;
    tica_get_output : tica_model → result (list array);
    tica_transform : tica_model → list array → result (list array)
  }.

  (** Calls into the plotting libraries, in the order they are made. *)
Inductive plot_call :=
  | Figure (w h : Z)
  | Subplots (nrows : Z) (w h : Z)
  | Plot (xs : list Z) (ys : list nat)
  | XLabel (s : string)
  | YLabel (s : string)
  | FeatureHistograms (a : array) (feature_labels : list string)
  | TightLayout
  | Density (x y : list V) (ax : option nat)
  | SetXLabel (ax : option nat) (s : string)
  | SetYLabel (ax : option nat) (s : string).

  (** The attributes of a [ligand_msm] instance (lines 22-35); [ndims]
      does not exist until [calculateTICA] has assigned it. *)
Record ligand_msm := {
    pele_analysis : PeleAnalysis;
    trajectories : Dict.t (string * string) (list path);
    all_trajectories : list path;
    topology : Dict.t string path;
    ligand_atoms : Dict.t string (list string);
    features : Dict.t string featurizer;
    data : Dict.t string (Dict.t string (list array));
    tica_output : Dict.t string (Dict.t string (list array));
    tica_concatenated : Dict.t string (Dict.t string array);
    all_data : Dict.t string (list array);
    all_tica : Dict.t string tica_model;
    all_tica_output : Dict.t string (list array);
    all_tica_concatenated : Dict.t string array;
    metric_features : Dict.t string (Dict.t string (list array));
    ndims : option nat
  }.

  (** The instance together with the plotting calls made so far. *)
Record world := {
    self : ligand_msm;
    plots : list plot_call
  }.

Definition set_features v (s : ligand_msm) : ligand_msm :=
    {| pele_analysis := pele_analysis s; trajectories := trajectories s;
       all_trajectories := all_trajectories s; topology := topology s;
       ligand_atoms := ligand_atoms s; features := v; data := data s;
       tica_output := tica_output s; tica_concatenated := tica_concatenated s;
       all_data := all_data s; all_tica := all_tica s;
       all_tica_output := all_tica_output s;
       all_tica_concatenated := all_tica_concatenated s;
       metric_features := metric_features s; ndims := ndims s |}.

Definition set_data v (s : ligand_msm) : ligand_msm :=
    {| pele_analysis := pele_analysis s; trajectories := trajectories s;
       all_trajectories := all_trajectories s; topology := topology s;
       ligand_atoms := ligand_atoms s; features := features s; data := v;
       tica_output := tica_output s; tica_concatenated := tica_concatenated s;
       all_data := all_data s; all_tica := all_tica s;
       all_tica_output := all_tica_output s;
       all_tica_concatenated := all_tica_concatenated s;
       metric_features := metric_features s; ndims := ndims s |}.

Definition set_tica_output v (s : ligand_msm) : ligand_msm :=
    {| pele_analysis := pele_analysis s; trajectories := trajectories s;
       all_trajectories := all_trajectories s; topology := topology s;
       ligand_atoms := ligand_atoms s; features := features s; data := data s;
       tica_output := v; tica_concatenated := tica_concatenated s;
       all_data := all_data s; all_tica := all_tica s;
       all_tica_output := all_tica_output s;
       all_tica_concatenated := all_tica_concatenated s;
       metric_features := metric_features s; ndims := ndims s |}.

Definition set_tica_concatenated v (s : ligand_msm) : ligand_msm :=
    {| pele_analysis := pele_analysis s; trajectories := trajectories s;
       all_trajectories := all_trajectories s; topology := topology s;
       ligand_atoms := ligand_atoms s; features := features s; data := data s;
       tica_output := tica_output s; tica_concatenated := v;
       all_data := all_data s; all_tica := all_tica s;
       all_tica_output := all_tica_output s;
       all_tica_concatenated := all_tica_concatenated s;
       metric_features := metric_features s; ndims := ndims s |}.

Definition set_all_data v (s : ligand_msm) : ligand_msm :=
    {| pele_analysis := pele_analysis s; trajectories := trajectories s;
       all_trajectories := all_trajectories s; topology := topology s;
       ligand_atoms := ligand_atoms s; features := features s; data := data s;
       tica_output := tica_output s; tica_concatenated := tica_concatenated s;
       all_data := v; all_tica := all_tica s;
       all_tica_output := all_tica_output s;
       all_tica_concatenated := all_tica_concatenated s;
       metric_features := metric_features s; ndims := ndims s |}.

Definition set_all_tica v (s : ligand_msm) : ligand_msm :=
    {| pele_analysis := pele_analysis s; trajectories := trajectories s;
       all_trajectories := all_trajectories s; topology := topology s;
       ligand_atoms := ligand_atoms s; features := features s; data := data s;
       tica_output := tica_output s; tica_concatenated := tica_concatenated s;
       all_data := all_data s; all_tica := v;
       all_tica_output := all_tica_output s;
       all_tica_concatenated := all_tica_concatenated s;
       metric_features := metric_features s; ndims := ndims s |}.

Definition set_all_tica_output v (s : ligand_msm) : ligand_msm :=
    {| pele_analysis := pele_analysis s; trajectories := trajectories s;
       all_trajectories := all_trajectories s; topology := topology s;
       ligand_atoms := ligand_atoms s; features := features s; data := data s;
       tica_output := tica_output s; tica_concatenated := tica_concatenated s;
       all_data := all_data s; all_tica := all_tica s;
       all_tica_output := v;
       all_tica_concatenated := all_tica_concatenated s;
       metric_features := metric_features s; ndims := ndims s |}.

Definition set_all_tica_concatenated v (s : ligand_msm) : ligand_msm :=
    {| pele_analysis := pele_analysis s; trajectories := trajectories s;
       all_trajectories := all_trajectories s; topology := topology s;
       ligand_atoms := ligand_atoms s; features := features s; data := data s;
       tica_output := tica_output s; tica_concatenated := tica_concatenated s;
       all_data := all_data s; all_tica := all_tica s;
       all_tica_output := all_tica_output s;
       all_tica_concatenated := v;
       metric_features := metric_features s; ndims := ndims s |}.

Definition set_metric_features v (s : ligand_msm) : ligand_msm :=
    {| pele_analysis := pele_analysis s; trajectories := trajectories s;
       all_trajectories := all_trajectories s; topology := topology s;
       ligand_atoms := ligand_atoms s; features := features s; data := data s;
       tica_output := tica_output s; tica_concatenated := tica_concatenated s;
       all_data := all_data s; all_tica := all_tica s;
       all_tica_output := all_tica_output s;
       all_tica_concatenated := all_tica_concatenated s;
       metric_features := v; ndims := ndims s |}.

Definition set_ndims v (s : ligand_msm) : ligand_msm :=
    {| pele_analysis := pele_analysis s; trajectories := trajectories s;
       all_trajectories := all_trajectories s; topology := topology s;
       ligand_atoms := ligand_atoms s; features := features s; data := data s;
       tica_output := tica_output s; tica_concatenated := tica_concatenated s;
       all_data := all_data s; all_tica := all_tica s;
       all_tica_output := all_tica_output s;
       all_tica_concatenated := all_tica_concatenated s;
       metric_features := metric_features s; ndims := v |}.

  (** *** Methods as computations

      A method runs on a world and leaves a world and either a value or
      the exception it raised; what was assigned before an exception stays
      assigned. *)
Definition M (A : Type) : Type := world → world * result A.

#[global] Instance M_ret : MRet M := λ A a w, (w, Ok a).
#[global] Instance M_bind : MBind M := λ A B f m w,
    match m w with
    | (w', Ok a) => f a w'
    | (w', Raise e) => (w', Raise e)
    end.

Definition raise {A} (e : exn) : M A := λ w, (w, Raise e).
Definition lift {A} (r : result A) : M A := λ w, (w, r).
Definition read {A} (f : ligand_msm → A) : M A := λ w, (w, Ok (f (self w))).
Definition write (f : ligand_msm → ligand_msm) : M () :=
    λ w, ({| self := f (self w); plots := plots w |}, Ok ()).

  (** [d[k]] *)
Definition getitem {K A} `{EqDecision K} (repr : K → pykey) (k : K)
      (d : Dict.t K A) : result A :=
    match Dict.get k d with
    | Some v => Ok v
    | None => Raise (KeyError (repr k))
    end.

  (** [l[i]] for [i >= 0] *)
Definition list_getitem {A} (i : nat) (l : list A) : result A :=
    match l !! i with
    | Some v => Ok v
    | None => Raise IndexError
    end.

  (** A loop that carries local variables [acc] from one round to the next. *)
Fixpoint for_fold {A S} (l : list A) (body : S → A → M S) (acc : S) : M S :=
  match l with
  | [] => mret acc
  | x :: l' => acc' ← body acc x; for_fold l' body acc'
  end.

(** [for x in l: body(x)] *)
Fixpoint for_in {A} (l : list A) (body : A → M ()) : M () :=
    match l with
    | [] => mret ()
    | x :: l' => body x;; for_in l' body
    end.

  (** A call into the plotting libraries: recorded, then it returns or
      raises as the library decides. *)
Definition call_plot (plt : plot_call → option exn) (c : plot_call) : M () :=
    λ w, ({| self := self w; plots := plots w ++ [c] |},
          match plt c with
          | None => Ok ()
          | Some e => Raise e
          end).

Context (pyemma : Pyemma) (plt : plot_call → option exn).

Definition pair_key (k : string * string) : pykey := KPair k.1 k.2.

(** [self.data[ligand][protein]] *)
Definition data_list (ligand protein : string) : M (list array) :=
  d ← read data;
  lift (inner ← getitem KStr ligand d; getitem KStr protein inner).

(** [self.data[ligand][protein] = l] *)
Definition set_data_list (ligand protein : string) (l : list array) : M () :=
  d ← read data;
  inner ← lift (getitem KStr ligand d);
  write (set_data (Dict.set ligand (Dict.set protein l inner) d)).

(** [self.metric_features[ligand][protein]] *)
Definition metric_list (ligand protein : string) : M (list array) :=
  mf ← read metric_features;
  lift (inner ← getitem KStr ligand mf; getitem KStr protein inner).

(** *** addFeature (lines 56-90) *)

Definition implemented_features : list string := ["positions"; "metrics"].

(** ['%s' % l] for a list of plain names *)
Definition repr_list (l : list string) : string :=
  "[" +:+ String.concat ", " (map (λ s, "'" +:+ s +:+ "'") l) +:+ "]".

Definition not_implemented (feature : string) : string :=
  "Feature " +:+ feature +:+ " not implemented. try: "
    +:+ repr_list implemented_features.

(** The body of the loop over the trajectories (lines 89-90). *)
Definition append_metric (ligand protein : string) (metrics : list string)
    (protein_data : DataFrame V) (trajectory : label) : M () :=
  trajectory_data ← lift (select_level "Trajectory" trajectory protein_data);
  mf ← read metric_features;
  inner ← lift (getitem KStr ligand mf);
  l ← lift (getitem KStr protein inner);
  arr ← lift (columns_to_numpy metrics trajectory_data);
  write (set_metric_features
           (Dict.set ligand (Dict.set protein (l ++ [arr]) inner) mf)).

(** The body of the loop over the proteins (lines 84-90). *)
Definition register_metrics (ligand : string) (metrics : list string)
    (ligand_data : DataFrame V) (protein : string) : M () :=
  mf ← read metric_features;
  inner ← lift (getitem KStr ligand mf);
  (if Dict.mem protein inner then mret ()
   else write (set_metric_features
                 (Dict.set ligand (Dict.set protein [] inner) mf)));;
  protein_data ← lift (select_level "Protein" (LStr protein) ligand_data);
  trajectory_labels ← lift (levels3 ligand_data);
  for_in trajectory_labels (append_metric ligand protein metrics protein_data).

(** The names of the metric columns (lines 74-77). *)
Definition metric_columns (df : DataFrame V) : list string :=
  filter (λ m, String.prefix "metric_" m) (columns df).

Definition addFeature (feature ligand : string) : M () :=
  (if decide (feature ∈ implemented_features) then mret ()
   else raise (ValueError (not_implemented feature)));;
  (if decide (feature = "positions") then
     fs ← read features;
     f ← lift (getitem KStr ligand fs);
     sel ← lift (feat_select pyemma f "all");
     f' ← lift (feat_add_selection pyemma f sel);
     write (set_features (Dict.set ligand f' fs))
   else mret ());;
  (if decide (feature = "metrics") then
     mf ← read metric_features;
     (if Dict.mem ligand mf then mret ()
      else write (set_metric_features (Dict.set ligand [] mf)));;
     pa ← read pele_analysis;
     let metrics := metric_columns (pele_data pa) in
     ligand_data ← lift (select_level "Ligand" (LStr ligand) (pele_data pa));
     for_in (proteins pa) (register_metrics ligand metrics ligand_data)
   else mret ()).

(** *** getFeaturesData (lines 92-114) *)

(** The body of the loop over [t] (lines 109-113). *)
Definition attach_metrics (ligand protein : string) (t : nat) : M () :=
  ms ← metric_list ligand protein;
  m_t ← lift (list_getitem t ms);
  ds ← data_list ligand protein;
  d_t ← lift (list_getitem t ds);
  (if decide (shape0 m_t = shape0 d_t) then mret ()
   else raise AssertionError);;
  new ← lift (concatenate_axis1 d_t m_t);
  set_data_list ligand protein (<[t:=new]> ds).

(** The body of the loop over the proteins (lines 103-114). *)
Definition load_protein (ligand protein : string) : M () :=
  trajs ← read trajectories;
  paths ← lift (getitem pair_key (protein, ligand) trajs);
  fs ← read features;
  f ← lift (getitem KStr ligand fs);
  loaded ← lift (coordinates_load pyemma paths f);
  set_data_list ligand protein loaded;;
  mf ← read metric_features;
  (if Dict.mem ligand mf then
     ms ← metric_list ligand protein;
     for_in (seq 0 (length ms)) (attach_metrics ligand protein)
   else mret ());;
  ad ← read all_data;
  pooled ← lift (getitem KStr ligand ad);
  ds ← data_list ligand protein;
  write (set_all_data (Dict.set ligand (pooled ++ ds) ad)).

Definition getFeaturesData (ligand : string) : M () :=
  d ← read data;
  (if Dict.mem ligand d then mret ()
   else write (set_data (Dict.set ligand [] d)));;
  ad ← read all_data;
  (if Dict.mem ligand ad then mret ()
   else write (set_all_data (Dict.set ligand [] ad)));;
  pa ← read pele_analysis;
  for_in (proteins pa) (load_protein ligand).

(** *** calculateTICA (lines 116-133) *)

(** The body of the loop over the proteins (lines 132-133);
    [self.all_tica[ligand]] is the model assigned on line 121. *)
Definition project_protein (ligand : string) (model : tica_model)
    (protein : string) : M () :=
  ds ← data_list ligand protein;
  o ← lift (tica_transform pyemma model ds);
  tout ← read tica_output;
  inner ← lift (getitem KStr ligand tout);
  write (set_tica_output (Dict.set ligand (Dict.set protein o inner) tout));;
  c ← lift (concatenate o);
  tcon ← read tica_concatenated;
  inner ← lift (getitem KStr ligand tcon);
  write (set_tica_concatenated
           (Dict.set ligand (Dict.set protein c inner) tcon)).

Definition calculateTICA (ligand : string) (lag_time : Z) : M () :=
  ad ← read all_data;
  pooled ← lift (getitem KStr ligand ad);
  model ← lift (coordinates_tica pyemma pooled lag_time);
  models ← read all_tica;
  write (set_all_tica (Dict.set ligand model models));;
  out ← lift (tica_get_output pyemma model);
  outs ← read all_tica_output;
  write (set_all_tica_output (Dict.set ligand out outs));;
  conc ← lift (concatenate out);
  concs ← read all_tica_concatenated;
  write (set_all_tica_concatenated (Dict.set ligand conc concs));;
  write (set_ndims (Some (shape1 conc)));;
  tout ← read tica_output;
  (if Dict.mem ligand tout then mret ()
   else write (set_tica_output (Dict.set ligand [] tout)));;
  tcon ← read tica_concatenated;
  (if Dict.mem ligand tcon then mret ()
   else write (set_tica_concatenated (Dict.set ligand [] tcon)));;
  d ← read data;
  per_protein ← lift (getitem KStr ligand d);
  for_in (Dict.keys per_protein) (project_protein ligand model).

(** *** plotLagTimeVsTICADim (lines 135-148) *)

Definition newline : string := String (Ascii.ascii_of_nat 10) EmptyString.

(** The body of the loop (lines 139-142), with the two local lists. *)
Definition sweep_step (ligand : string) (acc : list Z * list nat) (lt : Z)
  : M (list Z * list nat) :=
  let '(lag_times, dims) := acc in
  calculateTICA ligand lt;;
  concs ← read all_tica_concatenated;
  conc ← lift (getitem KStr ligand concs);
  mret (lag_times ++ [lt], dims ++ [shape1 conc]).

Definition plotLagTimeVsTICADim (ligand : string) (max_lag_time : Z) : M () :=
  swept ← for_fold (py_range 1 (max_lag_time + 1)) (sweep_step ligand) ([], []);
  call_plot plt (Figure 4 2);;
  call_plot plt (Plot swept.1 swept.2);;
  call_plot plt (XLabel "Lag time [ns]");;
  call_plot plt
    (YLabel ("Nbr. of dimensions holding" +:+ newline
               +:+ "95% of the kinetic variance")).

(** *** plotTICADistribution (lines 150-159) *)

Definition plotTICADistribution (ligand : string) (max_tica : Z) : M () :=
  call_plot plt (Subplots 1 12 max_tica);;
  concs ← read all_tica_concatenated;
  conc ← lift (getitem KStr ligand concs);
  let feature_labels :=
    map (λ i, "IC" +:+ pretty i) (py_range 1 (max_tica + 1)) in
  call_plot plt (FeatureHistograms (columns_upto max_tica conc) feature_labels);;
  call_plot plt TightLayout.

(** *** plotTICADensity (lines 161-178) *)

Definition plotTICADensity (ligand : string) (ndims : Z) : M () :=
  IC ← for_fold (py_range 0 ndims)
    (λ (IC : Dict.t Z (list V)) i,
       concs ← read all_tica_concatenated;
       conc ← lift (getitem KStr ligand concs);
       col ← lift (column_at (Z.to_nat i) conc);
       mret (Dict.set i col IC))
    [];
  let combinations := combinations2 (py_range 0 ndims) in
  let n := length combinations in
  call_plot plt (Subplots (Z.of_nat n) 7 (5 * Z.of_nat n));;
  for_in (zip (seq 0 n) combinations) (λ '(i, c),
    let ax := if decide (n ≤ 1)%nat then None else Some i in
    x ← lift (getitem KInt c.1 IC);
    y ← lift (getitem KInt c.2 IC);
    call_plot plt (Density x y ax);;
    call_plot plt (SetXLabel ax ("IC " +:+ pretty (c.1 + 1)));;
    call_plot plt (SetYLabel ax ("IC " +:+ pretty (c.2 + 1)))).

(** *** getMetricData (lines 180-190) *)

Definition getMetricData (ligand protein metric : string)
  : M (list (nparray V)) :=
  pa ← read pele_analysis;
  lift (getMetricData_table (pele_data pa) ligand protein metric).

(** ** The methods as functions on the instance

    The definitions the proofs below work with: the loops of the methods
    as functions on the instance, the entries they read and assign, and
    the predicates the theorems are stated with. *)

(** [m] raises only exceptions that satisfy [P]. *)
Definition raises_only {A} (P : exn → Prop) (m : M A) : Prop :=
  ∀ w w' e, m w = (w', Raise e) → P e.

(** [m] leaves the component [g] of the world as it found it, however it
    ends. *)
Definition stable {A X} (g : world → X) (m : M A) : Prop :=
  ∀ w w' r, m w = (w', r) → g w' = g w.

(** An exception of a dictionary or list access. *)
Definition lookup_error (e : exn) : Prop :=
  (∃ k, e = KeyError k) ∨ e = IndexError.

(** An exception of reading the table: a lookup error, or the
    ValueError of pandas for a level name that the index has more than
    once. *)
Definition table_error (e : exn) : Prop :=
  lookup_error e
  ∨ ∃ name, e = ValueError ("The name " +:+ name
                              +:+ " occurs multiple times, use a level number").

(** The world after an assignment [f] to the instance. *)
Definition upd (f : ligand_msm → ligand_msm) (w : world) : world :=
  {| self := f (self w); plots := plots w |}.

(** [self.data[ligand][protein] = l], where [self.data[ligand]] exists *)
Definition put_data (ligand protein : string) (l : list array)
    (s : ligand_msm) : ligand_msm :=
  match Dict.get ligand (data s) with
  | Some inner => set_data (Dict.set ligand (Dict.set protein l inner) (data s)) s
  | None => s
  end.

(** The loop over [t] of lines 107-113, which reads and writes only the
    list [self.data[ligand][protein]], as a function of the metric arrays
    [ms] and of that list [ds]: the list it leaves, and how it ends. *)
Fixpoint attach_loop (ts : list nat) (ms ds : list array)
  : list array * result () :=
  match ts with
  | [] => (ds, Ok ())
  | t :: ts' =>
      match ms !! t, ds !! t with
      | Some m_t, Some d_t =>
          if decide (shape0 m_t = shape0 d_t) then
            match concatenate_axis1 d_t m_t with
            | Ok new => attach_loop ts' ms (<[t:=new]> ds)
            | Raise e => (ds, Raise e)
            end
          else (ds, Raise AssertionError)
      | _, _ => (ds, Raise IndexError)
      end
  end.

(** The arrays of one protein after lines 103-113, from the arrays
    [loaded] read from its trajectory files. *)
Definition attached (s : ligand_msm) (ligand protein : string)
    (loaded : list array) : list array * result () :=
  match Dict.get ligand (metric_features s) with
  | None => (loaded, Ok ())
  | Some inner_m =>
      match Dict.get protein inner_m with
      | None => (loaded, Raise (KeyError (KStr protein)))
      | Some ms => attach_loop (seq 0 (length ms)) ms loaded
      end
  end.

(** [self.all_data[ligand] += ds], where [self.all_data[ligand]] exists *)
Definition extend_all_data (ligand : string) (ds : list array)
    (s : ligand_msm) : ligand_msm :=
  match Dict.get ligand (all_data s) with
  | Some pooled => set_all_data (Dict.set ligand (pooled ++ ds) (all_data s)) s
  | None => s
  end.

(** [d] with the columns of [m] to its right. *)
Definition hstack (d m : array) : array :=
  {| shape1 := shape1 d + shape1 m;
     cells := zip_with app (cells d) (cells m) |}.

(** [load_protein] as a function: the instance it leaves, and how it
    ends. *)
Definition load_protein_fn (ligand protein : string) (s : ligand_msm)
  : ligand_msm * result () :=
  match Dict.get (protein, ligand) (trajectories s) with
  | None => (s, Raise (KeyError (KPair protein ligand)))
  | Some paths =>
      match Dict.get ligand (features s) with
      | None => (s, Raise (KeyError (KStr ligand)))
      | Some f =>
          match coordinates_load pyemma paths f with
          | Raise e => (s, Raise e)
          | Ok loaded =>
              match attached s ligand protein loaded with
              | (ds, Ok _) =>
                  (extend_all_data ligand ds (put_data ligand protein ds s),
                   Ok ())
              | (ds, Raise e) => (put_data ligand protein ds s, Raise e)
              end
          end
      end
  end.

(** The loop over the proteins of lines 101-114, stopping at the first
    exception. *)
Fixpoint load_all (ligand : string) (ps : list string) (s : ligand_msm)
  : ligand_msm * result () :=
  match ps with
  | [] => (s, Ok ())
  | p :: ps' =>
      match load_protein_fn ligand p s with
      | (s1, Ok _) => load_all ligand ps' s1
      | (s1, Raise e) => (s1, Raise e)
      end
  end.

(** Lines 95-99: the entries of the ligand, created when missing. *)
Definition init_entries (ligand : string) (s : ligand_msm) : ligand_msm :=
  let s1 := if Dict.mem ligand (data s) then s
            else set_data (Dict.set ligand [] (data s)) s in
  if Dict.mem ligand (all_data s1) then s1
  else set_all_data (Dict.set ligand [] (all_data s1)) s1.

(** The world with the instance [s] and the plotting calls of [w]. *)
Definition with_self (s : ligand_msm) (w : world) : world :=
  {| self := s; plots := plots w |}.

(** [self.data[ligand][protein]], if it exists *)
Definition data_at (s : ligand_msm) (ligand protein : string)
  : option (list array) :=
  match Dict.get ligand (data s) with
  | Some inner => Dict.get protein inner
  | None => None
  end.

(** The instance has what [getFeaturesData] reads for a protein: its
    trajectory files load as [loaded], and [ms] are its metric arrays, one
    for each loaded array. *)
Definition ready (s : ligand_msm) (ligand protein : string)
    (loaded ms : list array) : Prop :=
  ∃ paths f inner_m,
    Dict.get (protein, ligand) (trajectories s) = Some paths
    ∧ Dict.get ligand (features s) = Some f
    ∧ coordinates_load pyemma paths f = Ok loaded
    ∧ Dict.get ligand (metric_features s) = Some inner_m
    ∧ Dict.get protein inner_m = Some ms
    ∧ length ms = length loaded.

(** Trajectory [t] has a feature array and a metric array with different
    row counts. *)
Definition mismatch (loaded ms : list array) (t : nat) : Prop :=
  ∃ d m, loaded !! t = Some d ∧ ms !! t = Some m ∧ shape0 m ≠ shape0 d.

(** Every array of [ds] is the loaded array with the columns of its metric
    array to its right. *)
Definition extended (loaded ms ds : list array) : Prop :=
  length ds = length loaded
  ∧ ∀ t d m, loaded !! t = Some d → ms !! t = Some m →
      ds !! t = Some (hstack d m).

(** The arrays [load_protein] stores for a protein when it returns. *)
Definition featurised (s : ligand_msm) (ligand protein : string)
  : option (list array) :=
  match Dict.get (protein, ligand) (trajectories s) with
  | None => None
  | Some paths =>
      match Dict.get ligand (features s) with
      | None => None
      | Some f =>
          match coordinates_load pyemma paths f with
          | Raise _ => None
          | Ok loaded =>
              match attached s ligand protein loaded with
              | (ds, Ok _) => Some ds
              | (_, Raise _) => None
              end
          end
      end
  end.

(** [self.metric_features[ligand][protein]], if it exists *)
Definition metric_at (s : ligand_msm) (ligand protein : string)
  : option (list array) :=
  match Dict.get ligand (metric_features s) with
  | Some inner => Dict.get protein inner
  | None => None
  end.

(** [self.metric_features[ligand][protein] = l], where
    [self.metric_features[ligand]] exists *)
Definition put_metrics (ligand protein : string) (l : list array)
    (s : ligand_msm) : ligand_msm :=
  match Dict.get ligand (metric_features s) with
  | Some inner =>
      set_metric_features
        (Dict.set ligand (Dict.set protein l inner) (metric_features s)) s
  | None => s
  end.

(** The array appended for one trajectory label (lines 89-90). *)
Definition trajectory_array (metrics : list string)
    (protein_data : DataFrame V) (trajectory : label) : result array :=
  trajectory_data ← select_level "Trajectory" trajectory protein_data;
  columns_to_numpy metrics trajectory_data.

(** The arrays appended for one protein (lines 87-90). *)
Definition metric_arrays (metrics : list string) (ligand_data : DataFrame V)
    (protein : string) : result (list array) :=
  protein_data ← select_level "Protein" (LStr protein) ligand_data;
  trajectory_labels ← levels3 ligand_data;
  for_each (trajectory_array metrics protein_data) trajectory_labels.

(** The arrays [addFeature('metrics', ligand)] appends for a protein. *)
Definition registered_arrays (pa : PeleAnalysis) (ligand protein : string)
  : result (list array) :=
  ligand_data ← select_level "Ligand" (LStr ligand) (pele_data pa);
  metric_arrays (metric_columns (pele_data pa)) ligand_data protein.

(** Lines 70-71: the entry of the ligand, created when missing. *)
Definition init_metrics (ligand : string) (s : ligand_msm) : ligand_msm :=
  if Dict.mem ligand (metric_features s) then s
  else set_metric_features (Dict.set ligand [] (metric_features s)) s.

(** [self.tica_output[ligand][protein]], if it exists *)
Definition tout_at (s : ligand_msm) (ligand protein : string)
  : option (list array) :=
  match Dict.get ligand (tica_output s) with
  | Some inner => Dict.get protein inner
  | None => None
  end.

(** [self.tica_concatenated[ligand][protein]], if it exists *)
Definition tcon_at (s : ligand_msm) (ligand protein : string)
  : option array :=
  match Dict.get ligand (tica_concatenated s) with
  | Some inner => Dict.get protein inner
  | None => None
  end.

(** [self.tica_output[ligand][protein] = o], where the entry of the
    ligand exists *)
Definition put_tout (ligand protein : string) (o : list array)
    (s : ligand_msm) : ligand_msm :=
  match Dict.get ligand (tica_output s) with
  | Some inner =>
      set_tica_output
        (Dict.set ligand (Dict.set protein o inner) (tica_output s)) s
  | None => s
  end.

(** [self.tica_concatenated[ligand][protein] = c], where the entry of the
    ligand exists *)
Definition put_tcon (ligand protein : string) (c : array)
    (s : ligand_msm) : ligand_msm :=
  match Dict.get ligand (tica_concatenated s) with
  | Some inner =>
      set_tica_concatenated
        (Dict.set ligand (Dict.set protein c inner) (tica_concatenated s)) s
  | None => s
  end.

(** Lines 132-133 for one protein. *)
Definition project_protein_fn (ligand : string) (model : tica_model)
    (protein : string) (s : ligand_msm) : ligand_msm * result () :=
  match data_at s ligand protein with
  | None =>
      (s, Raise (KeyError (KStr (if Dict.mem ligand (data s)
                                 then protein else ligand))))
  | Some ds =>
      match tica_transform pyemma model ds with
      | Raise e => (s, Raise e)
      | Ok o =>
          match concatenate o with
          | Raise e => (put_tout ligand protein o s, Raise e)
          | Ok c =>
              (put_tcon ligand protein c (put_tout ligand protein o s), Ok ())
          end
      end
  end.

(** The loop over the proteins of lines 131-133, stopping at the first
    exception. *)
Fixpoint project_all (ligand : string) (model : tica_model)
    (ps : list string) (s : ligand_msm) : ligand_msm * result () :=
  match ps with
  | [] => (s, Ok ())
  | p :: ps' =>
      match project_protein_fn ligand model p s with
      | (s1, Ok _) => project_all ligand model ps' s1
      | (s1, Raise e) => (s1, Raise e)
      end
  end.

(** Lines 127-130: the entries of the ligand, created when missing. *)
Definition init_tica (ligand : string) (s : ligand_msm) : ligand_msm :=
  let s1 := if Dict.mem ligand (tica_output s) then s
            else set_tica_output (Dict.set ligand [] (tica_output s)) s in
  if Dict.mem ligand (tica_concatenated s1) then s1
  else set_tica_concatenated (Dict.set ligand [] (tica_concatenated s1)) s1.

(** Lines 121-124, for a fitted [model] with output [out] and pooled
    output [conc]. *)
Definition record_fit (ligand : string) (model : tica_model)
    (out : list array) (conc : array) (s : ligand_msm) : ligand_msm :=
  set_ndims (Some (shape1 conc))
    (set_all_tica_concatenated
       (Dict.set ligand conc (all_tica_concatenated s))
       (set_all_tica_output (Dict.set ligand out (all_tica_output s))
          (set_all_tica (Dict.set ligand model (all_tica s)) s))).

(** [calculateTICA] as a function: the instance it leaves, and how it
    ends. *)
Definition calculateTICA_fn (ligand : string) (lag_time : Z)
    (s : ligand_msm) : ligand_msm * result () :=
  match Dict.get ligand (all_data s) with
  | None => (s, Raise (KeyError (KStr ligand)))
  | Some pooled =>
      match coordinates_tica pyemma pooled lag_time with
      | Raise e => (s, Raise e)
      | Ok model =>
          let s1 := set_all_tica (Dict.set ligand model (all_tica s)) s in
          match tica_get_output pyemma model with
          | Raise e => (s1, Raise e)
          | Ok out =>
              let s2 :=
                set_all_tica_output
                  (Dict.set ligand out (all_tica_output s1)) s1 in
              match concatenate out with
              | Raise e => (s2, Raise e)
              | Ok conc =>
                  let s4 := init_tica ligand (record_fit ligand model out conc s) in
                  match Dict.get ligand (data s4) with
                  | None => (s4, Raise (KeyError (KStr ligand)))
                  | Some per_protein =>
                      project_all ligand model (Dict.keys per_protein) s4
                  end
              end
          end
      end
  end.

(** The projection of one protein: the transformed arrays and their
    concatenation. *)
Definition projection (s : ligand_msm) (ligand : string) (model : tica_model)
    (protein : string) : option (list array * array) :=
  match data_at s ligand protein with
  | None => None
  | Some ds =>
      match tica_transform pyemma model ds with
      | Raise _ => None
      | Ok o =>
          match concatenate o with
          | Raise _ => None
          | Ok c => Some (o, c)
          end
      end
  end.

(** What a fit reads: the pooled arrays of the ligand, what pyemma makes
    of them, and the arrays of the proteins. *)
Definition fit_inputs (s : ligand_msm) (ligand : string) (lag_time : Z)
    (model : tica_model) (out : list array) (conc : array)
    (per_protein : Dict.t string (list array)) : Prop :=
  ∃ pooled,
    Dict.get ligand (all_data s) = Some pooled
    ∧ coordinates_tica pyemma pooled lag_time = Ok model
    ∧ tica_get_output pyemma model = Ok out
    ∧ concatenate out = Ok conc
    ∧ Dict.get ligand (data s) = Some per_protein.

(** What a fit that returns has assigned in [s'], from the instance [s]
    it started on. *)
Definition fit_outputs (s s' : ligand_msm) (ligand : string)
    (model : tica_model) (out : list array) (conc : array)
    (per_protein : Dict.t string (list array)) : Prop :=
  Dict.get ligand (all_tica s') = Some model
  ∧ Dict.get ligand (all_tica_output s') = Some out
  ∧ Dict.get ligand (all_tica_concatenated s') = Some conc
  ∧ ndims s' = Some (shape1 conc)
  ∧ ∀ p, p ∈ Dict.keys per_protein →
      ∃ o c, projection s ligand model p = Some (o, c)
             ∧ tout_at s' ligand p = Some o ∧ tcon_at s' ligand p = Some c.

(** The results of a fit for the ligand are the same in two instances:
    the model, its outputs, the pooled output, [ndims], and the projections
    of every protein. *)
Definition same_fit (ligand : string) (s1 s2 : ligand_msm) : Prop :=
  Dict.get ligand (all_tica s1) = Dict.get ligand (all_tica s2)
  ∧ Dict.get ligand (all_tica_output s1) = Dict.get ligand (all_tica_output s2)
  ∧ Dict.get ligand (all_tica_concatenated s1)
    = Dict.get ligand (all_tica_concatenated s2)
  ∧ ndims s1 = ndims s2
  ∧ ∀ p, tout_at s1 ligand p = tout_at s2 ligand p
         ∧ tcon_at s1 ligand p = tcon_at s2 ligand p.

(** pyemma projects every trajectory on its own: the arrays [os] it
    returns for the arrays [ds] have the frames of [ds] and [dim]
    columns. *)
Definition projects_each (dim : nat) (ds os : list array) : Prop :=
  Forall2 (λ d o, shape0 o = shape0 d ∧ shape1 o = dim) ds os.

(** ** Reasoning about computations *)

Lemma bind_run {A B} (m : M A) (f : A → M B) w :
  (m ≫= f) w =
  match m w with
  | (w', Ok a) => f a w'
  | (w', Raise e) => (w', Raise e)
  end.
Proof. reflexivity. Qed.

Lemma bind_ok {A B} (m : M A) (f : A → M B) w w' a :
  m w = (w', Ok a) → (m ≫= f) w = f a w'.
Proof. intros H. by rewrite bind_run, H. Qed.

Lemma bind_raise {A B} (m : M A) (f : A → M B) w w' e :
  m w = (w', Raise e) → (m ≫= f) w = (w', Raise e).
Proof. intros H. by rewrite bind_run, H. Qed.

(** A computation that ends normally, split at its first step. *)
Lemma bind_ok_inv {A B} (m : M A) (f : A → M B) w w2 b :
  (m ≫= f) w = (w2, Ok b) →
  ∃ w1 a, m w = (w1, Ok a) ∧ f a w1 = (w2, Ok b).
Proof.
  rewrite bind_run. destruct (m w) as [w1 [a|e]]; [by eauto|done].
Qed.

(** Running the first statement of a block. *)
Ltac run_ok H := etrans; [apply bind_ok; exact H|]; cbv beta.
Ltac run_read := etrans; [apply bind_ok; reflexivity|]; cbv beta.
Ltac run_lift H :=
  etrans; [apply bind_ok; unfold lift; rewrite H; reflexivity|]; cbv beta.
Ltac run_with H :=
  etrans; [apply bind_ok; unfold lift; apply (f_equal (pair _)); exact H|];
  cbv beta.
Ltac run_raise H :=
  etrans; [apply bind_raise; unfold lift; rewrite H; reflexivity|]; cbv beta.

Lemma raises_only_bind {A B} P (m : M A) (f : A → M B) :
  raises_only P m → (∀ a, raises_only P (f a)) → raises_only P (m ≫= f).
Proof.
  intros Hm Hf w w' e. rewrite bind_run.
  destruct (m w) as [w1 [a|e1]] eqn:E.
  - apply Hf.
  - intros [= <- <-]. by eapply Hm.
Qed.

Lemma raises_only_ret {A} P (a : A) : raises_only P (mret a).
Proof. by intros w w' e. Qed.

Lemma raises_only_read {A} P (f : ligand_msm → A) : raises_only P (read f).
Proof. by intros w w' e. Qed.

Lemma raises_only_write P f : raises_only P (write f).
Proof. by intros w w' e. Qed.

Lemma raises_only_lift {A} (P : exn → Prop) (r : result A) :
  (∀ e, r = Raise e → P e) → raises_only P (lift r).
Proof. intros H w w' e [= _ ->]. by apply H. Qed.

Lemma raises_only_for_in {A} P (l : list A) body :
  (∀ x, raises_only P (body x)) → raises_only P (for_in l body).
Proof.
  intros H. induction l as [|x l IH]; simpl.
  - apply raises_only_ret.
  - apply raises_only_bind; [apply H|]. by intros _.
Qed.

Lemma stable_bind {A B X} (g : world → X) (m : M A) (f : A → M B) :
  stable g m → (∀ a, stable g (f a)) → stable g (m ≫= f).
Proof.
  intros Hm Hf w w' r. rewrite bind_run.
  destruct (m w) as [w1 [a|e1]] eqn:E.
  - intros H. rewrite (Hf _ _ _ _ H). by eapply Hm.
  - intros [= <- <-]. by eapply Hm.
Qed.

Lemma stable_ret {A X} (g : world → X) (a : A) : stable g (mret a).
Proof. by intros w w' r [= <- <-]. Qed.

Lemma stable_raise {A X} (g : world → X) e : stable g (@raise A e).
Proof. by intros w w' r [= <- <-]. Qed.

Lemma stable_lift {A X} (g : world → X) (r : result A) : stable g (lift r).
Proof. by intros w w' r' [= <- <-]. Qed.

Lemma stable_read {A X} (g : world → X) (f : ligand_msm → A) :
  stable g (read f).
Proof. by intros w w' r [= <- <-]. Qed.

Lemma stable_write_plots f : stable plots (write f).
Proof. by intros w w' r [= <- <-]. Qed.

Lemma stable_call_plot_self c : stable self (call_plot plt c).
Proof. by intros w w' r [= <- <-]. Qed.

Lemma stable_for_in {A X} (g : world → X) (l : list A) body :
  (∀ x, stable g (body x)) → stable g (for_in l body).
Proof.
  intros H. induction l as [|x l IH]; simpl.
  - apply stable_ret.
  - apply stable_bind; [apply H|]. by intros _.
Qed.

Lemma stable_for_fold {A S X} (g : world → X) (l : list A)
    (body : S → A → M S) acc :
  (∀ s x, stable g (body s x)) → stable g (for_fold l body acc).
Proof.
  intros H. revert acc. induction l as [|x l IH]; simpl; intros acc.
  - apply stable_ret.
  - apply stable_bind; [apply H|]. intros a. apply IH.
Qed.

Lemma stable_if {A X} (g : world → X) (b : bool) (m1 m2 : M A) :
  stable g m1 → stable g m2 → stable g (if b then m1 else m2).
Proof. by destruct b. Qed.

Lemma stable_decide {A X} (g : world → X) (P : Prop) `{Decision P}
    (m1 m2 : M A) :
  stable g m1 → stable g m2 → stable g (if decide P then m1 else m2).
Proof. by destruct (decide P). Qed.

Create HintDb stable discriminated.
#[local] Hint Resolve stable_ret stable_raise stable_lift stable_read
  stable_write_plots stable_call_plot_self : stable.

Ltac stable_step :=
  first
    [ apply stable_bind; [|intros ?]
    | apply stable_for_in; intros ?
    | apply stable_for_fold; intros ? ?
    | apply stable_if
    | apply stable_decide
    | solve [auto with stable] ].

(** ** addFeature: the guard on the feature name *)

Lemma getitem_lookup_error {K A} `{EqDecision K} repr (k : K)
    (d : Dict.t K A) e :
  getitem repr k d = Raise e → lookup_error e.
Proof. unfold getitem. destruct (Dict.get k d); [done|]. intros [= <-]. left. eauto. Qed.

Lemma getitem_table_error {K A} `{EqDecision K} repr (k : K)
    (d : Dict.t K A) e :
  getitem repr k d = Raise e → table_error e.
Proof. intros H. left. by eapply getitem_lookup_error. Qed.

Lemma select_level_table_error name x (df : DataFrame V) e :
  select_level name x df = Raise e → table_error e.
Proof.
  unfold select_level, level_position.
  destruct (positions name (index_names df)) as [|p [|q ps]]; simpl;
    [|done|]; intros [= <-].
  - left. left. eauto.
  - right. eauto.
Qed.

Lemma levels3_table_error (df : DataFrame V) e :
  levels3 df = Raise e → table_error e.
Proof.
  unfold levels3. destruct (index_levels df !! 3%nat); [done|].
  intros [= <-]. left. by right.
Qed.

Lemma columns_to_numpy_table_error metrics (df : DataFrame V) e :
  columns_to_numpy metrics df = Raise e → table_error e.
Proof.
  unfold columns_to_numpy. destruct (decide _); [done|].
  intros [= <-]. left. left. eauto.
Qed.

Ltac raises_step :=
  first
    [ apply raises_only_bind; [|intros ?]
    | apply raises_only_for_in; intros ?
    | apply raises_only_ret
    | apply raises_only_read
    | apply raises_only_write
    | apply raises_only_lift; intros ? ?;
      eauto using getitem_table_error, select_level_table_error,
        levels3_table_error, columns_to_numpy_table_error ].

(** C4. A feature string other than 'positions' and 'metrics' makes
    [addFeature] raise ValueError with the message
    "Feature <value> not implemented. try: ['positions', 'metrics']" and
    leaves the instance and the plots as they were. For 'metrics' the
    only exceptions are lookup errors and the ValueError of pandas for a
    level name the index has more than once, never the ValueError of the
    guard; for 'positions' the only exceptions are the KeyError of an
    unknown ligand and those raised by the featurizer. *)
Theorem addFeature_guard (feature ligand : string) (w : world) :
  (feature ≠ "positions" → feature ≠ "metrics" →
   addFeature feature ligand w =
   (w, Raise (ValueError ("Feature " +:+ feature
                +:+ " not implemented. try: ['positions', 'metrics']"))))
  ∧ (feature = "metrics" →
     ∀ w' e, addFeature feature ligand w = (w', Raise e) →
             table_error e ∧ e ≠ ValueError (not_implemented feature))
  ∧ (feature = "positions" →
     ∀ w' e, addFeature feature ligand w = (w', Raise e) →
             e = KeyError (KStr ligand)
             ∨ (∃ f, feat_select pyemma f "all" = Raise e)
             ∨ (∃ f sel, feat_add_selection pyemma f sel = Raise e)).
Proof.
  split; [|split].
  - intros H1 H2. unfold addFeature. rewrite bind_run.
    destruct (decide (feature ∈ implemented_features)) as [Hin|Hout].
    + unfold implemented_features in Hin.
      apply elem_of_cons in Hin as [->|Hin]; [done|].
      apply elem_of_cons in Hin as [->|Hin]; [done|].
      by apply elem_of_nil in Hin.
    + reflexivity.
  - intros -> w' e Hrun.
    assert (table_error e) as He.
    { revert w w' e Hrun.
      change (raises_only table_error (addFeature "metrics" ligand)).
      unfold addFeature, register_metrics, append_metric. simpl.
      repeat raises_step.
      all: try (destruct (Dict.mem _ _); repeat raises_step). }
    split; [done|].
    destruct He as [[[k ->]| ->]|[name ->]]; done.
  - intros -> w' e. unfold addFeature. simpl.
    cbv [mbind M_bind mret M_ret read write lift raise].
    unfold getitem. destruct (Dict.get ligand (features (self w))) as [f|];
      simpl; [|intros [= _ <-]; by left].
    destruct (feat_select pyemma f "all") as [sel|e1] eqn:Es; simpl;
      [|intros [= _ <-]; right; left; eauto].
    destruct (feat_add_selection pyemma f sel) as [f'|e2] eqn:Ea; simpl;
      [|intros [= _ <-]; right; right; eauto].
    done.
Qed.

(** ** Plotting before fitting *)

Lemma py_range_cons lo hi :
  lo < hi → py_range lo hi = lo :: py_range (lo + 1) hi.
Proof.
  intros H. unfold py_range.
  replace (Z.to_nat (hi - lo)) with (S (Z.to_nat (hi - (lo + 1)))) by lia.
  simpl. f_equal; [lia|].
  rewrite <- seq_shift, map_map. apply map_ext. intros i. lia.
Qed.

Lemma py_range_nil lo hi : hi ≤ lo → py_range lo hi = [].
Proof.
  intros H. unfold py_range.
  by replace (Z.to_nat (hi - lo)) with 0%nat by lia.
Qed.

Lemma plotTICADistribution_stable ligand max_tica :
  stable self (plotTICADistribution ligand max_tica).
Proof. unfold plotTICADistribution. repeat stable_step. Qed.

Lemma plotTICADensity_stable ligand n :
  stable self (plotTICADensity ligand n).
Proof.
  unfold plotTICADensity. repeat stable_step.
  destruct x as [i c]. repeat stable_step.
Qed.

(** C8, as the code has it. For a ligand without an entry in
    [all_tica_concatenated]: [plotTICADistribution] raises KeyError for the
    ligand once its [plt.subplots] call has returned (an exception of that
    call comes first), [plotTICADensity] raises KeyError for the ligand
    before any plotting call when [ndims >= 1], and neither method changes
    an attribute of the instance, fitted or not. *)
Theorem plot_before_fit (ligand : string) (w : world) :
  Dict.get ligand (all_tica_concatenated (self w)) = None →
  (∀ max_tica,
     (plt (Subplots 1 12 max_tica) = None →
      plotTICADistribution ligand max_tica w =
      ({| self := self w; plots := plots w ++ [Subplots 1 12 max_tica] |},
       Raise (KeyError (KStr ligand))))
     ∧ (∀ e, plt (Subplots 1 12 max_tica) = Some e →
        (plotTICADistribution ligand max_tica w).2 = Raise e))
  ∧ (∀ ndims, 1 ≤ ndims →
       plotTICADensity ligand ndims w = (w, Raise (KeyError (KStr ligand))))
  ∧ (∀ k w' r, plotTICADistribution ligand k w = (w', r) → self w' = self w)
  ∧ (∀ k w' r, plotTICADensity ligand k w = (w', r) → self w' = self w).
Proof.
  intros Hnone. repeat split.
  - intros Hplt. unfold plotTICADistribution.
    cbv [mbind M_bind mret M_ret read write lift raise call_plot].
    rewrite Hplt. simpl. unfold getitem. by rewrite Hnone.
  - intros e Hplt. unfold plotTICADistribution.
    cbv [mbind M_bind mret M_ret read write lift raise call_plot].
    by rewrite Hplt.
  - intros n Hn. unfold plotTICADensity.
    rewrite (py_range_cons 0 n) by lia. simpl.
    cbv [mbind M_bind mret M_ret read write lift raise].
    unfold getitem. by rewrite Hnone.
  - intros k w' r. apply plotTICADistribution_stable.
  - intros k w' r. apply plotTICADensity_stable.
Qed.

(** ** getMetricData *)

Lemma index_of_lt x l c : index_of x l = Some c → (c < length l)%nat.
Proof.
  revert c. induction l as [|y l IH]; simpl; intros c; [done|].
  destruct (decide (x = y)).
  - intros [= <-]. lia.
  - destruct (index_of x l) as [c'|]; simpl; [|done].
    intros [= <-]. specialize (IH c' eq_refl). lia.
Qed.

Lemma index_of_lookup x l c : index_of x l = Some c → l !! c = Some x.
Proof.
  revert c. induction l as [|y l IH]; simpl; intros c; [done|].
  destruct (decide (x = y)) as [->|].
  - by intros [= <-].
  - destruct (index_of x l) as [c'|]; simpl; [|done].
    intros [= <-]. by apply IH.
Qed.

Lemma positions_not_elem x l : x ∉ l → positions x l = [].
Proof.
  induction l as [|y l IH]; simpl; [done|].
  intros [Hne Hl]%not_elem_of_cons.
  rewrite decide_False by done. by rewrite IH.
Qed.

(** A name that the list has once has its one position. *)
Lemma positions_index_of x l c :
  NoDup l → index_of x l = Some c → positions x l = [c].
Proof.
  intros Hnd. revert c. induction Hnd as [|y l Hy _ IH]; simpl; intros c;
    [done|].
  destruct (decide (x = y)) as [->|].
  - intros [= <-]. by rewrite positions_not_elem.
  - destruct (index_of x l) as [c'|]; simpl; [|done].
    intros [= <-]. by rewrite (IH c').
Qed.

Lemma level_position_ok name (df : DataFrame V) p :
  NoDup (index_names df) → index_of name (index_names df) = Some p →
  level_position name df = Ok p.
Proof.
  intros Hnd Hp. unfold level_position.
  by rewrite (positions_index_of _ _ _ Hnd Hp).
Qed.

Lemma for_each_ok {A B} (f : A → result B) (g : A → B) l :
  (∀ x, f x = Ok (g x)) → for_each f l = Ok (map g l).
Proof.
  intros H. induction l as [|x l IH]; simpl; [done|].
  by rewrite H, IH.
Qed.

Lemma omap_length_total {A B} (f : A → option B) l :
  Forall (λ x, is_Some (f x)) l → length (omap f l) = length l.
Proof.
  induction 1 as [|x l [y Hy] _ IH]; simpl; [done|].
  rewrite Hy. simpl. f_equal. exact IH.
Qed.

Lemma frames_of_cells pl pp pt ligand protein t (df : DataFrame V) c :
  rows_wf df → (c < length (columns df))%nat →
  Forall (λ r, is_Some (r.2 !! c)) (frames_of pl pp pt ligand protein t df).
Proof.
  intros Hwf Hc. unfold frames_of. apply Forall_forall. intros r Hr.
  apply lookup_lt_is_Some.
  apply list_elem_of_filter in Hr as [_ Hr].
  apply list_elem_of_filter in Hr as [_ Hr].
  apply list_elem_of_filter in Hr as [_ Hr].
  unfold rows_wf in Hwf. rewrite Forall_forall in Hwf.
  rewrite (Hwf r Hr). done.
Qed.

(** C1, as the code has it. On a table whose index has the levels Ligand,
    Protein and Trajectory, every level name and every column name once,
    with labels [lv] at index level 3 and a column [metric],
    [getMetricData] returns, without changing anything, one 1-D array per
    label of [lv], in the order of [lv]: the array of label [t] holds the
    [metric] cells of the rows of that ligand and protein whose Trajectory
    label is [t], so its length is the number of those rows, which is zero
    for a label that occurs only for other pairs. Level 3 is taken by its
    position: where the fourth level of the index is named Trajectory, it
    is the level the rows are matched on. *)
Theorem getMetricData_per_level_label
    (ligand protein metric : string) (w : world)
    (pl pp pt c : nat) (lv : list label) :
  let df := pele_data (pele_analysis (self w)) in
  NoDup (index_names df) →
  NoDup (columns df) →
  index_of "Ligand" (index_names df) = Some pl →
  index_of "Protein" (index_names df) = Some pp →
  index_of "Trajectory" (index_names df) = Some pt →
  index_levels df !! 3%nat = Some lv →
  index_of metric (columns df) = Some c →
  rows_wf df →
  (index_names df !! 3%nat = Some "Trajectory" → pt = 3%nat)
  ∧ ∃ arrs,
      getMetricData ligand protein metric w = (w, Ok arrs)
      ∧ length arrs = length lv
      ∧ ∀ i t, lv !! i = Some t →
          ∃ a, arrs !! i = Some (Array1 a)
               ∧ a = omap (λ r, r.2 !! c)
                       (frames_of pl pp pt ligand protein t df)
               ∧ length a = length (frames_of pl pp pt ligand protein t df).
Proof.
  intros df Hni Hnc Hl Hp Ht Hlv Hc Hwf. split.
  { intros H3. apply index_of_lookup in Ht.
    exact (NoDup_lookup _ _ _ _ Hni Ht H3). }
  exists (map (λ t, Array1 (omap (λ r, r.2 !! c)
                 (frames_of pl pp pt ligand protein t df))) lv).
  split; [|split].
  - unfold getMetricData.
    cbv [mbind M_bind mret M_ret read write lift raise]. f_equal.
    fold df. unfold getMetricData_table, select_level.
    rewrite (level_position_ok "Ligand" df pl) by done. simpl.
    rewrite (level_position_ok "Protein" _ pp) by done. simpl.
    unfold levels3. simpl. rewrite Hlv.
    apply for_each_ok. intros t.
    rewrite (level_position_ok "Trajectory" _ pt) by done. simpl.
    unfold column. simpl. by rewrite (positions_index_of _ _ _ Hnc Hc).
  - by rewrite length_map.
  - intros i t Hi. eexists. split; [|split; [reflexivity|]].
    + by rewrite list_lookup_fmap, Hi.
    + apply omap_length_total. apply frames_of_cells; [done|].
      by eapply index_of_lt.
Qed.

(** ** getFeaturesData: the loop over the trajectories

    The loop of lines 107-113 reads and writes only the list
    [self.data[ligand][protein]]; [attach_loop] is that loop as a function
    of the metric arrays [ms] and of the list [ds]. *)

Lemma data_list_run ligand protein w inner l :
  Dict.get ligand (data (self w)) = Some inner →
  Dict.get protein inner = Some l →
  data_list ligand protein w = (w, Ok l).
Proof.
  intros H1 H2. unfold data_list.
  cbv [mbind M_bind result_bind mret M_ret read write lift raise getitem].
  by rewrite H1, H2.
Qed.

Lemma metric_list_run ligand protein w inner l :
  Dict.get ligand (metric_features (self w)) = Some inner →
  Dict.get protein inner = Some l →
  metric_list ligand protein w = (w, Ok l).
Proof.
  intros H1 H2. unfold metric_list.
  cbv [mbind M_bind result_bind mret M_ret read write lift raise getitem].
  by rewrite H1, H2.
Qed.

Lemma set_data_list_run ligand protein l w inner :
  Dict.get ligand (data (self w)) = Some inner →
  set_data_list ligand protein l w = (upd (put_data ligand protein l) w, Ok ()).
Proof.
  intros H1. unfold set_data_list, upd, put_data.
  cbv [mbind M_bind result_bind mret M_ret read write lift raise getitem].
  by rewrite H1.
Qed.

Lemma put_data_get ligand protein l s inner :
  Dict.get ligand (data s) = Some inner →
  Dict.get ligand (data (put_data ligand protein l s))
  = Some (Dict.set protein l inner).
Proof.
  intros H. unfold put_data. rewrite H. simpl. apply Dict.get_set_eq.
Qed.

Lemma put_data_put_data ligand protein l1 l2 s :
  put_data ligand protein l2 (put_data ligand protein l1 s)
  = put_data ligand protein l2 s.
Proof.
  unfold put_data at 2 3.
  destruct (Dict.get ligand (data s)) as [inner|] eqn:E.
  - unfold put_data. simpl. rewrite Dict.get_set_eq.
    unfold set_data. simpl. by rewrite !Dict.set_set.
  - unfold put_data. by rewrite E.
Qed.

Lemma put_data_id ligand protein l s inner :
  Dict.get ligand (data s) = Some inner →
  Dict.get protein inner = Some l →
  put_data ligand protein l s = s.
Proof.
  intros H1 H2. unfold put_data. rewrite H1.
  rewrite (Dict.set_id _ _ _ H2), (Dict.set_id _ _ _ H1).
  by destruct s.
Qed.

Lemma put_data_frame ligand protein l s :
  let s' := put_data ligand protein l s in
  metric_features s' = metric_features s
  ∧ trajectories s' = trajectories s
  ∧ features s' = features s
  ∧ pele_analysis s' = pele_analysis s
  ∧ all_data s' = all_data s.
Proof. simpl. unfold put_data. by destruct (Dict.get ligand (data s)). Qed.

Lemma upd_upd f g w : upd f (upd g w) = upd (λ s, f (g s)) w.
Proof. reflexivity. Qed.

Lemma attach_metrics_run ligand protein t w inner_m ms inner ds :
  Dict.get ligand (metric_features (self w)) = Some inner_m →
  Dict.get protein inner_m = Some ms →
  Dict.get ligand (data (self w)) = Some inner →
  Dict.get protein inner = Some ds →
  attach_metrics ligand protein t w =
  match ms !! t, ds !! t with
  | Some m_t, Some d_t =>
      if decide (shape0 m_t = shape0 d_t) then
        match concatenate_axis1 d_t m_t with
        | Ok new => (upd (put_data ligand protein (<[t:=new]> ds)) w, Ok ())
        | Raise e => (w, Raise e)
        end
      else (w, Raise AssertionError)
  | _, _ => (w, Raise IndexError)
  end.
Proof.
  intros Hm1 Hm2 Hd1 Hd2. unfold attach_metrics.
  rewrite bind_run, (metric_list_run _ _ _ _ _ Hm1 Hm2).
  rewrite bind_run. unfold lift at 1, list_getitem at 1.
  destruct (ms !! t) as [m_t|] eqn:Emt; [|done].
  rewrite bind_run, (data_list_run _ _ _ _ _ Hd1 Hd2).
  rewrite bind_run. unfold lift at 1, list_getitem at 1.
  destruct (ds !! t) as [d_t|] eqn:Edt; [|done].
  rewrite bind_run.
  destruct (decide (shape0 m_t = shape0 d_t)) as [Heq|Hne]; [|done].
  cbn [mret M_ret]. rewrite bind_run. unfold lift at 1.
  destruct (concatenate_axis1 d_t m_t) as [new|e] eqn:Ec; [|done].
  by rewrite (set_data_list_run _ _ _ _ _ Hd1).
Qed.

Lemma attach_loop_run ligand protein ms ts :
  ∀ w inner_m inner ds,
    Dict.get ligand (metric_features (self w)) = Some inner_m →
    Dict.get protein inner_m = Some ms →
    Dict.get ligand (data (self w)) = Some inner →
    Dict.get protein inner = Some ds →
    for_in ts (attach_metrics ligand protein) w
    = (upd (put_data ligand protein (attach_loop ts ms ds).1) w,
       (attach_loop ts ms ds).2).
Proof.
  assert (∀ w inner ds,
            Dict.get ligand (data (self w)) = Some inner →
            Dict.get protein inner = Some ds →
            w = upd (put_data ligand protein ds) w) as Hid.
  { intros w inner ds H1 H2. unfold upd.
    rewrite (put_data_id _ _ _ _ _ H1 H2). by destruct w. }
  induction ts as [|t ts IH]; intros w inner_m inner ds Hm1 Hm2 Hd1 Hd2.
  - simpl. by rewrite <- (Hid _ _ _ Hd1 Hd2).
  - cbn [for_in attach_loop]. rewrite bind_run.
    rewrite (attach_metrics_run _ _ _ _ _ _ _ _ Hm1 Hm2 Hd1 Hd2).
    destruct (ms !! t) as [m_t|]; cycle 1.
    { simpl. by rewrite <- (Hid _ _ _ Hd1 Hd2). }
    destruct (ds !! t) as [d_t|]; cycle 1.
    { simpl. by rewrite <- (Hid _ _ _ Hd1 Hd2). }
    destruct (decide (shape0 m_t = shape0 d_t)) as [Heq|Hne]; cycle 1.
    { simpl. by rewrite <- (Hid _ _ _ Hd1 Hd2). }
    destruct (concatenate_axis1 d_t m_t) as [new|e] eqn:Ec; cycle 1.
    { simpl. by rewrite <- (Hid _ _ _ Hd1 Hd2). }
    erewrite IH; cycle 1.
    + simpl. rewrite (proj1 (put_data_frame _ _ _ _)). exact Hm1.
    + exact Hm2.
    + simpl. by apply put_data_get.
    + apply Dict.get_set_eq.
    + rewrite upd_upd. unfold upd. simpl.
      by rewrite put_data_put_data.
Qed.

Lemma load_protein_run ligand protein w inner pooled paths f loaded :
  Dict.get ligand (data (self w)) = Some inner →
  Dict.get ligand (all_data (self w)) = Some pooled →
  Dict.get (protein, ligand) (trajectories (self w)) = Some paths →
  Dict.get ligand (features (self w)) = Some f →
  coordinates_load pyemma paths f = Ok loaded →
  load_protein ligand protein w =
  match attached (self w) ligand protein loaded with
  | (ds, Ok _) =>
      (upd (λ s, extend_all_data ligand ds (put_data ligand protein ds s)) w,
       Ok ())
  | (ds, Raise e) => (upd (put_data ligand protein ds) w, Raise e)
  end.
Proof.
  intros Hd Ha Ht Hf Hload. unfold load_protein.
  rewrite bind_run. cbn [read]. rewrite bind_run. unfold lift at 1.
  unfold getitem at 1. rewrite Ht.
  rewrite bind_run. cbn [read]. rewrite bind_run. unfold lift at 1.
  unfold getitem at 1. rewrite Hf.
  rewrite bind_run. unfold lift at 1. rewrite Hload.
  rewrite bind_run, (set_data_list_run _ _ _ _ _ Hd).
  set (w1 := upd (put_data ligand protein loaded) w).
  assert (Dict.get ligand (data (self w1))
          = Some (Dict.set protein loaded inner)) as Hd1.
  { subst w1. simpl. by apply put_data_get. }
  assert (metric_features (self w1) = metric_features (self w)) as Hmf.
  { subst w1. simpl. apply put_data_frame. }
  assert (all_data (self w1) = all_data (self w)) as Had.
  { subst w1. simpl. apply put_data_frame. }
  rewrite bind_run. cbn [read]. rewrite Hmf.
  unfold attached, Dict.mem.
  destruct (Dict.get ligand (metric_features (self w))) as [inner_m|] eqn:Em.
  - rewrite bind_run, bind_run.
    destruct (Dict.get protein inner_m) as [ms|] eqn:Ems.
    + rewrite (metric_list_run ligand protein w1 inner_m ms)
        by (by rewrite ?Hmf).
      erewrite attach_loop_run; cycle 1.
      * rewrite Hmf. exact Em.
      * exact Ems.
      * exact Hd1.
      * apply Dict.get_set_eq.
      * destruct (attach_loop (seq 0 (length ms)) ms loaded) as [ds r].
        cbn [fst snd]. subst w1. rewrite upd_upd.
        destruct r as [[]|e].
        -- rewrite bind_run. cbn [read]. rewrite bind_run.
           unfold lift at 1, getitem at 1. cbn [upd self].
           rewrite put_data_put_data.
           rewrite (proj2 (proj2 (proj2 (proj2 (put_data_frame _ _ _ _))))).
           rewrite Ha.
           rewrite bind_run.
           erewrite data_list_run; cycle 1.
           { cbn [self]. by apply put_data_get. }
           { apply Dict.get_set_eq. }
           unfold write, upd, extend_all_data. cbn [self plots].
           rewrite (proj2 (proj2 (proj2 (proj2 (put_data_frame _ _ _ _))))).
           by rewrite Ha, put_data_put_data.
        -- unfold upd. cbn [self plots]. by rewrite put_data_put_data.
    + unfold metric_list. rewrite bind_run. cbn [read]. rewrite Hmf.
      unfold lift, getitem. cbn [mbind result_bind]. rewrite Em.
      cbn [mbind result_bind]. by rewrite Ems.
  - rewrite bind_run. cbn [mret M_ret].
    rewrite bind_run. cbn [read]. rewrite bind_run.
    unfold lift at 1, getitem at 1. rewrite Had, Ha.
    rewrite bind_run.
    erewrite data_list_run; cycle 1.
    { exact Hd1. }
    { apply Dict.get_set_eq. }
    subst w1. unfold write, upd, extend_all_data. cbn [self plots].
    rewrite (proj2 (proj2 (proj2 (proj2 (put_data_frame _ _ _ _))))).
    by rewrite Ha.
Qed.

Lemma concatenate_axis1_ok d m :
  shape0 m = shape0 d → concatenate_axis1 d m = Ok (hstack d m).
Proof. intros H. unfold concatenate_axis1. by rewrite decide_True. Qed.

Lemma hstack_shape0 d m : shape0 m = shape0 d → shape0 (hstack d m) = shape0 d.
Proof.
  unfold shape0, hstack. simpl. intros H.
  rewrite length_zip_with. lia.
Qed.

(** What the loop over [t] leaves in the list, for as many metric arrays
    as loaded arrays: either every pair of arrays agrees on its row count
    and every array has gained the metric columns, or the loop stopped
    with AssertionError at the first pair [t] that disagrees, with the
    arrays before [t] extended and the arrays from [t] on as loaded. *)
Lemma attach_loop_seq ms n :
  ∀ t0 ds,
    length ds = length ms → (t0 + n = length ms)%nat →
    length (attach_loop (seq t0 n) ms ds).1 = length ds
    ∧ (∀ t, (t < t0)%nat → (attach_loop (seq t0 n) ms ds).1 !! t = ds !! t)
    ∧ (((attach_loop (seq t0 n) ms ds).2 = Ok ()
        ∧ ∀ t d m, (t0 ≤ t)%nat → ds !! t = Some d → ms !! t = Some m →
            shape0 m = shape0 d
            ∧ (attach_loop (seq t0 n) ms ds).1 !! t = Some (hstack d m))
       ∨ ((attach_loop (seq t0 n) ms ds).2 = Raise AssertionError
          ∧ ∃ t d m, (t0 ≤ t)%nat ∧ ds !! t = Some d ∧ ms !! t = Some m
              ∧ shape0 m ≠ shape0 d
              ∧ (∀ t', (t ≤ t')%nat →
                   (attach_loop (seq t0 n) ms ds).1 !! t' = ds !! t')
              ∧ (∀ t' d' m', (t0 ≤ t' < t)%nat →
                   ds !! t' = Some d' → ms !! t' = Some m' →
                   shape0 m' = shape0 d'
                   ∧ (attach_loop (seq t0 n) ms ds).1 !! t'
                     = Some (hstack d' m')))).
Proof.
  induction n as [|n IH]; intros t0 ds Hlen Hn.
  - simpl. split; [done|]. split; [done|]. left. split; [done|].
    intros t d m Ht Hd Hm. apply lookup_lt_Some in Hd. lia.
  - cbn [seq attach_loop].
    destruct (ms !! t0) as [m0|] eqn:Em0; cycle 1.
    { apply lookup_ge_None in Em0. lia. }
    destruct (ds !! t0) as [d0|] eqn:Ed0; cycle 1.
    { apply lookup_ge_None in Ed0. lia. }
    destruct (decide (shape0 m0 = shape0 d0)) as [Heq|Hne]; cycle 1.
    { simpl. split; [done|]. split; [done|]. right. split; [done|].
      exists t0, d0, m0. repeat split; try done. all: lia. }
    rewrite (concatenate_axis1_ok _ _ Heq).
    set (ds1 := <[t0:=hstack d0 m0]> ds).
    destruct (IH (S t0) ds1) as (IHlen & IHlt & IHr).
    { subst ds1. by rewrite length_insert. }
    { lia. }
    assert (∀ t, t ≠ t0 → ds1 !! t = ds !! t) as Hother.
    { intros t Ht. subst ds1. by rewrite list_lookup_insert_ne. }
    assert (ds1 !! t0 = Some (hstack d0 m0)) as Hat.
    { subst ds1. apply list_lookup_insert_eq. by eapply lookup_lt_Some. }
    split; [|split].
    + rewrite IHlen. subst ds1. by rewrite length_insert.
    + intros t Ht. rewrite IHlt by lia. apply Hother. lia.
    + destruct IHr as [[Hok Hall]|[Hfail (t & d & m & Ht & Hd & Hm & Hne & Hafter & Hbefore)]].
      * left. split; [done|]. intros t d m Ht Hd Hm.
        destruct (decide (t = t0)) as [->|Hneq].
        -- rewrite Ed0 in Hd. rewrite Em0 in Hm.
           injection Hd as <-. injection Hm as <-.
           split; [done|]. rewrite IHlt by lia. done.
        -- apply Hall; [lia| |done]. by rewrite Hother.
      * right. split; [done|]. exists t, d, m.
        rewrite Hother in Hd by lia.
        repeat split; try done.
        -- lia.
        -- intros t' Ht'. rewrite Hafter by done. apply Hother. lia.
        -- destruct (decide (t' = t0)) as [->|Hneq].
           ++ rewrite Ed0 in H0. rewrite Em0 in H1. by simplify_eq.
           ++ eapply (Hbefore t'); [lia| |done]. by rewrite Hother.
        -- destruct (decide (t' = t0)) as [->|Hneq].
           ++ rewrite Ed0 in H0. rewrite Em0 in H1. simplify_eq.
              rewrite IHlt by lia. done.
           ++ eapply (Hbefore t'); [lia| |done]. by rewrite Hother.
Qed.

(** ** getFeaturesData as a function on the instance

    [load_protein] and the loop over the proteins change the instance
    only; [load_protein_fn] and [load_all] are the same steps as
    functions, with the exception, if any, beside the instance as it is
    when the exception is raised. *)

Lemma extend_all_data_frame ligand ds s :
  let s' := extend_all_data ligand ds s in
  metric_features s' = metric_features s
  ∧ trajectories s' = trajectories s
  ∧ features s' = features s
  ∧ pele_analysis s' = pele_analysis s
  ∧ data s' = data s.
Proof.
  simpl. unfold extend_all_data. by destruct (Dict.get ligand (all_data s)).
Qed.

Lemma load_protein_eq ligand protein w :
  is_Some (Dict.get ligand (data (self w))) →
  is_Some (Dict.get ligand (all_data (self w))) →
  load_protein ligand protein w
  = (with_self (load_protein_fn ligand protein (self w)).1 w,
     (load_protein_fn ligand protein (self w)).2).
Proof.
  intros [inner Hd] [pooled Ha]. unfold load_protein_fn.
  destruct (Dict.get (protein, ligand) (trajectories (self w)))
    as [paths|] eqn:Ht; cycle 1.
  { unfold load_protein. rewrite bind_run. cbn [read]. rewrite bind_run.
    unfold lift at 1, getitem at 1. rewrite Ht. by destruct w. }
  destruct (Dict.get ligand (features (self w))) as [f|] eqn:Hf; cycle 1.
  { unfold load_protein. rewrite bind_run. cbn [read]. rewrite bind_run.
    unfold lift at 1, getitem at 1. rewrite Ht.
    rewrite bind_run. cbn [read]. rewrite bind_run.
    unfold lift at 1, getitem at 1. rewrite Hf. by destruct w. }
  destruct (coordinates_load pyemma paths f) as [loaded|e] eqn:Hload; cycle 1.
  { unfold load_protein. rewrite bind_run. cbn [read]. rewrite bind_run.
    unfold lift at 1, getitem at 1. rewrite Ht.
    rewrite bind_run. cbn [read]. rewrite bind_run.
    unfold lift at 1, getitem at 1. rewrite Hf.
    rewrite bind_run. unfold lift at 1. rewrite Hload. by destruct w. }
  rewrite (load_protein_run _ _ _ _ _ _ _ _ Hd Ha Ht Hf Hload).
  by destruct (attached (self w) ligand protein loaded) as [ds [[]|e]].
Qed.

(** The entries of the ligand stay in place. *)
Lemma load_protein_fn_entries ligand protein s :
  is_Some (Dict.get ligand (data s)) →
  is_Some (Dict.get ligand (all_data s)) →
  is_Some (Dict.get ligand (data (load_protein_fn ligand protein s).1))
  ∧ is_Some (Dict.get ligand (all_data (load_protein_fn ligand protein s).1)).
Proof.
  intros [inner Hd] [pooled Ha]. unfold load_protein_fn.
  destruct (Dict.get (protein, ligand) (trajectories s)); [|by eauto].
  destruct (Dict.get ligand (features s)); [|by eauto].
  destruct (coordinates_load pyemma _ _) as [loaded|]; [|by eauto].
  destruct (attached s ligand protein loaded) as [ds [[]|e]]; cbn [fst].
  - rewrite (proj2 (proj2 (proj2 (proj2 (extend_all_data_frame _ _ _))))).
    rewrite (put_data_get _ _ _ _ _ Hd). split; [by eauto|].
    unfold extend_all_data.
    rewrite (proj2 (proj2 (proj2 (proj2 (put_data_frame _ _ _ _))))).
    rewrite Ha. simpl. rewrite Dict.get_set_eq. by eauto.
  - rewrite (put_data_get _ _ _ _ _ Hd).
    rewrite (proj2 (proj2 (proj2 (proj2 (put_data_frame _ _ _ _))))).
    by eauto.
Qed.

Lemma load_loop_eq ligand ps :
  ∀ w,
    is_Some (Dict.get ligand (data (self w))) →
    is_Some (Dict.get ligand (all_data (self w))) →
    for_in ps (load_protein ligand) w
    = (with_self (load_all ligand ps (self w)).1 w,
       (load_all ligand ps (self w)).2).
Proof.
  induction ps as [|p ps IH]; intros w Hd Ha.
  - simpl. by destruct w.
  - cbn [for_in load_all]. rewrite bind_run, (load_protein_eq _ _ _ Hd Ha).
    destruct (load_protein_fn_entries ligand p (self w) Hd Ha) as [Hd1 Ha1].
    destruct (load_protein_fn ligand p (self w)) as [s1 [[]|e]]; [|done].
    cbn [fst snd] in *. rewrite IH by done. done.
Qed.

Lemma getFeaturesData_eq ligand w :
  getFeaturesData ligand w
  = let s0 := init_entries ligand (self w) in
    (with_self (load_all ligand (proteins (pele_analysis s0)) s0).1 w,
     (load_all ligand (proteins (pele_analysis s0)) s0).2).
Proof.
  unfold getFeaturesData.
  rewrite bind_run. cbn [read]. rewrite bind_run.
  assert (∀ (b : bool) f v,
            (if b then mret () else write f) v
            = (with_self (if b then self v else f (self v)) v, Ok ())) as Hif.
  { intros [] f v; [by destruct v|done]. }
  rewrite Hif. rewrite bind_run. cbn [read]. rewrite bind_run, Hif.
  rewrite bind_run. cbn [read].
  set (w2 := with_self _ (with_self _ w)).
  assert (self w2 = init_entries ligand (self w)) as Hs.
  { subst w2. unfold init_entries. cbn [self with_self]. reflexivity. }
  rewrite load_loop_eq.
  - rewrite Hs. by subst w2.
  - rewrite Hs. unfold init_entries.
    destruct (Dict.mem ligand (data (self w))) eqn:E1.
    + apply Dict.mem_get in E1.
      by destruct (Dict.mem ligand (all_data (self w))).
    + simpl. destruct (Dict.mem ligand (all_data (self w))); simpl;
        rewrite Dict.get_set_eq; by eauto.
  - rewrite Hs. unfold init_entries.
    set (s1 := if Dict.mem ligand (data (self w)) then _ else _).
    destruct (Dict.mem ligand (all_data s1)) eqn:E2.
    + by apply Dict.mem_get in E2.
    + simpl. rewrite Dict.get_set_eq. by eauto.
Qed.

(** ** getFeaturesData: the row-count assertion *)

Lemma put_data_data_at_eq ligand protein ds s :
  is_Some (Dict.get ligand (data s)) →
  data_at (put_data ligand protein ds s) ligand protein = Some ds.
Proof.
  intros [inner H]. unfold data_at.
  rewrite (put_data_get _ _ _ _ _ H). apply Dict.get_set_eq.
Qed.

Lemma put_data_data_at_ne ligand p q ds s :
  q ≠ p → data_at (put_data ligand q ds s) ligand p = data_at s ligand p.
Proof.
  intros Hne. unfold data_at.
  destruct (Dict.get ligand (data s)) as [inner|] eqn:H.
  - rewrite (put_data_get _ _ _ _ _ H). by apply Dict.get_set_ne.
  - unfold put_data. by rewrite H, H.
Qed.

Lemma extend_all_data_data_at ligand ds s l p :
  data_at (extend_all_data ligand ds s) l p = data_at s l p.
Proof.
  unfold data_at.
  by rewrite (proj2 (proj2 (proj2 (proj2 (extend_all_data_frame _ _ _))))).
Qed.

Lemma load_protein_fn_frame ligand protein s :
  let s' := (load_protein_fn ligand protein s).1 in
  metric_features s' = metric_features s
  ∧ trajectories s' = trajectories s
  ∧ features s' = features s
  ∧ pele_analysis s' = pele_analysis s.
Proof.
  simpl. unfold load_protein_fn.
  destruct (Dict.get (protein, ligand) (trajectories s)); [|done].
  destruct (Dict.get ligand (features s)); [|done].
  destruct (coordinates_load pyemma _ _) as [loaded|]; [|done].
  destruct (attached s ligand protein loaded) as [ds [[]|e]]; cbn [fst].
  - destruct (extend_all_data_frame ligand ds (put_data ligand protein ds s))
      as (-> & -> & -> & -> & _).
    destruct (put_data_frame ligand protein ds s) as (-> & -> & -> & -> & _).
    done.
  - destruct (put_data_frame ligand protein ds s) as (-> & -> & -> & -> & _).
    done.
Qed.

Lemma load_protein_fn_other ligand p q s :
  q ≠ p →
  data_at (load_protein_fn ligand q s).1 ligand p = data_at s ligand p.
Proof.
  intros Hne. unfold load_protein_fn.
  destruct (Dict.get (q, ligand) (trajectories s)); [|done].
  destruct (Dict.get ligand (features s)); [|done].
  destruct (coordinates_load pyemma _ _) as [loaded|]; [|done].
  destruct (attached s ligand q loaded) as [ds [[]|e]]; cbn [fst].
  - rewrite extend_all_data_data_at. by apply put_data_data_at_ne.
  - by apply put_data_data_at_ne.
Qed.

Lemma load_all_other ligand p ps :
  ∀ s, p ∉ ps → data_at (load_all ligand ps s).1 ligand p = data_at s ligand p.
Proof.
  induction ps as [|q ps IH]; intros s Hp; [done|].
  apply not_elem_of_cons in Hp as [Hne Hp]. cbn [load_all].
  pose proof (load_protein_fn_other ligand p q s (not_eq_sym Hne)) as Hq.
  destruct (load_protein_fn ligand q s) as [s1 [[]|e]]; cbn [fst] in *.
  - by rewrite IH.
  - done.
Qed.

Lemma load_protein_fn_ready ligand protein s loaded ms :
  ready s ligand protein loaded ms →
  load_protein_fn ligand protein s =
  match attach_loop (seq 0 (length ms)) ms loaded with
  | (ds, Ok _) =>
      (extend_all_data ligand ds (put_data ligand protein ds s), Ok ())
  | (ds, Raise e) => (put_data ligand protein ds s, Raise e)
  end.
Proof.
  intros (paths & f & inner_m & Ht & Hf & Hl & Hm & Hms & _).
  unfold load_protein_fn, attached. by rewrite Ht, Hf, Hl, Hm, Hms.
Qed.

Lemma ready_frame s s' ligand protein loaded ms :
  metric_features s' = metric_features s →
  trajectories s' = trajectories s →
  features s' = features s →
  ready s ligand protein loaded ms → ready s' ligand protein loaded ms.
Proof. unfold ready. by intros -> -> ->. Qed.

Lemma load_protein_fn_ready_post ligand protein s loaded ms :
  ready s ligand protein loaded ms →
  is_Some (Dict.get ligand (data s)) →
  data_at (load_protein_fn ligand protein s).1 ligand protein
  = Some (attach_loop (seq 0 (length ms)) ms loaded).1
  ∧ (load_protein_fn ligand protein s).2
    = (attach_loop (seq 0 (length ms)) ms loaded).2.
Proof.
  intros Hr Hd. rewrite (load_protein_fn_ready _ _ _ _ _ Hr).
  destruct (attach_loop (seq 0 (length ms)) ms loaded) as [ds [[]|e]];
    cbn [fst snd].
  - rewrite extend_all_data_data_at. by rewrite put_data_data_at_eq.
  - by rewrite put_data_data_at_eq.
Qed.

Lemma load_all_ready ligand (loaded_of ms_of : string → list array) ps :
  ∀ s,
    is_Some (Dict.get ligand (data s)) →
    is_Some (Dict.get ligand (all_data s)) →
    (∀ p, p ∈ ps → ready s ligand p (loaded_of p) (ms_of p)) →
    ((load_all ligand ps s).2 = Ok ()
     ∧ (∀ p t, p ∈ ps → ¬ mismatch (loaded_of p) (ms_of p) t)
     ∧ (∀ p, p ∈ ps →
          ∃ ds, data_at (load_all ligand ps s).1 ligand p = Some ds
                ∧ extended (loaded_of p) (ms_of p) ds))
    ∨ ((load_all ligand ps s).2 = Raise AssertionError
       ∧ ∃ p t d m, p ∈ ps
           ∧ loaded_of p !! t = Some d ∧ ms_of p !! t = Some m
           ∧ shape0 m ≠ shape0 d
           ∧ ∃ ds, data_at (load_all ligand ps s).1 ligand p = Some ds
                   ∧ ds !! t = Some d).
Proof.
  induction ps as [|p ps IH]; intros s Hd Ha Hready.
  - left. simpl. split; [done|]. split; intros p; [intros t|];
      by intros ?%elem_of_nil.
  - assert (ready s ligand p (loaded_of p) (ms_of p)) as Hp.
    { apply Hready. by left. }
    destruct (load_protein_fn_ready_post _ _ _ _ _ Hp Hd) as [Hdat Hres].
    destruct (load_protein_fn_entries ligand p s Hd Ha) as [Hd1 Ha1].
    destruct (load_protein_fn_frame ligand p s) as (Fm & Ft & Ff & _).
    assert (length (loaded_of p) = length (ms_of p)) as Hlen.
    { destruct Hp as (? & ? & ? & _ & _ & _ & _ & _ & Hlen). done. }
    destruct (attach_loop_seq (ms_of p) (length (ms_of p)) 0 (loaded_of p)
                Hlen eq_refl) as (Alen & _ & Acase).
    cbn [load_all].
    destruct (load_protein_fn ligand p s) as [s1 r1]. cbn [fst snd] in *.
    destruct (attach_loop (seq 0 (length (ms_of p))) (ms_of p) (loaded_of p))
      as [ds r]. cbn [fst snd] in *. subst r1.
    destruct Acase as [[-> Hall]|[-> (t & d & m & _ & Hld & Hlm & Hne & Hafter & _)]].
    + destruct (IH s1 Hd1 Ha1) as [(Hok & Hno & Hdata)|(Hfail & Hex)].
      { intros q Hq. eapply ready_frame; [done..|]. apply Hready. by right. }
      * left. split; [done|]. split.
        -- intros q t [->|Hq]%elem_of_cons; [|by apply Hno].
           intros (d & m & Hld & Hlm & Hne).
           destruct (Hall t d m) as [Heq _]; [lia|done..].
        -- intros q Hq. destruct (decide (q ∈ ps)) as [Hin|Hout].
           { by apply Hdata. }
           apply elem_of_cons in Hq as [->|Hq]; [|done].
           exists ds. rewrite load_all_other by done.
           split; [done|]. split; [done|].
           intros t d m Hld Hlm. by apply Hall; [lia|..].
      * right. split; [done|].
        destruct Hex as (q & t & d & m & Hq & Hrest).
        exists q, t, d, m. split; [by right|done].
    + right. split; [done|]. exists p, t, d, m.
      split; [by left|]. repeat split; try done.
      exists ds. split; [done|]. rewrite Hafter by lia. done.
Qed.

Lemma init_entries_spec ligand s :
  let s0 := init_entries ligand s in
  is_Some (Dict.get ligand (data s0))
  ∧ is_Some (Dict.get ligand (all_data s0))
  ∧ metric_features s0 = metric_features s
  ∧ trajectories s0 = trajectories s
  ∧ features s0 = features s
  ∧ pele_analysis s0 = pele_analysis s.
Proof.
  simpl. unfold init_entries.
  destruct (Dict.mem ligand (data s)) eqn:E1.
  - apply Dict.mem_get in E1.
    destruct (Dict.mem ligand (all_data s)) eqn:E2.
    + by apply Dict.mem_get in E2.
    + simpl. rewrite Dict.get_set_eq. by eauto 10.
  - simpl. destruct (Dict.mem ligand (all_data s)) eqn:E2; simpl.
    + apply Dict.mem_get in E2. rewrite Dict.get_set_eq. by eauto 10.
    + rewrite !Dict.get_set_eq. by eauto 10.
Qed.

(** C3. When, for every protein, the ligand has as many registered metric
    arrays as loaded feature arrays, [getFeaturesData] makes no plotting
    call and ends in one of two ways. It raises AssertionError exactly
    when some protein has a trajectory whose feature array and metric
    array differ in row count, and then the feature array of a mismatched
    trajectory is in [self.data] as it was loaded, without metric columns.
    Otherwise it returns, and every feature array of every protein has
    the columns of its metric array attached. *)
Theorem getFeaturesData_assertion (ligand : string) (w : world)
    (loaded_of ms_of : string → list array) :
  (∀ p, p ∈ proteins (pele_analysis (self w)) →
        ready (self w) ligand p (loaded_of p) (ms_of p)) →
  ∃ w' r,
    getFeaturesData ligand w = (w', r)
    ∧ plots w' = plots w
    ∧ (r = Ok () ∨ r = Raise AssertionError)
    ∧ (r = Raise AssertionError ↔
       ∃ p t, p ∈ proteins (pele_analysis (self w))
              ∧ mismatch (loaded_of p) (ms_of p) t)
    ∧ (r = Raise AssertionError →
       ∃ p t d m, p ∈ proteins (pele_analysis (self w))
         ∧ loaded_of p !! t = Some d ∧ ms_of p !! t = Some m
         ∧ shape0 m ≠ shape0 d
         ∧ ∃ ds, data_at (self w') ligand p = Some ds ∧ ds !! t = Some d)
    ∧ (r = Ok () →
       ∀ p, p ∈ proteins (pele_analysis (self w)) →
         ∃ ds, data_at (self w') ligand p = Some ds
               ∧ extended (loaded_of p) (ms_of p) ds).
Proof.
  intros Hready. rewrite getFeaturesData_eq. cbv zeta.
  destruct (init_entries_spec ligand (self w)) as (Hd & Ha & Fm & Ft & Ff & Fp).
  rewrite Fp.
  set (s0 := init_entries ligand (self w)) in *.
  set (ps := proteins (pele_analysis (self w))) in *.
  eexists _, _. split; [reflexivity|]. split; [done|].
  cbn [self with_self].
  destruct (load_all_ready ligand loaded_of ms_of ps s0 Hd Ha)
    as [(Hok & Hno & Hdata)|(Hfail & Hex)].
  { intros p Hp. eapply ready_frame; [done..|]. by apply Hready. }
  - rewrite Hok. split; [by left|]. split; [|split]; [|done|done].
    split; [done|]. intros (p & t & Hp & Hmis). by destruct (Hno p t).
  - rewrite Hfail. split; [by right|]. split; [|split]; [|done|done].
    split; [|done]. intros _.
    destruct Hex as (p & t & d & m & Hp & Hld & Hlm & Hne & _).
    exists p, t. split; [done|]. by exists d, m.
Qed.

(** ** getFeaturesData run again *)

Lemma load_protein_fn_ok ligand protein s s1 :
  load_protein_fn ligand protein s = (s1, Ok ()) ↔
  ∃ ds, featurised s ligand protein = Some ds
        ∧ s1 = extend_all_data ligand ds (put_data ligand protein ds s).
Proof.
  unfold load_protein_fn, featurised.
  destruct (Dict.get (protein, ligand) (trajectories s));
    [|split; [done|by intros (? & ? & _)]].
  destruct (Dict.get ligand (features s));
    [|split; [done|by intros (? & ? & _)]].
  destruct (coordinates_load pyemma _ _) as [loaded|];
    [|split; [done|by intros (? & ? & _)]].
  destruct (attached s ligand protein loaded) as [ds [[]|e]].
  - split.
    + intros [= <-]. by exists ds.
    + by intros (ds' & [= <-] & ->).
  - split; [done|by intros (? & ? & _)].
Qed.

Lemma featurised_frame s s' ligand protein :
  metric_features s' = metric_features s →
  trajectories s' = trajectories s →
  features s' = features s →
  featurised s' ligand protein = featurised s ligand protein.
Proof. unfold featurised, attached. by intros -> -> ->. Qed.

Lemma extend_all_data_get ligand ds s pooled :
  Dict.get ligand (all_data s) = Some pooled →
  Dict.get ligand (all_data (extend_all_data ligand ds s))
  = Some (pooled ++ ds).
Proof.
  intros H. unfold extend_all_data. rewrite H. simpl.
  apply Dict.get_set_eq.
Qed.

(** A first run that returns: every protein has its arrays in
    [self.data], and the pooled list has grown by all of them, in the
    order of the proteins. *)
Lemma load_all_first ligand ps :
  ∀ s s1 pooled,
    load_all ligand ps s = (s1, Ok ()) →
    is_Some (Dict.get ligand (data s)) →
    Dict.get ligand (all_data s) = Some pooled →
    ∃ dss,
      Forall2 (λ p ds, featurised s ligand p = Some ds) ps dss
      ∧ (∀ p, p ∈ ps → data_at s1 ligand p = featurised s ligand p)
      ∧ Dict.get ligand (all_data s1) = Some (pooled ++ concat dss)
      ∧ metric_features s1 = metric_features s
      ∧ trajectories s1 = trajectories s
      ∧ features s1 = features s
      ∧ pele_analysis s1 = pele_analysis s
      ∧ is_Some (Dict.get ligand (data s1)).
Proof.
  induction ps as [|p ps IH]; intros s s1 pooled Hrun Hd Ha.
  - injection Hrun as <-. exists []. simpl. rewrite app_nil_r.
    repeat split; try done. by intros p ?%elem_of_nil.
  - cbn [load_all] in Hrun.
    destruct (load_protein_fn ligand p s) as [sp [[]|e]] eqn:Hstep; [|done].
    pose proof (load_protein_fn_frame ligand p s) as Hfr.
    pose proof (load_protein_fn_entries ligand p s Hd (ex_intro _ _ Ha))
      as [Hdp _].
    rewrite Hstep in Hfr, Hdp. cbn [fst] in Hfr, Hdp.
    destruct Hfr as (Fm & Ft & Ff & Fp).
    apply load_protein_fn_ok in Hstep as (ds & Hds & ->).
    destruct (IH _ _ (pooled ++ ds) Hrun Hdp)
      as (dss & Hall & Hdat & Hpool & Gm & Gt & Gf & Gp & Hd1).
    { apply extend_all_data_get.
      by rewrite (proj2 (proj2 (proj2 (proj2 (put_data_frame _ _ _ _))))). }
    assert (∀ q, featurised
                   (extend_all_data ligand ds (put_data ligand p ds s))
                   ligand q = featurised s ligand q) as Hfeat.
    { intros q. by apply featurised_frame. }
    exists (ds :: dss). split; [|split; [|split]].
    + constructor; [done|].
      eapply Forall2_impl; [exact Hall|]. intros q dq; simpl.
      by rewrite Hfeat.
    + intros q Hq. destruct (decide (q ∈ ps)) as [Hin|Hout].
      { rewrite Hdat by done. apply Hfeat. }
      apply elem_of_cons in Hq as [->|Hq]; [|done].
      replace s1 with (load_all ligand ps
        (extend_all_data ligand ds (put_data ligand p ds s))).1
        by (by rewrite Hrun).
      rewrite load_all_other by done.
      rewrite extend_all_data_data_at, put_data_data_at_eq by done.
      done.
    + rewrite Hpool. simpl. by rewrite <- app_assoc.
    + rewrite Gm, Gt, Gf, Gp, Fm, Ft, Ff, Fp. done.
Qed.

(** A run on an instance whose [self.data] already holds the arrays of
    every protein: [self.data] stays as it is and the pooled list grows
    by the same arrays once more. *)
Lemma load_all_again ligand ps :
  ∀ s pooled dss,
    Forall2 (λ p ds, featurised s ligand p = Some ds) ps dss →
    (∀ p, p ∈ ps → data_at s ligand p = featurised s ligand p) →
    Dict.get ligand (all_data s) = Some pooled →
    ∃ s2,
      load_all ligand ps s = (s2, Ok ())
      ∧ data s2 = data s
      ∧ Dict.get ligand (all_data s2) = Some (pooled ++ concat dss).
Proof.
  induction ps as [|p ps IH]; intros s pooled dss Hall Hdat Ha.
  - apply Forall2_nil_inv_l in Hall as ->. exists s. simpl.
    by rewrite app_nil_r.
  - apply Forall2_cons_inv_l in Hall as (ds & dss' & Hds & Hall & ->).
    assert (put_data ligand p ds s = s) as Hput.
    { assert (data_at s ligand p = Some ds) as Hp.
      { rewrite Hdat by (by left). done. }
      unfold data_at in Hp.
      destruct (Dict.get ligand (data s)) as [inner|] eqn:E; [|done].
      by eapply put_data_id. }
    assert (load_protein_fn ligand p s
            = (extend_all_data ligand ds s, Ok ())) as Hstep.
    { apply load_protein_fn_ok. exists ds. by rewrite Hput. }
    destruct (extend_all_data_frame ligand ds s) as (Fm & Ft & Ff & Fp & Fd).
    assert (∀ q, featurised (extend_all_data ligand ds s) ligand q
                 = featurised s ligand q) as Hfeat.
    { intros q. by apply featurised_frame. }
    destruct (IH (extend_all_data ligand ds s) (pooled ++ ds) dss')
      as (s2 & Hrun & Hd2 & Ha2).
    + eapply Forall2_impl; [exact Hall|]. intros q dq; simpl.
      by rewrite Hfeat.
    + intros q Hq. rewrite extend_all_data_data_at, Hfeat.
      apply Hdat. by right.
    + by apply extend_all_data_get.
    + exists s2. cbn [load_all]. rewrite Hstep.
      split; [done|]. split; [by rewrite Hd2|].
      rewrite Ha2. simpl. by rewrite <- app_assoc.
Qed.

Lemma init_entries_id ligand s :
  is_Some (Dict.get ligand (data s)) →
  is_Some (Dict.get ligand (all_data s)) →
  init_entries ligand s = s.
Proof.
  intros Hd%Dict.mem_get Ha%Dict.mem_get. unfold init_entries.
  by rewrite Hd, Ha.
Qed.

Lemma init_entries_all_data ligand s :
  Dict.get ligand (all_data (init_entries ligand s))
  = Some (default [] (Dict.get ligand (all_data s))).
Proof.
  unfold init_entries, Dict.mem.
  destruct (Dict.get ligand (data s)); simpl.
  - destruct (Dict.get ligand (all_data s)) eqn:E; simpl; [done|].
    apply Dict.get_set_eq.
  - destruct (Dict.get ligand (all_data s)) eqn:E; simpl; [done|].
    apply Dict.get_set_eq.
Qed.

(** Running [getFeaturesData] a second time: [self.data] is assigned the
    same arrays again, and [self.all_data[ligand]] receives them a second
    time. *)
Lemma getFeaturesData_twice ligand w w1 :
  getFeaturesData ligand w = (w1, Ok ()) →
  ∃ w2 dss,
    getFeaturesData ligand w1 = (w2, Ok ())
    ∧ data (self w2) = data (self w1)
    ∧ Forall2 (λ p ds, data_at (self w1) ligand p = Some ds)
        (proteins (pele_analysis (self w))) dss
    ∧ Dict.get ligand (all_data (self w1))
      = Some (default [] (Dict.get ligand (all_data (self w))) ++ concat dss)
    ∧ Dict.get ligand (all_data (self w2))
      = Some (default [] (Dict.get ligand (all_data (self w)))
                ++ concat dss ++ concat dss).
Proof.
  intros Hrun. rewrite getFeaturesData_eq in Hrun. cbv zeta in Hrun.
  destruct (init_entries_spec ligand (self w)) as (Hd & Ha & Fm & Ft & Ff & Fp).
  pose proof (init_entries_all_data ligand (self w)) as Hpool.
  rewrite Fp in Hrun.
  set (s0 := init_entries ligand (self w)) in *.
  set (ps := proteins (pele_analysis (self w))) in *.
  set (pooled := default [] (Dict.get ligand (all_data (self w)))) in *.
  destruct (load_all ligand ps s0) as [s1 r] eqn:Hall.
  cbn [fst snd] in Hrun. injection Hrun as <- ->.
  destruct (load_all_first ligand ps s0 s1 pooled Hall Hd Hpool)
    as (dss & HF & Hdat & Hpool1 & Gm & Gt & Gf & Gp & Hd1).
  assert (∀ q, featurised s1 ligand q = featurised s0 ligand q) as Hfeat.
  { intros q. by apply featurised_frame. }
  destruct (load_all_again ligand ps s1 (pooled ++ concat dss) dss)
    as (s2 & Hrun2 & Hd2 & Ha2).
  { eapply Forall2_impl; [exact HF|]. intros q dq; simpl. by rewrite Hfeat. }
  { intros q Hq. rewrite Hfeat. by apply Hdat. }
  { done. }
  exists (with_self s2 (with_self s1 w)), dss.
  rewrite getFeaturesData_eq. cbv zeta. cbn [self with_self].
  rewrite init_entries_id by (by rewrite ?Hpool1; eauto).
  rewrite Gp, Fp. fold ps. rewrite Hrun2. cbn [fst snd].
  split; [done|]. split; [done|]. split; [|split].
  - apply Forall2_same_length_lookup. split.
    + by eapply Forall2_length.
    + intros i q dq Hq Hdq. rewrite Hdat by (by eapply list_elem_of_lookup_2).
      exact (Forall2_lookup_lr _ _ _ _ _ _ HF Hq Hdq).
  - done.
  - rewrite Ha2. by rewrite <- app_assoc.
Qed.

(** ** addFeature('metrics') run again *)

Lemma put_metrics_get ligand protein l s inner :
  Dict.get ligand (metric_features s) = Some inner →
  Dict.get ligand (metric_features (put_metrics ligand protein l s))
  = Some (Dict.set protein l inner).
Proof.
  intros H. unfold put_metrics. rewrite H. simpl. apply Dict.get_set_eq.
Qed.

Lemma put_metrics_put_metrics ligand protein l1 l2 s :
  put_metrics ligand protein l2 (put_metrics ligand protein l1 s)
  = put_metrics ligand protein l2 s.
Proof.
  unfold put_metrics at 2 3.
  destruct (Dict.get ligand (metric_features s)) as [inner|] eqn:E.
  - unfold put_metrics. simpl. rewrite Dict.get_set_eq.
    unfold set_metric_features. simpl. by rewrite !Dict.set_set.
  - unfold put_metrics. by rewrite E.
Qed.

Lemma put_metrics_id ligand protein l s inner :
  Dict.get ligand (metric_features s) = Some inner →
  Dict.get protein inner = Some l →
  put_metrics ligand protein l s = s.
Proof.
  intros H1 H2. unfold put_metrics. rewrite H1.
  rewrite (Dict.set_id _ _ _ H2), (Dict.set_id _ _ _ H1).
  by destruct s.
Qed.

Lemma put_metrics_pele_analysis ligand protein l s :
  pele_analysis (put_metrics ligand protein l s) = pele_analysis s.
Proof.
  unfold put_metrics. by destruct (Dict.get ligand (metric_features s)).
Qed.

Lemma put_metrics_metric_at_eq ligand protein l s :
  is_Some (Dict.get ligand (metric_features s)) →
  metric_at (put_metrics ligand protein l s) ligand protein = Some l.
Proof.
  intros [inner H]. unfold metric_at.
  rewrite (put_metrics_get _ _ _ _ _ H). apply Dict.get_set_eq.
Qed.

Lemma put_metrics_metric_at_ne ligand p q l s :
  q ≠ p → metric_at (put_metrics ligand q l s) ligand p = metric_at s ligand p.
Proof.
  intros Hne. unfold metric_at.
  destruct (Dict.get ligand (metric_features s)) as [inner|] eqn:H.
  - rewrite (put_metrics_get _ _ _ _ _ H). by apply Dict.get_set_ne.
  - unfold put_metrics. by rewrite H, H.
Qed.

Lemma append_metric_run ligand protein metrics pd t w inner l :
  Dict.get ligand (metric_features (self w)) = Some inner →
  Dict.get protein inner = Some l →
  append_metric ligand protein metrics pd t w =
  match trajectory_array metrics pd t with
  | Ok arr => (upd (put_metrics ligand protein (l ++ [arr])) w, Ok ())
  | Raise e => (w, Raise e)
  end.
Proof.
  intros H1 H2. unfold append_metric, trajectory_array.
  rewrite bind_run. unfold lift at 1.
  destruct (select_level "Trajectory" t pd) as [td|e]; [|done].
  cbn [mbind result_bind].
  rewrite bind_run. cbn [read]. rewrite bind_run. unfold lift at 1.
  unfold getitem at 1. rewrite H1.
  rewrite bind_run. unfold lift at 1, getitem at 1. rewrite H2.
  rewrite bind_run. unfold lift at 1.
  destruct (columns_to_numpy metrics td) as [arr|e]; [|done].
  unfold write, upd, put_metrics. by rewrite H1.
Qed.

Lemma append_loop_run ligand protein metrics pd labels :
  ∀ w inner l,
    Dict.get ligand (metric_features (self w)) = Some inner →
    Dict.get protein inner = Some l →
    match for_each (trajectory_array metrics pd) labels with
    | Ok arrs =>
        for_in labels (append_metric ligand protein metrics pd) w
        = (upd (put_metrics ligand protein (l ++ arrs)) w, Ok ())
    | Raise e =>
        ∃ w', for_in labels (append_metric ligand protein metrics pd) w
              = (w', Raise e)
    end.
Proof.
  induction labels as [|t labels IH]; intros w inner l H1 H2.
  - simpl. rewrite app_nil_r. unfold upd.
    rewrite (put_metrics_id _ _ _ _ _ H1 H2). by destruct w.
  - cbn [for_each for_in]. rewrite bind_run.
    rewrite (append_metric_run _ _ _ _ _ _ _ _ H1 H2).
    destruct (trajectory_array metrics pd t) as [arr|e];
      cbn [mbind result_bind]; [|by eauto].
    specialize (IH (upd (put_metrics ligand protein (l ++ [arr])) w)
                  (Dict.set protein (l ++ [arr]) inner) (l ++ [arr])).
    destruct (for_each (trajectory_array metrics pd) labels) as [arrs|e];
      cbn [mbind result_bind].
    + rewrite IH.
      * rewrite upd_upd. unfold upd. cbn [self plots].
        by rewrite put_metrics_put_metrics, <- app_assoc.
      * cbn [self upd]. by apply put_metrics_get.
      * apply Dict.get_set_eq.
    + apply IH.
      * cbn [self upd]. by apply put_metrics_get.
      * apply Dict.get_set_eq.
Qed.

Lemma getitem_ok {K A} `{EqDecision K} repr (k : K) (d : Dict.t K A) v :
  Dict.get k d = Some v → getitem repr k d = Ok v.
Proof. intros H. unfold getitem. by rewrite H. Qed.

Lemma register_metrics_run ligand metrics ld protein w inner :
  Dict.get ligand (metric_features (self w)) = Some inner →
  match metric_arrays metrics ld protein with
  | Ok news =>
      register_metrics ligand metrics ld protein w
      = (upd (put_metrics ligand protein
                (default [] (Dict.get protein inner) ++ news)) w, Ok ())
  | Raise e =>
      ∃ w', register_metrics ligand metrics ld protein w = (w', Raise e)
  end.
Proof.
  intros H1. unfold metric_arrays.
  set (prior := default [] (Dict.get protein inner)).
  set (w1 := upd (put_metrics ligand protein prior) w).
  assert ((if Dict.mem protein inner then mret ()
           else write (set_metric_features
                  (Dict.set ligand (Dict.set protein [] inner)
                     (metric_features (self w))))) w
          = (w1, Ok ())) as Hinit.
  { subst w1 prior. unfold Dict.mem.
    destruct (Dict.get protein inner) as [l|] eqn:E; simpl.
    - unfold upd. rewrite (put_metrics_id _ _ _ _ _ H1 E). by destruct w.
    - unfold write, upd, put_metrics. by rewrite H1. }
  assert (Dict.get ligand (metric_features (self w1))
          = Some (Dict.set protein prior inner)) as Hw1.
  { subst w1. cbn [self upd]. by apply put_metrics_get. }
  pose proof (getitem_ok KStr _ _ _ H1) as Hget.
  destruct (select_level "Protein" (LStr protein) ld) as [pd|e] eqn:Es;
    cbn [mbind result_bind].
  2:{ eexists. unfold register_metrics.
      run_read. run_lift Hget. run_ok Hinit.
      apply bind_raise. unfold lift. by rewrite Es. }
  destruct (levels3 ld) as [labels|e] eqn:El; cbn [mbind result_bind].
  2:{ eexists. unfold register_metrics.
      run_read. run_lift Hget. run_ok Hinit. run_lift Es.
      apply bind_raise. unfold lift. by rewrite El. }
  pose proof (append_loop_run ligand protein metrics pd labels w1 _ prior
                Hw1 (Dict.get_set_eq _ _ _)) as Hloop.
  destruct (for_each (trajectory_array metrics pd) labels) as [arrs|e].
  - unfold register_metrics.
    run_read. run_lift Hget. run_ok Hinit. run_lift Es. run_lift El.
    rewrite Hloop. subst w1. rewrite upd_upd. unfold upd. cbn [self plots].
    by rewrite put_metrics_put_metrics.
  - destruct Hloop as [w' Hloop]. exists w'. unfold register_metrics.
    run_read. run_lift Hget. run_ok Hinit. run_lift Es. run_lift El.
    exact Hloop.
Qed.

Lemma register_loop_run ligand metrics ld ps :
  ∀ w,
    is_Some (Dict.get ligand (metric_features (self w))) →
    NoDup ps →
    (∀ p, p ∈ ps → ∃ news, metric_arrays metrics ld p = Ok news) →
    ∃ w',
      for_in ps (register_metrics ligand metrics ld) w = (w', Ok ())
      ∧ pele_analysis (self w') = pele_analysis (self w)
      ∧ is_Some (Dict.get ligand (metric_features (self w')))
      ∧ (∀ p news, p ∈ ps → metric_arrays metrics ld p = Ok news →
           metric_at (self w') ligand p
           = Some (default [] (metric_at (self w) ligand p) ++ news))
      ∧ (∀ q, q ∉ ps →
           metric_at (self w') ligand q = metric_at (self w) ligand q).
Proof.
  induction ps as [|p ps IH]; intros w Hm Hnd Hok.
  - exists w. simpl. repeat split; try done. by intros p news ?%elem_of_nil.
  - apply NoDup_cons in Hnd as [Hp Hnd].
    destruct (Hok p) as [news Hnews]; [by left|].
    destruct Hm as [inner Hinner].
    pose proof (register_metrics_run ligand metrics ld p w inner Hinner)
      as Hstep.
    rewrite Hnews in Hstep.
    set (l1 := default [] (Dict.get p inner) ++ news) in *.
    set (w1 := upd (put_metrics ligand p l1) w) in *.
    destruct (IH w1) as (w' & Hrun & Hpa & Hm' & Hin & Hout).
    { subst w1. cbn [self upd].
      rewrite (put_metrics_get _ _ _ _ _ Hinner). by eauto. }
    { done. }
    { intros q Hq. apply Hok. by right. }
    exists w'. split; [|split; [|split; [|split]]].
    + cbn [for_in]. by rewrite (bind_ok _ _ _ _ _ Hstep).
    + rewrite Hpa. subst w1. cbn [self upd].
      apply put_metrics_pele_analysis.
    + done.
    + intros q newsq [->|Hq]%elem_of_cons Hq'.
      * rewrite Hout by done. subst w1. cbn [self upd].
        rewrite put_metrics_metric_at_eq by eauto.
        rewrite Hnews in Hq'. injection Hq' as <-.
        subst l1. unfold metric_at. by rewrite Hinner.
      * rewrite (Hin q newsq Hq Hq'). subst w1. cbn [self upd].
        rewrite put_metrics_metric_at_ne; [done|].
        intros ->. done.
    + intros q [Hne Hq]%not_elem_of_cons. rewrite Hout by done.
      subst w1. cbn [self upd].
      by rewrite put_metrics_metric_at_ne.
Qed.

Lemma register_loop_ok_inv ligand metrics ld ps :
  ∀ w w',
    is_Some (Dict.get ligand (metric_features (self w))) →
    for_in ps (register_metrics ligand metrics ld) w = (w', Ok ()) →
    ∀ p, p ∈ ps → ∃ news, metric_arrays metrics ld p = Ok news.
Proof.
  induction ps as [|p ps IH]; intros w w' Hm Hrun q Hq.
  - by apply elem_of_nil in Hq.
  - destruct Hm as [inner Hinner].
    pose proof (register_metrics_run ligand metrics ld p w inner Hinner)
      as Hstep.
    cbn [for_in] in Hrun.
    destruct (metric_arrays metrics ld p) as [news|e] eqn:Hnews.
    + apply elem_of_cons in Hq as [->|Hq]; [by eauto|].
      rewrite (bind_ok _ _ _ _ _ Hstep) in Hrun.
      eapply IH; [|exact Hrun|exact Hq].
      cbn [self upd]. rewrite (put_metrics_get _ _ _ _ _ Hinner). by eauto.
    + destruct Hstep as [w'' Hstep].
      by rewrite (bind_raise _ _ _ _ _ Hstep) in Hrun.
Qed.

Lemma addFeature_metrics_eq ligand w :
  addFeature "metrics" ligand w =
  (ligand_data ← lift (select_level "Ligand" (LStr ligand)
                         (pele_data (pele_analysis (self w))));
   for_in (proteins (pele_analysis (self w)))
     (register_metrics ligand
        (metric_columns (pele_data (pele_analysis (self w)))) ligand_data))
    (upd (init_metrics ligand) w).
Proof.
  unfold addFeature. simpl.
  run_ok (eq_refl : (mret () : M ()) w = (w, Ok ())).
  run_ok (eq_refl : (mret () : M ()) w = (w, Ok ())).
  run_read.
  assert ((if Dict.mem ligand (metric_features (self w)) then mret ()
           else write (set_metric_features
                         (Dict.set ligand [] (metric_features (self w))))) w
          = (upd (init_metrics ligand) w, Ok ())) as Hinit.
  { unfold init_metrics, upd.
    destruct (Dict.mem ligand (metric_features (self w))); [|done].
    by destruct w. }
  run_ok Hinit.
  assert (pele_analysis (self (upd (init_metrics ligand) w))
          = pele_analysis (self w)) as Hpa.
  { cbn [self upd]. unfold init_metrics.
    by destruct (Dict.mem ligand (metric_features (self w))). }
  etrans; [apply bind_ok; unfold read; rewrite Hpa; reflexivity|].
  reflexivity.
Qed.

Lemma init_metrics_spec ligand s :
  is_Some (Dict.get ligand (metric_features (init_metrics ligand s)))
  ∧ pele_analysis (init_metrics ligand s) = pele_analysis s
  ∧ ∀ p, default [] (metric_at (init_metrics ligand s) ligand p)
         = default [] (metric_at s ligand p).
Proof.
  unfold init_metrics, Dict.mem, metric_at.
  destruct (Dict.get ligand (metric_features s)) as [inner|] eqn:E.
  - rewrite E. by eauto.
  - simpl. rewrite Dict.get_set_eq. by eauto.
Qed.

(** Running [addFeature('metrics', ligand)] a second time appends the
    arrays of every protein a second time. *)
Lemma addFeature_metrics_twice ligand w w1 :
  NoDup (proteins (pele_analysis (self w))) →
  addFeature "metrics" ligand w = (w1, Ok ()) →
  ∃ w2,
    addFeature "metrics" ligand w1 = (w2, Ok ())
    ∧ ∀ p, p ∈ proteins (pele_analysis (self w)) →
        ∃ news,
          registered_arrays (pele_analysis (self w)) ligand p = Ok news
          ∧ metric_at (self w1) ligand p
            = Some (default [] (metric_at (self w) ligand p) ++ news)
          ∧ metric_at (self w2) ligand p
            = Some (default [] (metric_at (self w) ligand p)
                      ++ news ++ news).
Proof.
  intros Hnd Hrun. rewrite addFeature_metrics_eq in Hrun.
  set (pa := pele_analysis (self w)) in *.
  set (metrics := metric_columns (pele_data pa)) in *.
  destruct (init_metrics_spec ligand (self w)) as (Hm0 & Hpa0 & Hdef0).
  set (w0 := upd (init_metrics ligand) w) in *.
  destruct (select_level "Ligand" (LStr ligand) (pele_data pa))
    as [ld|e] eqn:Hld; cycle 1.
  { by rewrite (bind_raise _ _ w0 w0 e) in Hrun. }
  rewrite (bind_ok _ _ w0 w0 ld) in Hrun by done.
  pose proof (register_loop_ok_inv ligand metrics ld _ w0 w1 Hm0 Hrun) as Hall.
  destruct (register_loop_run ligand metrics ld _ w0 Hm0 Hnd Hall)
    as (w1' & Hrun1 & Hpa1 & Hm1 & Hin1 & _).
  rewrite Hrun in Hrun1. injection Hrun1 as <-.
  assert (pele_analysis (self w1) = pa) as Hpa1'.
  { rewrite Hpa1. subst w0. cbn [self upd]. done. }
  assert (init_metrics ligand (self w1) = self w1) as Hinit1.
  { unfold init_metrics. apply Dict.mem_get in Hm1. by rewrite Hm1. }
  assert (upd (init_metrics ligand) w1 = w1) as Hw1.
  { unfold upd. rewrite Hinit1. by destruct w1. }
  destruct (register_loop_run ligand metrics ld _ w1 Hm1 Hnd Hall)
    as (w2 & Hrun2 & _ & _ & Hin2 & _).
  exists w2. split.
  - rewrite addFeature_metrics_eq, Hw1, Hpa1'. fold metrics.
    by rewrite (bind_ok _ _ w1 w1 ld) by (unfold lift; by rewrite Hld).
  - intros p Hp. destruct (Hall p Hp) as [news Hnews].
    exists news. split; [|split].
    + unfold registered_arrays. fold pa. rewrite Hld. done.
    + rewrite (Hin1 p news Hp Hnews). subst w0. cbn [self upd].
      by rewrite Hdef0.
    + rewrite (Hin2 p news Hp Hnews), (Hin1 p news Hp Hnews).
      subst w0. cbn [self upd]. simpl. by rewrite Hdef0, <- app_assoc.
Qed.

(** C2, as the code has it. A second [getFeaturesData(ligand)] that
    follows one that returned also returns; it assigns the same arrays to
    [self.data], which is left as it was, and extends
    [self.all_data[ligand]] by the arrays of all proteins once more, so
    the pooled list holds them twice. A second [addFeature('metrics',
    ligand)], for proteins listed once each, also returns and appends to
    every [self.metric_features[ligand][protein]] the arrays the first one
    appended, so each list holds them twice. *)
Theorem reinvocation_accumulates (ligand : string) (w w1 : world) :
  (getFeaturesData ligand w = (w1, Ok ()) →
   ∃ w2 dss,
     getFeaturesData ligand w1 = (w2, Ok ())
     ∧ data (self w2) = data (self w1)
     ∧ Forall2 (λ p ds, data_at (self w1) ligand p = Some ds)
         (proteins (pele_analysis (self w))) dss
     ∧ Dict.get ligand (all_data (self w1))
       = Some (default [] (Dict.get ligand (all_data (self w))) ++ concat dss)
     ∧ Dict.get ligand (all_data (self w2))
       = Some (default [] (Dict.get ligand (all_data (self w)))
                 ++ concat dss ++ concat dss))
  ∧ (NoDup (proteins (pele_analysis (self w))) →
     addFeature "metrics" ligand w = (w1, Ok ()) →
     ∃ w2,
       addFeature "metrics" ligand w1 = (w2, Ok ())
       ∧ ∀ p, p ∈ proteins (pele_analysis (self w)) →
           ∃ news,
             registered_arrays (pele_analysis (self w)) ligand p = Ok news
             ∧ metric_at (self w1) ligand p
               = Some (default [] (metric_at (self w) ligand p) ++ news)
             ∧ metric_at (self w2) ligand p
               = Some (default [] (metric_at (self w) ligand p)
                         ++ news ++ news)).
Proof.
  split.
  - apply getFeaturesData_twice.
  - apply addFeature_metrics_twice.
Qed.

(** ** calculateTICA as a function on the instance *)

Lemma with_self_self w : with_self (self w) w = w.
Proof. by destruct w. Qed.

Lemma data_list_eq ligand protein w :
  data_list ligand protein w =
  (w, match data_at (self w) ligand protein with
      | Some ds => Ok ds
      | None => Raise (KeyError (KStr (if Dict.mem ligand (data (self w))
                                        then protein else ligand)))
      end).
Proof.
  unfold data_list, data_at, Dict.mem.
  cbv [mbind M_bind result_bind mret M_ret read lift getitem].
  destruct (Dict.get ligand (data (self w))) as [inner|]; [|done].
  by destruct (Dict.get protein inner).
Qed.

Lemma project_protein_eq ligand model protein w :
  is_Some (Dict.get ligand (tica_output (self w))) →
  is_Some (Dict.get ligand (tica_concatenated (self w))) →
  project_protein ligand model protein w
  = (with_self (project_protein_fn ligand model protein (self w)).1 w,
     (project_protein_fn ligand model protein (self w)).2).
Proof.
  intros [io Ho] [ic Hc]. unfold project_protein, project_protein_fn.
  pose proof (data_list_eq ligand protein w) as Hdl.
  destruct (data_at (self w) ligand protein) as [ds|] eqn:Hd; cycle 1.
  { cbn [fst snd]. rewrite with_self_self. by apply bind_raise. }
  run_ok Hdl.
  destruct (tica_transform pyemma model ds) as [o|e] eqn:Ht; cycle 1.
  { cbn [fst snd]. rewrite with_self_self. by apply bind_raise. }
  run_read. run_read. run_lift (getitem_ok KStr _ _ _ Ho).
  etrans; [apply bind_ok; reflexivity|]. cbv beta.
  destruct (concatenate o) as [c|e] eqn:Hcat; cycle 1.
  { cbn [fst snd]. etrans; [apply bind_raise; unfold lift; reflexivity|].
    unfold with_self, put_tout. by rewrite Ho. }
  etrans; [apply bind_ok; unfold lift; reflexivity|]. cbv beta.
  run_read. run_with (getitem_ok KStr _ _ _ Hc).
  cbn [fst snd]. unfold write, with_self, put_tcon, put_tout.
  cbn [self plots]. rewrite Ho. simpl. by rewrite Hc.
Qed.

Lemma put_tout_frame ligand protein o s :
  let s' := put_tout ligand protein o s in
  data s' = data s ∧ all_data s' = all_data s
  ∧ tica_concatenated s' = tica_concatenated s
  ∧ all_tica s' = all_tica s ∧ all_tica_output s' = all_tica_output s
  ∧ all_tica_concatenated s' = all_tica_concatenated s
  ∧ ndims s' = ndims s.
Proof. simpl. unfold put_tout. by destruct (Dict.get ligand (tica_output s)). Qed.

Lemma put_tcon_frame ligand protein c s :
  let s' := put_tcon ligand protein c s in
  data s' = data s ∧ all_data s' = all_data s
  ∧ tica_output s' = tica_output s
  ∧ all_tica s' = all_tica s ∧ all_tica_output s' = all_tica_output s
  ∧ all_tica_concatenated s' = all_tica_concatenated s
  ∧ ndims s' = ndims s.
Proof.
  simpl. unfold put_tcon. by destruct (Dict.get ligand (tica_concatenated s)).
Qed.

Lemma put_tout_get ligand protein o s inner :
  Dict.get ligand (tica_output s) = Some inner →
  Dict.get ligand (tica_output (put_tout ligand protein o s))
  = Some (Dict.set protein o inner).
Proof. intros H. unfold put_tout. rewrite H. simpl. apply Dict.get_set_eq. Qed.

Lemma put_tcon_get ligand protein c s inner :
  Dict.get ligand (tica_concatenated s) = Some inner →
  Dict.get ligand (tica_concatenated (put_tcon ligand protein c s))
  = Some (Dict.set protein c inner).
Proof. intros H. unfold put_tcon. rewrite H. simpl. apply Dict.get_set_eq. Qed.

(** What one step of the loop leaves unchanged, however it ends. *)
Lemma project_protein_fn_frame ligand model protein s :
  let s' := (project_protein_fn ligand model protein s).1 in
  data s' = data s ∧ all_data s' = all_data s
  ∧ all_tica s' = all_tica s ∧ all_tica_output s' = all_tica_output s
  ∧ all_tica_concatenated s' = all_tica_concatenated s
  ∧ ndims s' = ndims s
  ∧ (is_Some (Dict.get ligand (tica_output s)) →
     is_Some (Dict.get ligand (tica_output s')))
  ∧ (is_Some (Dict.get ligand (tica_concatenated s)) →
     is_Some (Dict.get ligand (tica_concatenated s'))).
Proof.
  simpl. unfold project_protein_fn.
  destruct (data_at s ligand protein) as [ds|]; [|done].
  destruct (tica_transform pyemma model ds) as [o|]; [|done].
  destruct (put_tout_frame ligand protein o s)
    as (Fd & Fa & Fc & Ft & Fo & Fac & Fn).
  assert (is_Some (Dict.get ligand (tica_output s)) →
          is_Some (Dict.get ligand
                     (tica_output (put_tout ligand protein o s)))) as Ho.
  { intros [inner H]. rewrite (put_tout_get _ _ _ _ _ H). by eauto. }
  destruct (concatenate o) as [c|]; cbn [fst].
  - destruct (put_tcon_frame ligand protein c (put_tout ligand protein o s))
      as (Gd & Ga & Gc & Gt & Go & Gac & Gn).
    rewrite Gd, Ga, Gt, Go, Gac, Gn, Gc, Fd, Fa, Ft, Fo, Fac, Fn.
    repeat split; try done.
    intros [inner H]. rewrite <- Fc in H.
    rewrite (put_tcon_get _ _ _ _ _ H). by eauto.
  - rewrite Fd, Fa, Ft, Fo, Fac, Fn, Fc. repeat split; done.
Qed.

Lemma project_loop_eq ligand model ps :
  ∀ w,
    is_Some (Dict.get ligand (tica_output (self w))) →
    is_Some (Dict.get ligand (tica_concatenated (self w))) →
    for_in ps (project_protein ligand model) w
    = (with_self (project_all ligand model ps (self w)).1 w,
       (project_all ligand model ps (self w)).2).
Proof.
  induction ps as [|p ps IH]; intros w Ho Hc.
  - simpl. by rewrite with_self_self.
  - cbn [for_in project_all]. rewrite bind_run.
    rewrite (project_protein_eq _ _ _ _ Ho Hc).
    destruct (project_protein_fn_frame ligand model p (self w))
      as (_ & _ & _ & _ & _ & _ & Ho1 & Hc1).
    destruct (project_protein_fn ligand model p (self w)) as [s1 [[]|e]];
      [|done].
    cbn [fst snd] in *. rewrite IH by (cbn [self with_self]; auto). done.
Qed.

Lemma if_write_run (b : bool) f w :
  (if b then mret () else write f) w
  = (with_self (if b then self w else f (self w)) w, Ok ()).
Proof. destruct b; [by rewrite with_self_self|done]. Qed.

Lemma init_tica_entries ligand s :
  is_Some (Dict.get ligand (tica_output (init_tica ligand s)))
  ∧ is_Some (Dict.get ligand (tica_concatenated (init_tica ligand s))).
Proof.
  unfold init_tica.
  set (s1 := if Dict.mem ligand (tica_output s) then _ else _).
  assert (is_Some (Dict.get ligand (tica_output s1))) as H1.
  { subst s1. destruct (Dict.mem ligand (tica_output s)) eqn:E.
    - by apply Dict.mem_get in E.
    - simpl. rewrite Dict.get_set_eq. by eauto. }
  destruct (Dict.mem ligand (tica_concatenated s1)) eqn:E2.
  - apply Dict.mem_get in E2. done.
  - simpl. rewrite Dict.get_set_eq. split; [done|by eauto].
Qed.

Lemma calculateTICA_eq ligand lag_time w :
  calculateTICA ligand lag_time w
  = (with_self (calculateTICA_fn ligand lag_time (self w)).1 w,
     (calculateTICA_fn ligand lag_time (self w)).2).
Proof.
  unfold calculateTICA, calculateTICA_fn.
  run_read.
  destruct (Dict.get ligand (all_data (self w))) as [pooled|] eqn:Ha; cycle 1.
  { cbn [fst snd]. rewrite with_self_self. apply bind_raise.
    unfold lift, getitem. by rewrite Ha. }
  run_lift (getitem_ok KStr _ _ _ Ha).
  destruct (coordinates_tica pyemma pooled lag_time) as [model|e]; cycle 1.
  { cbn [fst snd]. rewrite with_self_self. by apply bind_raise. }
  run_read. run_read. run_read.
  destruct (tica_get_output pyemma model) as [out|e]; cycle 1.
  { cbn [fst snd]. by apply bind_raise. }
  run_read. run_read. run_read.
  destruct (concatenate out) as [conc|e]; cycle 1.
  { cbn [fst snd]. by apply bind_raise. }
  run_read. run_read. run_read. run_read. run_read.
  etrans; [apply bind_ok; apply if_write_run|]. cbv beta. run_read.
  etrans; [apply bind_ok; apply if_write_run|]. cbv beta. run_read.
  set (w4 := with_self _ (with_self _ _)).
  assert (self w4 = init_tica ligand (record_fit ligand model out conc (self w)))
    as Hs4 by reflexivity.
  assert (plots w4 = plots w) as Hp4 by reflexivity.
  destruct (init_tica_entries ligand
              (record_fit ligand model out conc (self w))) as [Ho Hc].
  rewrite <- Hs4 in Ho, Hc |- *. clearbody w4.
  destruct (Dict.get ligand (data (self w4))) as [per_protein|] eqn:Hd;
    cycle 1.
  { cbn [fst snd]. etrans.
    { apply bind_raise. unfold lift, getitem. rewrite Hd. reflexivity. }
    unfold with_self. rewrite <- Hp4. by destruct w4. }
  run_lift (getitem_ok KStr _ _ _ Hd).
  rewrite (project_loop_eq _ _ _ _ Ho Hc).
  unfold with_self. by rewrite Hp4.
Qed.

(** ** calculateTICA: what a fit overwrites *)

Lemma projection_frame s s' ligand model protein :
  data s' = data s →
  projection s' ligand model protein = projection s ligand model protein.
Proof. unfold projection, data_at. by intros ->. Qed.

Lemma project_protein_fn_ok ligand model protein s s1 :
  project_protein_fn ligand model protein s = (s1, Ok ()) ↔
  ∃ o c, projection s ligand model protein = Some (o, c)
         ∧ s1 = put_tcon ligand protein c (put_tout ligand protein o s).
Proof.
  unfold project_protein_fn, projection.
  destruct (data_at s ligand protein) as [ds|];
    [|split; [done|by intros (? & ? & ? & _)]].
  destruct (tica_transform pyemma model ds) as [o|];
    [|split; [done|by intros (? & ? & ? & _)]].
  destruct (concatenate o) as [c|];
    [|split; [done|by intros (? & ? & ? & _)]].
  split.
  - intros [= <-]. by exists o, c.
  - by intros (o' & c' & [= <- <-] & ->).
Qed.

Lemma put_tout_tout_at_eq ligand protein o s :
  is_Some (Dict.get ligand (tica_output s)) →
  tout_at (put_tout ligand protein o s) ligand protein = Some o.
Proof.
  intros [inner H]. unfold tout_at.
  rewrite (put_tout_get _ _ _ _ _ H). apply Dict.get_set_eq.
Qed.

Lemma put_tout_tout_at_ne ligand p q o s :
  q ≠ p → tout_at (put_tout ligand q o s) ligand p = tout_at s ligand p.
Proof.
  intros Hne. unfold tout_at.
  destruct (Dict.get ligand (tica_output s)) as [inner|] eqn:H.
  - rewrite (put_tout_get _ _ _ _ _ H). by apply Dict.get_set_ne.
  - unfold put_tout. by rewrite H, H.
Qed.

Lemma put_tcon_tcon_at_eq ligand protein c s :
  is_Some (Dict.get ligand (tica_concatenated s)) →
  tcon_at (put_tcon ligand protein c s) ligand protein = Some c.
Proof.
  intros [inner H]. unfold tcon_at.
  rewrite (put_tcon_get _ _ _ _ _ H). apply Dict.get_set_eq.
Qed.

Lemma put_tcon_tcon_at_ne ligand p q c s :
  q ≠ p → tcon_at (put_tcon ligand q c s) ligand p = tcon_at s ligand p.
Proof.
  intros Hne. unfold tcon_at.
  destruct (Dict.get ligand (tica_concatenated s)) as [inner|] eqn:H.
  - rewrite (put_tcon_get _ _ _ _ _ H). by apply Dict.get_set_ne.
  - unfold put_tcon. by rewrite H, H.
Qed.

Lemma put_tout_tcon_at ligand q o s l p :
  tcon_at (put_tout ligand q o s) l p = tcon_at s l p.
Proof.
  unfold tcon_at.
  by rewrite (proj1 (proj2 (proj2 (put_tout_frame ligand q o s)))).
Qed.

Lemma put_tcon_tout_at ligand q c s l p :
  tout_at (put_tcon ligand q c s) l p = tout_at s l p.
Proof.
  unfold tout_at.
  by rewrite (proj1 (proj2 (proj2 (put_tcon_frame ligand q c s)))).
Qed.

(** A step for protein [q] leaves the entries of another protein alone,
    however it ends. *)
Lemma project_protein_fn_other ligand model p q s :
  q ≠ p →
  tout_at (project_protein_fn ligand model q s).1 ligand p = tout_at s ligand p
  ∧ tcon_at (project_protein_fn ligand model q s).1 ligand p
    = tcon_at s ligand p.
Proof.
  intros Hne. unfold project_protein_fn.
  destruct (data_at s ligand q) as [ds|]; [|done].
  destruct (tica_transform pyemma model ds) as [o|]; [|done].
  destruct (concatenate o) as [c|]; cbn [fst].
  - rewrite put_tcon_tout_at, put_tout_tout_at_ne by done.
    rewrite put_tcon_tcon_at_ne, put_tout_tcon_at by done. done.
  - rewrite put_tout_tout_at_ne, put_tout_tcon_at by done. done.
Qed.

Lemma project_all_frame ligand model ps :
  ∀ s,
    let s' := (project_all ligand model ps s).1 in
    data s' = data s ∧ all_data s' = all_data s
    ∧ all_tica s' = all_tica s ∧ all_tica_output s' = all_tica_output s
    ∧ all_tica_concatenated s' = all_tica_concatenated s
    ∧ ndims s' = ndims s
    ∧ ∀ p, p ∉ ps →
        tout_at s' ligand p = tout_at s ligand p
        ∧ tcon_at s' ligand p = tcon_at s ligand p.
Proof.
  induction ps as [|q ps IH]; intros s; [done|].
  cbn [project_all].
  destruct (project_protein_fn_frame ligand model q s)
    as (Fd & Fa & Ft & Fo & Fc & Fn & _).
  assert (∀ p, q ≠ p →
            tout_at (project_protein_fn ligand model q s).1 ligand p
            = tout_at s ligand p
            ∧ tcon_at (project_protein_fn ligand model q s).1 ligand p
              = tcon_at s ligand p) as Hother.
  { intros p Hne. by apply project_protein_fn_other. }
  destruct (project_protein_fn ligand model q s) as [s1 [[]|e]];
    cbn [fst] in *.
  - destruct (IH s1) as (Gd & Ga & Gt & Go & Gc & Gn & Gp).
    rewrite Gd, Ga, Gt, Go, Gc, Gn.
    split; [done|]. split; [done|]. split; [done|]. split; [done|].
    split; [done|]. split; [done|].
    intros p [Hne Hp]%not_elem_of_cons.
    destruct (Gp p Hp) as [-> ->]. apply Hother. by apply not_eq_sym.
  - split; [done|]. split; [done|]. split; [done|]. split; [done|].
    split; [done|]. split; [done|].
    intros p [Hne Hp]%not_elem_of_cons. apply Hother. by apply not_eq_sym.
Qed.

(** A loop that returns has projected every protein, and the entries of
    every protein hold its projection. *)
Lemma project_all_inv ligand model ps :
  ∀ s s',
    project_all ligand model ps s = (s', Ok ()) →
    is_Some (Dict.get ligand (tica_output s)) →
    is_Some (Dict.get ligand (tica_concatenated s)) →
    ∀ p, p ∈ ps →
      ∃ o c, projection s ligand model p = Some (o, c)
             ∧ tout_at s' ligand p = Some o ∧ tcon_at s' ligand p = Some c.
Proof.
  induction ps as [|q ps IH]; intros s s' Hrun Ho Hc p Hp.
  - by apply elem_of_nil in Hp.
  - cbn [project_all] in Hrun.
    destruct (project_protein_fn_frame ligand model q s)
      as (Fd & _ & _ & _ & _ & _ & Ho1 & Hc1).
    destruct (project_protein_fn ligand model q s) as [s1 [[]|e]] eqn:Hstep;
      [|done].
    cbn [fst] in *.
    destruct (decide (p ∈ ps)) as [Hin|Hout].
    + destruct (IH s1 s' Hrun (Ho1 Ho) (Hc1 Hc) p Hin) as (o & c & Hpr & Hr).
      exists o, c. split; [|done]. by rewrite <- (projection_frame s s1).
    + apply elem_of_cons in Hp as [->|Hp]; [|done].
      apply project_protein_fn_ok in Hstep as (o & c & Hpr & ->).
      exists o, c. split; [done|].
      destruct (project_all_frame ligand model ps
                  (put_tcon ligand q c (put_tout ligand q o s)))
        as (_ & _ & _ & _ & _ & _ & Hrest).
      rewrite Hrun in Hrest. cbn [fst] in Hrest.
      destruct (Hrest q Hout) as [-> ->].
      rewrite put_tcon_tout_at, put_tout_tout_at_eq by done.
      rewrite put_tcon_tcon_at_eq; [done|].
      by rewrite (proj1 (proj2 (proj2 (put_tout_frame ligand q o s)))).
Qed.

(** The loop returns when every protein can be projected. *)
Lemma project_all_ok ligand model ps :
  ∀ s,
    (∀ p, p ∈ ps → is_Some (projection s ligand model p)) →
    ∃ s', project_all ligand model ps s = (s', Ok ()).
Proof.
  induction ps as [|q ps IH]; intros s Hall; [by eexists|].
  cbn [project_all].
  destruct (Hall q) as [[o c] Hq]; [by left|].
  assert (project_protein_fn ligand model q s
          = (put_tcon ligand q c (put_tout ligand q o s), Ok ())) as Hstep.
  { apply project_protein_fn_ok. by exists o, c. }
  rewrite Hstep. apply IH. intros p Hp.
  rewrite (projection_frame s).
  - apply Hall. by right.
  - rewrite (proj1 (put_tcon_frame _ _ _ _)).
    by rewrite (proj1 (put_tout_frame _ _ _ _)).
Qed.

Lemma init_tica_frame ligand s :
  let s' := init_tica ligand s in
  data s' = data s ∧ all_data s' = all_data s
  ∧ all_tica s' = all_tica s ∧ all_tica_output s' = all_tica_output s
  ∧ all_tica_concatenated s' = all_tica_concatenated s
  ∧ ndims s' = ndims s
  ∧ ∀ p, tout_at s' ligand p = tout_at s ligand p
         ∧ tcon_at s' ligand p = tcon_at s ligand p.
Proof.
  simpl. unfold init_tica, tout_at, tcon_at, Dict.mem.
  destruct (Dict.get ligand (tica_output s)) eqn:E1; simpl;
    destruct (Dict.get ligand (tica_concatenated s)) eqn:E2; simpl;
    do 6 (split; [done|]); intros p;
    rewrite ?E1, ?E2, ?Dict.get_set_eq; done.
Qed.

(** What [calculateTICA] leaves as it was, however it ends: the features,
    the fits of the other ligands, and the projections of proteins that
    have no features. *)
Lemma calculateTICA_fn_frame ligand lag_time s :
  let s' := (calculateTICA_fn ligand lag_time s).1 in
  data s' = data s ∧ all_data s' = all_data s
  ∧ (∀ l, l ≠ ligand →
       Dict.get l (all_tica_concatenated s')
       = Dict.get l (all_tica_concatenated s))
  ∧ ∀ p, data_at s ligand p = None →
      tout_at s' ligand p = tout_at s ligand p
      ∧ tcon_at s' ligand p = tcon_at s ligand p.
Proof.
  simpl. unfold calculateTICA_fn.
  destruct (Dict.get ligand (all_data s)) as [pooled|]; [|done].
  destruct (coordinates_tica pyemma pooled lag_time) as [model|]; [|done].
  destruct (tica_get_output pyemma model) as [out|]; [|done].
  destruct (concatenate out) as [conc|]; [|done].
  set (s3 := record_fit ligand model out conc s).
  assert (∀ l, l ≠ ligand →
            Dict.get l (all_tica_concatenated s3)
            = Dict.get l (all_tica_concatenated s)) as Hl.
  { intros l Hne. subst s3. simpl. by apply Dict.get_set_ne. }
  destruct (init_tica_frame ligand s3) as (Fd & Fa & _ & _ & Fc & _ & Fp).
  set (s4 := init_tica ligand s3) in *.
  destruct (Dict.get ligand (data s4)) as [per_protein|] eqn:Hd.
  - destruct (project_all_frame ligand model (Dict.keys per_protein) s4)
      as (Gd & Ga & _ & _ & Gc & _ & Gp).
    rewrite Gd, Ga, Gc, Fd, Fa, Fc.
    split; [done|]. split; [done|]. split; [done|].
    intros p Hp. destruct (Gp p) as [-> ->]; [|by apply Fp].
    intros Hin%Dict.get_keys. unfold data_at in Hp.
    rewrite Fd in Hd. change (data s3) with (data s) in Hd.
    rewrite Hd in Hp. rewrite Hp in Hin. by destruct Hin.
  - cbn [fst]. rewrite Fd, Fa, Fc. split; [done|]. split; [done|].
    split; [done|]. intros p _. apply Fp.
Qed.

Lemma calculateTICA_fn_inv ligand lag_time s s' :
  calculateTICA_fn ligand lag_time s = (s', Ok ()) →
  ∃ model out conc per_protein,
    fit_inputs s ligand lag_time model out conc per_protein
    ∧ fit_outputs s s' ligand model out conc per_protein.
Proof.
  unfold calculateTICA_fn.
  destruct (Dict.get ligand (all_data s)) as [pooled|] eqn:Ha; [|done].
  destruct (coordinates_tica pyemma pooled lag_time) as [model|] eqn:Ht;
    [|done].
  destruct (tica_get_output pyemma model) as [out|] eqn:Ho; [|done].
  destruct (concatenate out) as [conc|] eqn:Hc; [|done].
  set (s3 := record_fit ligand model out conc s).
  destruct (init_tica_frame ligand s3) as (Fd & Fa & Ft & Fo & Fc & Fn & Fp).
  destruct (init_tica_entries ligand s3) as [Eo Ec].
  set (s4 := init_tica ligand s3) in *.
  destruct (Dict.get ligand (data s4)) as [per_protein|] eqn:Hd; [|done].
  intros Hrun. exists model, out, conc, per_protein. split.
  - exists pooled. rewrite Fd in Hd. done.
  - destruct (project_all_frame ligand model (Dict.keys per_protein) s4)
      as (Gd & Ga & Gt & Go & Gc & Gn & _).
    rewrite Hrun in Gd, Ga, Gt, Go, Gc, Gn. cbn [fst] in *.
    unfold fit_outputs. rewrite Gt, Go, Gc, Gn, Ft, Fo, Fc, Fn.
    subst s3. simpl. rewrite !Dict.get_set_eq.
    split; [done|]. split; [done|]. split; [done|]. split; [done|].
    intros p Hp.
    destruct (project_all_inv _ _ _ _ _ Hrun Eo Ec p Hp)
      as (o & c & Hpr & Hr).
    exists o, c. split; [|done].
    rewrite <- Hpr. symmetry. apply projection_frame. by rewrite Fd.
Qed.

Lemma calculateTICA_fn_ok ligand lag_time s model out conc per_protein :
  fit_inputs s ligand lag_time model out conc per_protein →
  (∀ p, p ∈ Dict.keys per_protein →
        is_Some (projection s ligand model p)) →
  ∃ s', calculateTICA_fn ligand lag_time s = (s', Ok ()).
Proof.
  intros (pooled & Ha & Ht & Ho & Hc & Hd) Hall.
  unfold calculateTICA_fn. rewrite Ha, Ht, Ho, Hc.
  set (s3 := record_fit ligand model out conc s).
  destruct (init_tica_frame ligand s3) as (Fd & _).
  rewrite Fd. change (data s3) with (data s). rewrite Hd.
  apply project_all_ok. intros p Hp.
  rewrite (projection_frame s); [by apply Hall|]. by rewrite Fd.
Qed.



(** A fit depends on the features only: on two instances with the same
    features, the fit returns on both or on neither, and apart from the
    projections of proteins without features, which it does not touch, it
    leaves the same results. *)
Lemma calculateTICA_fn_refit ligand lag_time s s0 s' :
  data s0 = data s → all_data s0 = all_data s →
  (∀ p, data_at s ligand p = None →
        tout_at s0 ligand p = tout_at s ligand p
        ∧ tcon_at s0 ligand p = tcon_at s ligand p) →
  calculateTICA_fn ligand lag_time s = (s', Ok ()) →
  ∃ s0', calculateTICA_fn ligand lag_time s0 = (s0', Ok ())
         ∧ same_fit ligand s' s0'.
Proof.
  intros Hd Ha Hstale Hrun.
  pose proof (calculateTICA_fn_frame ligand lag_time s) as Hfr.
  rewrite Hrun in Hfr. cbn [fst] in Hfr. destruct Hfr as (_ & _ & _ & Hfr).
  destruct (calculateTICA_fn_inv _ _ _ _ Hrun)
    as (model & out & conc & pp & Hin & Hout).
  assert (fit_inputs s0 ligand lag_time model out conc pp) as Hin0.
  { destruct Hin as (pooled & ?). exists pooled. by rewrite Ha, Hd. }
  destruct Hout as (O1 & O2 & O3 & O4 & O5).
  destruct (calculateTICA_fn_ok _ _ _ _ _ _ _ Hin0) as [s0' Hrun0].
  { intros p Hp. destruct (O5 p Hp) as (o & c & Hpr & _).
    rewrite (projection_frame s) by done. by rewrite Hpr. }
  exists s0'. split; [done|].
  pose proof (calculateTICA_fn_frame ligand lag_time s0) as Hfr0.
  rewrite Hrun0 in Hfr0. cbn [fst] in Hfr0.
  destruct Hfr0 as (_ & _ & _ & Hfr0).
  destruct (calculateTICA_fn_inv _ _ _ _ Hrun0)
    as (model' & out' & conc' & pp' & Hin' & Hout').
  assert (model' = model ∧ out' = out ∧ conc' = conc ∧ pp' = pp)
    as (-> & -> & -> & ->).
  { destruct Hin0 as (pooled & E1 & E2 & E3 & E4 & E5).
    destruct Hin' as (pooled' & E1' & E2' & E3' & E4' & E5').
    rewrite E1 in E1'. injection E1' as <-.
    rewrite E2 in E2'. injection E2' as <-.
    rewrite E3 in E3'. injection E3' as <-.
    rewrite E4 in E4'. injection E4' as <-.
    rewrite E5 in E5'. injection E5' as <-. done. }
  destruct Hout' as (P1 & P2 & P3 & P4 & P5).
  unfold same_fit. rewrite O1, O2, O3, O4, P1, P2, P3, P4.
  do 4 (split; [done|]). intros p.
  destruct (Dict.get p pp) as [ds|] eqn:Hp.
  - assert (p ∈ Dict.keys pp) as Hk by (apply Dict.get_keys; by eauto).
    destruct (O5 p Hk) as (o & c & Hpr & -> & ->).
    destruct (P5 p Hk) as (o' & c' & Hpr' & -> & ->).
    rewrite (projection_frame s) in Hpr' by done.
    rewrite Hpr in Hpr'. by injection Hpr' as <- <-.
  - assert (data_at s ligand p = None) as Hn.
    { unfold data_at. destruct Hin as (? & _ & _ & _ & _ & ->). done. }
    assert (data_at s0 ligand p = None) as Hn0.
    { unfold data_at in *. by rewrite Hd. }
    destruct (Hfr p Hn) as [-> ->]. destruct (Hfr0 p Hn0) as [-> ->].
    destruct (Hstale p Hn) as [-> ->]. done.
Qed.

Lemma calculateTICA_ok ligand lag_time w w' :
  calculateTICA ligand lag_time w = (w', Ok ()) ↔
  calculateTICA_fn ligand lag_time (self w) = (self w', Ok ())
  ∧ plots w' = plots w.
Proof.
  rewrite calculateTICA_eq.
  destruct (calculateTICA_fn ligand lag_time (self w)) as [s r].
  cbn [fst snd]. split.
  - by intros [= <- ->].
  - intros [[= -> ->] Hp]. unfold with_self. rewrite <- Hp. by destruct w'.
Qed.

(** A fit after another call, whatever the lag time and the outcome of
    that call, leaves what the fit alone leaves. *)
Lemma calculateTICA_after ligand t1 t2 w w1 r1 w2 :
  calculateTICA ligand t1 w = (w1, r1) →
  calculateTICA ligand t2 w1 = (w2, Ok ()) →
  ∃ w2', calculateTICA ligand t2 w = (w2', Ok ())
         ∧ same_fit ligand (self w2) (self w2').
Proof.
  intros H1 [H2 Hp2]%calculateTICA_ok.
  rewrite calculateTICA_eq in H1. injection H1 as <- _.
  cbn [self with_self] in H2.
  destruct (calculateTICA_fn_frame ligand t1 (self w)) as (Fd & Fa & _ & Fp).
  set (s1 := (calculateTICA_fn ligand t1 (self w)).1) in *.
  destruct (calculateTICA_fn_refit ligand t2 s1 (self w) (self w2))
    as (s2' & Hrun & Hsame); try done.
  { intros p Hp. unfold data_at in Hp. rewrite Fd in Hp.
    destruct (Fp p Hp) as [-> ->]. done. }
  exists (with_self s2' w). split; [|done].
  apply calculateTICA_ok. done.
Qed.

(** C6. After [calculateTICA(ligand, t1)], whatever its outcome, a
    [calculateTICA(ligand, t2)] that returns leaves for the ligand the
    model, the outputs, the pooled output, [ndims] and the projections of
    every protein that [calculateTICA(ligand, t2)] alone leaves on the
    instance as it was before the first call; that single call returns
    too. *)
Theorem calculateTICA_overwrites (ligand : string) (t1 t2 : Z)
    (w w1 w2 : world) (r1 : result ()) :
  calculateTICA ligand t1 w = (w1, r1) →
  calculateTICA ligand t2 w1 = (w2, Ok ()) →
  data (self w1) = data (self w) ∧ all_data (self w1) = all_data (self w)
  ∧ ∃ w2', calculateTICA ligand t2 w = (w2', Ok ())
           ∧ same_fit ligand (self w2) (self w2').
Proof.
  intros H1 H2. split; [|split].
  - rewrite calculateTICA_eq in H1. injection H1 as <- _.
    apply calculateTICA_fn_frame.
  - rewrite calculateTICA_eq in H1. injection H1 as <- _.
    apply calculateTICA_fn_frame.
  - by eapply calculateTICA_after.
Qed.

(** ** ndims *)

Lemma calculateTICA_ndims ligand lag_time w w' :
  calculateTICA ligand lag_time w = (w', Ok ()) →
  ∃ conc,
    Dict.get ligand (all_tica_concatenated (self w')) = Some conc
    ∧ ndims (self w') = Some (shape1 conc).
Proof.
  intros [Hrun _]%calculateTICA_ok.
  destruct (calculateTICA_fn_inv _ _ _ _ Hrun)
    as (model & out & conc & pp & _ & _ & _ & O3 & O4 & _).
  by exists conc.
Qed.

(** C9. The instance has one [ndims], whatever the ligand: a
    [calculateTICA] that returns sets it to the column count of the pooled
    output of its own ligand. After a fit of [l1] and then a fit of another
    ligand [l2], the pooled output of [l1] is still in place, and [ndims] is
    the column count of the pooled output of [l2]: when the two column
    counts differ, [ndims] is not the one of [l1]. *)
Theorem ndims_last_fit (l1 l2 : string) (t1 t2 : Z) (w w1 w2 : world) :
  l1 ≠ l2 →
  calculateTICA l1 t1 w = (w1, Ok ()) →
  calculateTICA l2 t2 w1 = (w2, Ok ()) →
  ∃ c1 c2,
    Dict.get l1 (all_tica_concatenated (self w1)) = Some c1
    ∧ ndims (self w1) = Some (shape1 c1)
    ∧ Dict.get l1 (all_tica_concatenated (self w2)) = Some c1
    ∧ Dict.get l2 (all_tica_concatenated (self w2)) = Some c2
    ∧ ndims (self w2) = Some (shape1 c2)
    ∧ (shape1 c1 ≠ shape1 c2 → ndims (self w2) ≠ Some (shape1 c1)).
Proof.
  intros Hne H1 H2.
  destruct (calculateTICA_ndims _ _ _ _ H1) as (c1 & Hc1 & Hn1).
  destruct (calculateTICA_ndims _ _ _ _ H2) as (c2 & Hc2 & Hn2).
  exists c1, c2. do 2 (split; [done|]). split; [|split; [done|split; [done|]]].
  - apply calculateTICA_ok in H2 as [H2 _].
    destruct (calculateTICA_fn_frame l2 t2 (self w1)) as (_ & _ & Hl & _).
    rewrite H2 in Hl. cbn [fst] in Hl. by rewrite Hl.
  - intros Hd. rewrite Hn2. by intros [= ?].
Qed.

(** ** plotLagTimeVsTICADim *)





Lemma call_plot_inv c w w' :
  call_plot plt c w = (w', Ok ()) →
  self w' = self w ∧ plots w' = plots w ++ [c].
Proof. unfold call_plot. by intros [= <- _]. Qed.


(** ** End to end: two proteins, two trajectories each *)

Lemma fit_inputs_inj s ligand lag_time model out conc pp model' out' conc' pp' :
  fit_inputs s ligand lag_time model out conc pp →
  fit_inputs s ligand lag_time model' out' conc' pp' →
  model' = model ∧ out' = out ∧ conc' = conc ∧ pp' = pp.
Proof.
  intros (pooled & E1 & E2 & E3 & E4 & E5) (pooled' & E1' & E2' & E3' & E4' & E5').
  rewrite E1 in E1'. injection E1' as <-.
  rewrite E2 in E2'. injection E2' as <-.
  rewrite E3 in E3'. injection E3' as <-.
  rewrite E4 in E4'. injection E4' as <-.
  rewrite E5 in E5'. injection E5' as <-. done.
Qed.

(** Arrays with one column count stack. *)
Lemma concatenate_two (x y : array) :
  shape1 y = shape1 x →
  ∃ c, concatenate [x; y] = Ok c
       ∧ shape0 c = (shape0 x + shape0 y)%nat ∧ shape1 c = shape1 x.
Proof.
  intros H. unfold concatenate. simpl. rewrite H, Nat.eqb_refl. simpl.
  eexists. split; [reflexivity|]. split; [|done].
  unfold shape0. simpl. rewrite app_nil_r, length_app. done.
Qed.

(** The state after [getFeaturesData] on a fresh instance with the
    proteins [p1] and [p2]. *)
Lemma getFeaturesData_two ligand p1 p2 w paths1 paths2 f ds1 ds2 :
  proteins (pele_analysis (self w)) = [p1; p2] → p1 ≠ p2 →
  Dict.get ligand (data (self w)) = None →
  Dict.get ligand (all_data (self w)) = None →
  Dict.get ligand (metric_features (self w)) = None →
  Dict.get (p1, ligand) (trajectories (self w)) = Some paths1 →
  Dict.get (p2, ligand) (trajectories (self w)) = Some paths2 →
  Dict.get ligand (features (self w)) = Some f →
  coordinates_load pyemma paths1 f = Ok ds1 →
  coordinates_load pyemma paths2 f = Ok ds2 →
  ∃ w1,
    getFeaturesData ligand w = (w1, Ok ())
    ∧ Dict.get ligand (data (self w1)) = Some [(p1, ds1); (p2, ds2)]
    ∧ Dict.get ligand (all_data (self w1)) = Some (ds1 ++ ds2).
Proof.
  intros Hps Hne Hd Ha Hm Ht1 Ht2 Hf Hl1 Hl2.
  rewrite getFeaturesData_eq. cbv zeta.
  destruct (init_entries_spec ligand (self w)) as (_ & _ & Fm & Ft & Ff & Fp).
  assert (Dict.get ligand (data (init_entries ligand (self w))) = Some [])
    as Hd0.
  { unfold init_entries, Dict.mem. rewrite Hd. simpl. rewrite Ha. simpl.
    apply Dict.get_set_eq. }
  pose proof (init_entries_all_data ligand (self w)) as Ha0.
  rewrite Ha in Ha0. simpl in Ha0.
  rewrite Fp, Hps.
  set (s0 := init_entries ligand (self w)) in *.
  assert (featurised s0 ligand p1 = Some ds1) as Hf1.
  { unfold featurised, attached. by rewrite Ft, Ff, Fm, Ht1, Hf, Hl1, Hm. }
  assert (featurised s0 ligand p2 = Some ds2) as Hf2.
  { unfold featurised, attached. by rewrite Ft, Ff, Fm, Ht2, Hf, Hl2, Hm. }
  set (s1 := extend_all_data ligand ds1 (put_data ligand p1 ds1 s0)).
  assert (load_protein_fn ligand p1 s0 = (s1, Ok ())) as Hstep1.
  { apply load_protein_fn_ok. by exists ds1. }
  pose proof (load_protein_fn_frame ligand p1 s0) as Hfr1.
  rewrite Hstep1 in Hfr1. cbn [fst] in Hfr1.
  destruct Hfr1 as (Gm & Gt & Gf & _).
  set (s2 := extend_all_data ligand ds2 (put_data ligand p2 ds2 s1)).
  assert (load_protein_fn ligand p2 s1 = (s2, Ok ())) as Hstep2.
  { apply load_protein_fn_ok. exists ds2. split; [|done].
    by rewrite (featurised_frame s0). }
  assert (Dict.get ligand (data s1) = Some [(p1, ds1)]) as Hd1.
  { subst s1.
    rewrite (proj2 (proj2 (proj2 (proj2 (extend_all_data_frame _ _ _))))).
    by rewrite (put_data_get _ _ _ _ _ Hd0). }
  assert (Dict.get ligand (all_data s1) = Some ds1) as Ha1.
  { subst s1. rewrite (extend_all_data_get _ _ _ []); [done|].
    by rewrite (proj2 (proj2 (proj2 (proj2 (put_data_frame _ _ _ _))))). }
  exists (with_self s2 w). cbn [load_all]. rewrite Hstep1, Hstep2.
  split; [done|]. cbn [self with_self]. split.
  - subst s2.
    rewrite (proj2 (proj2 (proj2 (proj2 (extend_all_data_frame _ _ _))))).
    rewrite (put_data_get _ _ _ _ _ Hd1). simpl.
    by rewrite decide_False by (by apply not_eq_sym).
  - subst s2. rewrite (extend_all_data_get _ _ _ ds1); [done|].
    by rewrite (proj2 (proj2 (proj2 (proj2 (put_data_frame _ _ _ _))))).
Qed.

Lemma projection_two s ligand model p a b o dim :
  data_at s ligand p = Some [a; b] →
  tica_transform pyemma model [a; b] = Ok o →
  projects_each dim [a; b] o →
  ∃ c, projection s ligand model p = Some (o, c)
       ∧ shape0 c = (shape0 a + shape0 b)%nat ∧ shape1 c = dim.
Proof.
  intros Hd Ht Hp. unfold projection. rewrite Hd, Ht.
  apply Forall2_cons_inv_l in Hp as (x & o' & [Hx0 Hx1] & Hp & ->).
  apply Forall2_cons_inv_l in Hp as (y & o'' & [Hy0 Hy1] & Hp & ->).
  apply Forall2_nil_inv_l in Hp as ->.
  destruct (concatenate_two x y) as (c & Hc & Hc0 & Hc1); [congruence|].
  exists c. rewrite Hc. split; [done|]. split; [lia|congruence].
Qed.

(** C7. On a fresh instance for one ligand with the proteins [p1] and
    [p2], whose files load as two arrays of 100 frames each, and with a
    pyemma that fits the four pooled arrays at lag 1 and projects every
    trajectory on its own to the columns of the pooled output,
    [getFeaturesData] and then [calculateTICA(ligand, 1)] return, and
    for both proteins [tica_concatenated[ligand][protein]] has 200 rows
    and [ndims] columns, [ndims] being the column count of the pooled
    output. *)
Theorem two_proteins_two_trajectories
    (ligand p1 p2 : string) (w : world) (paths1 paths2 : list path)
    (f : featurizer) (a11 a12 a21 a22 : array) (model : tica_model)
    (out : list array) (conc : array) (o1 o2 : list array) :
  proteins (pele_analysis (self w)) = [p1; p2] → p1 ≠ p2 →
  Dict.get ligand (data (self w)) = None →
  Dict.get ligand (all_data (self w)) = None →
  Dict.get ligand (metric_features (self w)) = None →
  Dict.get (p1, ligand) (trajectories (self w)) = Some paths1 →
  Dict.get (p2, ligand) (trajectories (self w)) = Some paths2 →
  Dict.get ligand (features (self w)) = Some f →
  coordinates_load pyemma paths1 f = Ok [a11; a12] →
  coordinates_load pyemma paths2 f = Ok [a21; a22] →
  shape0 a11 = 100%nat → shape0 a12 = 100%nat →
  shape0 a21 = 100%nat → shape0 a22 = 100%nat →
  coordinates_tica pyemma [a11; a12; a21; a22] 1 = Ok model →
  tica_get_output pyemma model = Ok out →
  concatenate out = Ok conc →
  tica_transform pyemma model [a11; a12] = Ok o1 →
  projects_each (shape1 conc) [a11; a12] o1 →
  tica_transform pyemma model [a21; a22] = Ok o2 →
  projects_each (shape1 conc) [a21; a22] o2 →
  ∃ w1 w2 c1 c2,
    getFeaturesData ligand w = (w1, Ok ())
    ∧ calculateTICA ligand 1 w1 = (w2, Ok ())
    ∧ Dict.get ligand (all_tica_concatenated (self w2)) = Some conc
    ∧ ndims (self w2) = Some (shape1 conc)
    ∧ tcon_at (self w2) ligand p1 = Some c1
    ∧ tcon_at (self w2) ligand p2 = Some c2
    ∧ shape0 c1 = 200%nat ∧ shape0 c2 = 200%nat
    ∧ ndims (self w2) = Some (shape1 c1)
    ∧ ndims (self w2) = Some (shape1 c2).
Proof.
  intros Hps Hne Hd Ha Hm Ht1 Ht2 Hf Hl1 Hl2 R11 R12 R21 R22
    Htica Hout Hconc Htr1 Hpr1 Htr2 Hpr2.
  destruct (getFeaturesData_two ligand p1 p2 w paths1 paths2 f
              [a11; a12] [a21; a22]) as (w1 & Hrun1 & Hd1 & Ha1); try done.
  set (pp := [(p1, [a11; a12]); (p2, [a21; a22])]) in *.
  assert (fit_inputs (self w1) ligand 1 model out conc pp) as Hin.
  { exists [a11; a12; a21; a22]. by rewrite Ha1. }
  assert (data_at (self w1) ligand p1 = Some [a11; a12]) as D1.
  { unfold data_at. rewrite Hd1. subst pp. simpl. by rewrite decide_True. }
  assert (data_at (self w1) ligand p2 = Some [a21; a22]) as D2.
  { unfold data_at. rewrite Hd1. subst pp. simpl.
    rewrite decide_False by (by apply not_eq_sym). by rewrite decide_True. }
  destruct (projection_two _ _ _ _ _ _ _ _ D1 Htr1 Hpr1)
    as (c1 & P1 & C10 & C11).
  destruct (projection_two _ _ _ _ _ _ _ _ D2 Htr2 Hpr2)
    as (c2 & P2 & C20 & C21).
  destruct (calculateTICA_fn_ok _ _ _ _ _ _ _ Hin) as [s2 Hrun2].
  { subst pp. simpl. intros p [->|[->|?%elem_of_nil]%elem_of_cons]%elem_of_cons;
      [by rewrite P1|by rewrite P2|done]. }
  destruct (calculateTICA_fn_inv _ _ _ _ Hrun2)
    as (model' & out' & conc' & pp' & Hin' & Hout').
  destruct (fit_inputs_inj _ _ _ _ _ _ _ _ _ _ _ Hin Hin')
    as (-> & -> & -> & ->).
  destruct Hout' as (_ & _ & O3 & O4 & O5).
  destruct (O5 p1) as (o1' & c1' & P1' & _ & T1).
  { subst pp. simpl. by left. }
  destruct (O5 p2) as (o2' & c2' & P2' & _ & T2).
  { subst pp. simpl. right. by left. }
  rewrite P1 in P1'. injection P1' as <- <-.
  rewrite P2 in P2'. injection P2' as <- <-.
  exists w1, (with_self s2 w1), c1, c2. cbn [self with_self].
  split; [done|]. split; [by apply calculateTICA_ok|].
  rewrite O4, C11, C21. repeat split; try done; lia.
Qed.

End Model.

Lemma omap_lookup_total {A B} (f : A → option B) (l : list A) (j : nat)
    (x : A) :
  Forall (λ x, is_Some (f x)) l → l !! j = Some x → omap f l !! j = f x.
Proof.
  intros Hall. revert j. induction Hall as [|a l [b Hb] _ IH]; intros j.
  - done.
  - simpl. rewrite Hb. destruct j as [|j]; simpl.
    + by intros [= <-].
    + apply IH.
Qed.

Lemma lookup_map {A B} (f : A → B) (l : list A) (i : nat) :
  map f l !! i = f <$> l !! i.
Proof. revert i. induction l as [|x l IH]; intros [|i]; simpl; auto. Qed.

Lemma elem_of_concat {A} (x : A) (ls : list (list A)) :
  x ∈ concat ls ↔ ∃ l, x ∈ l ∧ l ∈ ls.
Proof.
  induction ls as [|l0 ls IH]; simpl.
  - split; [by intros ?%elem_of_nil|by intros (? & _ & ?%elem_of_nil)].
  - rewrite elem_of_app, IH. split.
    + intros [H|(l & H1 & H2)].
      * exists l0. split; [done|by left].
      * exists l. split; [done|by right].
    + intros (l & H1 & [->|H2]%elem_of_cons); [by left|].
      right. by exists l.
Qed.

Lemma elem_of_map {A B} (f : A → B) (l : list A) (y : B) :
  y ∈ map f l ↔ ∃ x, y = f x ∧ x ∈ l.
Proof.
  induction l as [|a l IH]; simpl.
  - split; [by intros ?%elem_of_nil|by intros (? & _ & ?%elem_of_nil)].
  - rewrite elem_of_cons, IH. split.
    + intros [->|(x & -> & Hx)].
      * exists a. split; [done|by left].
      * exists x. split; [done|by right].
    + intros (x & -> & [->|Hx]%elem_of_cons); [by left|].
      right. by exists x.
Qed.

(** * The free-energy transform of [_plot_Nice_PES] (lines 268-292)

    Bin counts and energies are real numbers; [np.histogram2d] and
    [gaussian_filter] belong to numpy and scipy and are not modelled: the
    transform takes the histogram and hands its surface to the filter. *)
Module FreeEnergy.
Section FreeEnergy.
Local Open Scope R_scope.

Definition matrix := list (list R).

(** [z += 0.1] *)
Definition add_small (z : matrix) : matrix := map (map (λ c, c + 0.1)) z.

(** [F = -np.log(z)] *)
Definition neg_log (z : matrix) : matrix := map (map (λ c, - ln c)) z.

(** [F.T], with as many rows as the first row of [F] has columns *)
Definition transpose (F : matrix) : matrix :=
  match F with
  | [] => []
  | r :: _ => map (λ j, omap (λ row : list R, row !! j) F) (seq 0 (length r))
  end.

(** [np.min(a)] over all entries; numpy raises on an array without
    entries. *)
Definition np_min (a : matrix) : result R :=
  match concat a with
  | [] => Raise (ValueError "zero-size array to reduction operation minimum which has no identity")
  | x :: l => Ok (fold_left Rmin l x)
  end.

(** The argument of [gaussian_filter] on line 292:
    [(F.T)*0.592 - np.min(F.T)*0.592]. *)
Definition free_energy (z : matrix) : result matrix :=
  let F := neg_log (add_small z) in
  m ← np_min (transpose F);
  Ok (map (map (λ v, v * 0.592 - m * 0.592)) (transpose F)).

(** Line 292, with scipy's filter as a parameter. *)
Definition smoothed (gaussian_filter : matrix → R → matrix) (z : matrix)
    (sigma : R) : result matrix :=
  surface ← free_energy z;
  Ok (gaussian_filter surface sigma).

Lemma fold_Rmin_le l : ∀ x, fold_left Rmin l x <= x.
Proof.
  induction l as [|y l IH]; intros x; simpl; [lra|].
  etrans; [apply IH|]. apply Rmin_l.
Qed.

Lemma fold_Rmin_lower l :
  ∀ x y, y ∈ x :: l → fold_left Rmin l x <= y.
Proof.
  induction l as [|z l IH]; intros x y Hy; simpl.
  - apply list_elem_of_singleton in Hy as ->. lra.
  - apply elem_of_cons in Hy as [->|Hy].
    + etrans; [apply fold_Rmin_le|]. apply Rmin_l.
    + apply elem_of_cons in Hy as [->|Hy].
      * etrans; [apply fold_Rmin_le|]. apply Rmin_r.
      * apply IH. by right.
Qed.

Lemma fold_Rmin_in l : ∀ x, fold_left Rmin l x ∈ x :: l.
Proof.
  induction l as [|z l IH]; intros x; simpl; [by left|].
  specialize (IH (Rmin x z)).
  apply elem_of_cons in IH as [->|IH]; [|by do 2 right].
  unfold Rmin. destruct (Rle_dec x z); [by left|right; by left].
Qed.

Lemma np_min_spec a m :
  np_min a = Ok m → m ∈ concat a ∧ ∀ v, v ∈ concat a → m <= v.
Proof.
  unfold np_min. destruct (concat a) as [|x l]; [done|].
  intros [= <-]. split; [apply fold_Rmin_in|apply fold_Rmin_lower].
Qed.

(** Every entry of the transpose is an entry of the matrix. *)
Lemma transpose_entries F v : v ∈ concat (transpose F) → v ∈ concat F.
Proof.
  unfold transpose. destruct F as [|r F']; [done|].
  set (F := r :: F'). generalize (seq 0 (length r)). intros js Hv.
  apply elem_of_concat in Hv as (col & Hv & Hcol).
  apply elem_of_map in Hcol as (j & -> & _).
  apply list_elem_of_omap in Hv as (row & Hrow & Hj).
  apply elem_of_concat. exists row. split; [|done].
  by eapply list_elem_of_lookup_2.
Qed.

Lemma neg_log_entries z f :
  f ∈ concat (neg_log (add_small z)) →
  ∃ c, c ∈ concat z ∧ f = - ln (c + 0.1).
Proof.
  intros Hf. apply elem_of_concat in Hf as (row & Hf & Hrow).
  unfold neg_log, add_small in Hrow. rewrite map_map in Hrow.
  apply elem_of_map in Hrow as (zrow & -> & Hz).
  rewrite map_map in Hf.
  apply elem_of_map in Hf as (c & -> & Hc).
  exists c. split; [|done]. apply elem_of_concat. by exists zrow.
Qed.

Lemma surface_entries z surface v :
  free_energy z = Ok surface → v ∈ concat surface →
  ∃ m f, np_min (transpose (neg_log (add_small z))) = Ok m
         ∧ f ∈ concat (transpose (neg_log (add_small z)))
         ∧ v = f * 0.592 - m * 0.592.
Proof.
  unfold free_energy.
  destruct (np_min _) as [m|] eqn:Hm; [|done]. simpl.
  intros [= <-] Hv.
  apply elem_of_concat in Hv as (row & Hv & Hrow).
  apply elem_of_map in Hrow as (frow & -> & Hf).
  apply elem_of_map in Hv as (f & -> & Hv).
  exists m, f. split; [done|]. split; [|done].
  apply elem_of_concat. by exists frow.
Qed.

(** A histogram with a bin has a surface. *)
Lemma free_energy_total r z :
  r ≠ [] → ∃ surface, free_energy (r :: z) = Ok surface.
Proof.
  intros Hr. unfold free_energy, np_min.
  destruct (concat (transpose (neg_log (add_small (r :: z)))))
    as [|x l] eqn:E; [|by eexists].
  exfalso. destruct r as [|c r]; [done|]. simpl in E. done.
Qed.

(** The transpose of a matrix whose rows have [n] entries each: [n] rows,
    one for each column, with the entries of the column in row order. *)
Lemma transpose_spec (F : matrix) (n : nat) :
  F ≠ [] → Forall (λ row, length row = n) F →
  length (transpose F) = n
  ∧ ∀ j, (j < n)%nat →
      ∃ col, transpose F !! j = Some col
             ∧ length col = length F
             ∧ ∀ i row, F !! i = Some row → col !! i = row !! j.
Proof.
  intros Hne Hall. destruct F as [|r0 F']; [done|].
  assert (length r0 = n) as Hr0 by (by inversion Hall).
  unfold transpose. cbv beta iota. rewrite Hr0.
  remember (r0 :: F') as F eqn:EF. clear EF Hne Hr0.
  split; [by rewrite length_map, length_seq|].
  intros j Hj. exists (omap (λ row : list R, row !! j) F).
  assert (Forall (λ row : list R, is_Some (row !! j)) F) as Hsome.
  { eapply Forall_impl; [exact Hall|]. intros row Hrow. simpl in Hrow.
    apply lookup_lt_is_Some_2. lia. }
  split; [|split].
  - etrans; [apply lookup_map|]. by rewrite lookup_seq_lt.
  - by apply omap_length_total.
  - intros i row Hi. by apply (omap_lookup_total _ F i row).
Qed.

(** C5. For a histogram with at least one bin the transform has a surface.
    Every entry of the surface is [(-ln(c + 0.1)) * 0.592] for the count
    [c] of a bin, less [0.592] times [m], the least entry of the
    transposed [-ln(z + 0.1)], which is the value of some bin; so no entry
    is negative and some entry is zero. When all bins hold the same count,
    every entry of the surface is zero. For a histogram whose rows have
    one length, as [np.histogram2d] returns it, the surface has a row for
    each column of the histogram and an entry for each of its rows, the
    entry at [(j, i)] is [(-ln(c + 0.1)) * 0.592 - m * 0.592] for the
    count [c] of the bin at [(i, j)], and [m] is the least of
    [-ln(c + 0.1)] over all bins. *)
Theorem free_energy_shift (r : list R) (z : matrix) :
  r ≠ [] →
  ∃ surface m,
    free_energy (r :: z) = Ok surface
    ∧ np_min (transpose (neg_log (add_small (r :: z)))) = Ok m
    ∧ (∀ v, v ∈ concat surface →
         0 <= v
         ∧ ∃ c, c ∈ concat (r :: z)
                ∧ v = (- ln (c + 0.1)) * 0.592 - m * 0.592)
    ∧ (∃ v, v ∈ concat surface ∧ v = 0)
    ∧ (∀ k, (∀ c, c ∈ concat (r :: z) → c = k) →
         ∀ v, v ∈ concat surface → v = 0)
    ∧ (∃ c, c ∈ concat (r :: z) ∧ m = - ln (c + 0.1))
    ∧ (Forall (λ row, length row = length r) z →
       length surface = length r
       ∧ Forall (λ srow, length srow = S (length z)) surface
       ∧ (∀ i j row c, (r :: z) !! i = Some row → row !! j = Some c →
            ∃ srow, surface !! j = Some srow
                    ∧ srow !! i
                      = Some ((- ln (c + 0.1)) * 0.592 - m * 0.592))
       ∧ ∀ c, c ∈ concat (r :: z) → m <= - ln (c + 0.1)).
Proof.
  intros Hr. destruct (free_energy_total r z Hr) as [surface Hs].
  set (FT := transpose (neg_log (add_small (r :: z)))) in *.
  assert (∃ m, np_min FT = Ok m) as [m Hm].
  { unfold free_energy in Hs. fold FT in Hs.
    destruct (np_min FT) as [m|]; [by eauto|done]. }
  destruct (np_min_spec _ _ Hm) as [Hin Hlow].
  assert (∀ f, f ∈ concat FT →
            ∃ c, c ∈ concat (r :: z) ∧ f = - ln (c + 0.1)) as Hentries.
  { intros f Hf. apply neg_log_entries. by apply transpose_entries. }
  assert (surface = map (map (λ v, v * 0.592 - m * 0.592)) FT) as Hsurf.
  { unfold free_energy in Hs. fold FT in Hs. rewrite Hm in Hs.
    simpl in Hs. by injection Hs as <-. }
  assert (∀ v, v ∈ concat surface ↔
               ∃ f, f ∈ concat FT ∧ v = f * 0.592 - m * 0.592) as Hmem.
  { intros v. rewrite Hsurf, elem_of_concat. split.
    - intros (row & Hv & Hrow).
      apply elem_of_map in Hrow as (frow & -> & Hfrow).
      apply elem_of_map in Hv as (f & -> & Hf).
      exists f. split; [|done]. apply elem_of_concat. by exists frow.
    - intros (f & Hf & ->).
      apply elem_of_concat in Hf as (frow & Hf & Hfrow).
      exists (map (λ v, v * 0.592 - m * 0.592) frow). split.
      + apply elem_of_map. by exists f.
      + apply elem_of_map. by exists frow. }
  exists surface, m. split; [done|]. split; [done|].
  split; [|split; [|split; [|split]]].
  - intros v (f & Hf & ->)%Hmem. split.
    + specialize (Hlow f Hf). lra.
    + destruct (Hentries f Hf) as (c & Hc & ->). by exists c.
  - exists 0. split; [|done]. apply Hmem. exists m. split; [done|lra].
  - intros k Hk v (f & Hf & ->)%Hmem.
    destruct (Hentries f Hf) as (c & Hc & ->).
    destruct (Hentries m Hin) as (c' & Hc' & Hmc).
    rewrite (Hk c Hc). rewrite Hmc, (Hk c' Hc'). lra.
  - by apply Hentries.
  - intros Hrect.
    set (F := neg_log (add_small (r :: z))) in *.
    assert (F ≠ []) as HF by done.
    assert (length F = S (length z)) as HlenF.
    { unfold F, neg_log, add_small. by rewrite !length_map. }
    assert (Forall (λ row, length row = length r) F) as HrectF.
    { unfold F, neg_log, add_small. rewrite map_map.
      apply Forall_forall. intros row (zrow & -> & Hz)%elem_of_map.
      rewrite !length_map.
      apply elem_of_cons in Hz as [->|Hz]; [done|].
      rewrite Forall_forall in Hrect. by apply Hrect. }
    destruct (transpose_spec F (length r) HF HrectF) as [HlenT Hcols].
    fold FT in HlenT, Hcols.
    assert (∀ i j row c, (r :: z) !! i = Some row → row !! j = Some c →
              ∃ col, FT !! j = Some col
                     ∧ col !! i = Some (- ln (c + 0.1))) as Hbin.
    { intros i j row c Hi Hj.
      assert (length row = length r) as Hrow.
      { destruct i as [|i]; simpl in Hi; [by injection Hi as <-|].
        rewrite Forall_forall in Hrect. apply Hrect.
        by eapply list_elem_of_lookup_2. }
      destruct (Hcols j) as (col & Hcol & _ & Hat).
      { apply lookup_lt_Some in Hj. lia. }
      exists col. split; [done|].
      rewrite (Hat i (map (λ c, - ln c) (map (λ c, c + 0.1) row))).
      - by rewrite !lookup_map, Hj.
      - unfold F, neg_log, add_small, matrix.
        by rewrite !lookup_map, Hi. }
    split; [|split; [|split]].
    + by rewrite Hsurf, length_map.
    + rewrite Hsurf. apply Forall_forall.
      intros srow (col & -> & Hcol)%elem_of_map. rewrite length_map.
      apply list_elem_of_lookup_1 in Hcol as [j Hj].
      destruct (Hcols j) as (col' & Hcol' & Hlen & _).
      { apply lookup_lt_Some in Hj. lia. }
      pose proof (eq_trans (eq_sym Hj) Hcol') as [= <-]. lia.
    + intros i j row c Hi Hj.
      destruct (Hbin i j row c Hi Hj) as (col & Hcol & Hat).
      exists (map (λ v, v * 0.592 - m * 0.592) col). split.
      * rewrite Hsurf. etrans; [apply lookup_map|].
        by rewrite (Hcol : @lookup _ _ (list (list R)) _ j FT = Some col).
      * by rewrite lookup_map, Hat.
    + intros c Hc. apply elem_of_concat in Hc as (row & Hc & Hrow).
      apply list_elem_of_lookup_1 in Hrow as [i Hi].
      apply list_elem_of_lookup_1 in Hc as [j Hj].
      destruct (Hbin i j row c Hi Hj) as (col & Hcol & Hat).
      apply Hlow. apply elem_of_concat. exists col.
      split; by eapply list_elem_of_lookup_2.
Qed.

End FreeEnergy.
End FreeEnergy.

(** * A concrete instance

    Cells are integers; a trajectory file is the array pyemma reads from
    it; the featurizer is the list of its selections; the fitted model
    keeps the pooled arrays and the number of columns it retains, the
    smaller of the column count and the lag time. *)
Module Example.

Definition file : Type := ndarray Z.
Definition toy_model : Type := nat * list (ndarray Z).

Definition toy_pyemma : @Pyemma Z file (list string) string toy_model :=
  {| coordinates_load := λ paths _, Ok paths;
     feat_select := λ _ what, Ok what;
     feat_add_selection := λ f sel, Ok (f ++ [sel]);
     coordinates_tica := λ pooled lag,
       if decide (1 ≤ lag) then
         match pooled with
         | [] => Raise (ValueError "no data")
         | a :: _ => Ok (Nat.min (shape1 a) (Z.to_nat lag), pooled)
         end
       else Raise (ValueError "lag must be positive");
     tica_get_output := λ m, Ok (map (columns_upto (Z.of_nat m.1)) m.2);
     tica_transform := λ m ds, Ok (map (columns_upto (Z.of_nat m.1)) ds) |}.

(** matplotlib refuses a grid without rows and returns otherwise. *)
Definition matplotlib (c : @plot_call Z) : option exn :=
  match c with
  | Subplots nrows _ _ =>
      if decide (nrows ≤ 0)
      then Some (ValueError "Number of rows must be a positive integer")
      else None
  | _ => None
  end.

Definition index_row (protein : string) (trajectory step : Z) : list label :=
  [LStr protein; LStr "L"; LInt 0; LInt trajectory; LInt step].

(** A table in which protein P1 has the trajectories 1 and 2 and protein
    P2 has trajectory 1 only. All columns hold integers, so [to_numpy]
    converts nothing. *)
Definition table : DataFrame Z :=
  {| index_names :=
       ["Protein"; "Ligand"; "Epoch"; "Trajectory"; "Accepted Pele Steps"];
     index_levels :=
       [[LStr "P1"; LStr "P2"]; [LStr "L"]; [LInt 0]; [LInt 1; LInt 2];
        [LInt 0; LInt 1]];
     columns := ["Binding Energy"; "metric_distance"];
     rows := [(index_row "P1" 1 0, [-30; 5]);
              (index_row "P1" 1 1, [-31; 6]);
              (index_row "P1" 2 0, [-29; 7]);
              (index_row "P2" 1 0, [-28; 8])];
     common_dtype := λ _ v, v |}.

(** A table in which both proteins have the trajectories 1 and 2, of two
    frames each. *)
Definition full_table : DataFrame Z :=
  {| index_names :=
       ["Protein"; "Ligand"; "Epoch"; "Trajectory"; "Accepted Pele Steps"];
     index_levels :=
       [[LStr "P1"; LStr "P2"]; [LStr "L"]; [LInt 0]; [LInt 1; LInt 2];
        [LInt 0; LInt 1]];
     columns := ["Binding Energy"; "metric_distance"];
     rows := [(index_row "P1" 1 0, [-30; 5]); (index_row "P1" 1 1, [-31; 6]);
              (index_row "P1" 2 0, [-29; 7]); (index_row "P1" 2 1, [-27; 4]);
              (index_row "P2" 1 0, [-28; 8]); (index_row "P2" 1 1, [-26; 9]);
              (index_row "P2" 2 0, [-25; 3]); (index_row "P2" 2 1, [-24; 2])];
     common_dtype := λ _ v, v |}.

(** A trajectory file of [n] frames with three coordinates. *)
Definition frames (n : nat) (x : Z) : file :=
  {| shape1 := 3; cells := replicate n [x; x + 1; x + 2] |}.

Definition instance_of (data : DataFrame Z) (n : nat)
  : @ligand_msm Z file (list string) toy_model :=
  {| pele_analysis :=
       {| proteins := ["P1"; "P2"];
          pele_combinations := [("P1", "L"); ("P2", "L")];
          pele_data := data |};
     trajectories := [(("P1", "L"), [frames n 10; frames n 20]);
                      (("P2", "L"), [frames n 30; frames n 40])];
     all_trajectories := [frames n 10; frames n 20; frames n 30; frames n 40];
     topology := [("L", frames 1 0)];
     ligand_atoms := [("L", ["C1"; "C2"; "O1"])];
     features := [("L", [])];
     data := [];
     tica_output := [];
     tica_concatenated := [];
     all_data := [];
     all_tica := [];
     all_tica_output := [];
     all_tica_concatenated := [];
     metric_features := [];
     ndims := None |}.

Definition world_of (data : DataFrame Z) (n : nat)
  : @world Z file (list string) toy_model :=
  {| self := instance_of data n; plots := [] |}.

(** ** getMetricData on the two tables *)

Definition w_short := world_of table 2.
Definition w_full := world_of full_table 2.

(** C1 fails on [table]: the pair (P2, L) has the single trajectory 1, and
    [getMetricData] returns two arrays, the second one empty, because the
    Trajectory level of the table also holds the label 2 of protein P1. *)
Lemma getMetricData_foreign_label :
  ∃ arrs,
    getMetricData "L" "P2" "metric_distance" w_short = (w_short, Ok arrs)
    ∧ arrs = [Array1 [8]; Array1 []]
    ∧ pair_trajectory_labels 1 0 3 "L" "P2" table = [LInt 1]
    ∧ length arrs ≠ length (pair_trajectory_labels 1 0 3 "L" "P2" table).
Proof.
  exists [Array1 [8]; Array1 []]. split; [by vm_compute|]. split; [done|].
  split; [by vm_compute|]. vm_compute. lia.
Qed.

Lemma getMetricData_per_level_label_witness :
  (index_names table !! 3%nat = Some "Trajectory" → 3%nat = 3%nat)
  ∧ ∃ arrs,
      getMetricData "L" "P1" "metric_distance" w_short = (w_short, Ok arrs)
      ∧ length arrs = length [LInt 1; LInt 2]
      ∧ ∀ i t, [LInt 1; LInt 2] !! i = Some t →
          ∃ a, arrs !! i = Some (Array1 a)
               ∧ a = omap (λ r, r.2 !! 1%nat)
                       (frames_of 1 0 3 "L" "P1" t table)
               ∧ length a = length (frames_of 1 0 3 "L" "P1" t table).
Proof.
  apply (getMetricData_per_level_label "L" "P1" "metric_distance" w_short
           1 0 3 1 [LInt 1; LInt 2]); try reflexivity.
  - apply (bool_decide_unpack _). by vm_compute.
  - apply (bool_decide_unpack _). by vm_compute.
  - unfold rows_wf. simpl. repeat constructor.
Defined.

(** ** addFeature on the instance *)

Lemma addFeature_guard_witness :
  addFeature toy_pyemma "velocities" "L" w_full =
  (w_full,
   Raise (ValueError
            "Feature velocities not implemented. try: ['positions', 'metrics']")).
Proof.
  apply (proj1 (addFeature_guard toy_pyemma "velocities" "L" w_full)); done.
Defined.

(** ** Plotting before fitting *)

(** C8 fails for [ndims = 0]: nothing reads the pooled output, and the
    exception is the one of [plt.subplots]. *)
Lemma plotTICADensity_no_dimensions :
  Dict.get "L" (all_tica_concatenated (self w_full)) = None
  ∧ plotTICADensity matplotlib "L" 0 w_full =
    ({| self := self w_full; plots := [Subplots 0 7 0] |},
     Raise (ValueError "Number of rows must be a positive integer"))
  ∧ (plotTICADensity matplotlib "L" 0 w_full).2 ≠ Raise (KeyError (KStr "L")).
Proof. split; [done|]. split; [by vm_compute|]. by vm_compute. Qed.

Lemma plot_before_fit_witness :
  plotTICADistribution matplotlib "L" 10 w_full =
  ({| self := self w_full; plots := [Subplots 1 12 10] |},
   Raise (KeyError (KStr "L")))
  ∧ plotTICADensity matplotlib "L" 4 w_full
    = (w_full, Raise (KeyError (KStr "L"))).
Proof.
  destruct (plot_before_fit matplotlib "L" w_full eq_refl) as (H1 & H2 & _).
  split.
  - apply (H1 10). reflexivity.
  - apply (H2 4). lia.
Defined.

(** ** Running the state-populating methods twice *)

(** The instance after one and after two [getFeaturesData('L')]. *)
Definition w_loaded := (getFeaturesData toy_pyemma "L" w_full).1.
Definition w_loaded_twice := (getFeaturesData toy_pyemma "L" w_loaded).1.

(** The instance after one and after two [addFeature('metrics', 'L')]. *)
Definition w_metrics := (addFeature toy_pyemma "metrics" "L" w_full).1.
Definition w_metrics_twice := (addFeature toy_pyemma "metrics" "L" w_metrics).1.

(** C2 fails on both methods: the second [getFeaturesData] leaves eight
    pooled arrays where the first left four, and the second
    [addFeature('metrics')] leaves four metric arrays for P1 where the
    first left two; the instance after two calls is not the instance after
    one. *)
Lemma second_call_accumulates :
  getFeaturesData toy_pyemma "L" w_full = (w_loaded, Ok ())
  ∧ getFeaturesData toy_pyemma "L" w_loaded = (w_loaded_twice, Ok ())
  ∧ length <$> Dict.get "L" (all_data (self w_loaded)) = Some 4%nat
  ∧ length <$> Dict.get "L" (all_data (self w_loaded_twice)) = Some 8%nat
  ∧ self w_loaded_twice ≠ self w_loaded
  ∧ addFeature toy_pyemma "metrics" "L" w_full = (w_metrics, Ok ())
  ∧ addFeature toy_pyemma "metrics" "L" w_metrics = (w_metrics_twice, Ok ())
  ∧ length <$> metric_at (self w_metrics) "L" "P1" = Some 2%nat
  ∧ length <$> metric_at (self w_metrics_twice) "L" "P1" = Some 4%nat
  ∧ self w_metrics_twice ≠ self w_metrics.
Proof.
  split; [by vm_compute|]. split; [by vm_compute|].
  split; [by vm_compute|]. split; [by vm_compute|]. split.
  { intros H.
    apply (f_equal (λ s, length <$> Dict.get "L" (all_data s))) in H.
    vm_compute in H. discriminate H. }
  split; [by vm_compute|]. split; [by vm_compute|].
  split; [by vm_compute|]. split; [by vm_compute|].
  intros H. apply (f_equal (λ s, length <$> metric_at s "L" "P1")) in H.
  vm_compute in H. discriminate H.
Qed.

Lemma reinvocation_accumulates_witness :
  (∃ w2 dss,
     getFeaturesData toy_pyemma "L" w_loaded = (w2, Ok ())
     ∧ data (self w2) = data (self w_loaded)
     ∧ Dict.get "L" (all_data (self w_loaded)) = Some (concat dss)
     ∧ Dict.get "L" (all_data (self w2)) = Some (concat dss ++ concat dss))
  ∧ ∃ w2, addFeature toy_pyemma "metrics" "L" w_metrics = (w2, Ok ()).
Proof.
  split.
  - destruct (proj1 (reinvocation_accumulates toy_pyemma "L" w_full w_loaded))
      as (w2 & dss & H1 & H2 & _ & H3 & H4); [by vm_compute|].
    by exists w2, dss.
  - destruct (proj2 (reinvocation_accumulates toy_pyemma "L" w_full w_metrics))
      as (w2 & H1 & _).
    + apply (bool_decide_unpack _). by vm_compute.
    + by vm_compute.
    + by exists w2.
Defined.

(** ** The row-count assertion *)

Definition loaded_of (p : string) : list (ndarray Z) :=
  if decide (p = "P1") then [frames 2 10; frames 2 20]
  else [frames 2 30; frames 2 40].

Definition ms_of (p : string) : list (ndarray Z) :=
  default [] (metric_at (self w_metrics) "L" p).

Lemma getFeaturesData_assertion_witness :
  ∃ w',
    getFeaturesData toy_pyemma "L" w_metrics = (w', Ok ())
    ∧ plots w' = plots w_metrics
    ∧ ∀ p, p ∈ ["P1"; "P2"] →
        ∃ ds, data_at (self w') "L" p = Some ds
              ∧ extended (loaded_of p) (ms_of p) ds.
Proof.
  destruct (getFeaturesData_assertion toy_pyemma "L" w_metrics
              loaded_of ms_of) as (w' & r & Hrun & Hp & _ & _ & _ & Hok).
  { intros p Hp.
    apply elem_of_cons in Hp as [->|Hp];
      [|apply elem_of_cons in Hp as [->|Hp];
        [|by apply elem_of_nil in Hp]].
    - eexists _, _, _. repeat split; reflexivity.
    - eexists _, _, _. repeat split; reflexivity. }
  assert (r = Ok ()) as ->.
  { assert ((getFeaturesData toy_pyemma "L" w_metrics).2 = Ok ()) as H
      by (by vm_compute).
    rewrite Hrun in H. exact H. }
  exists w'. split; [done|]. split; [done|]. by apply Hok.
Defined.

(** Three frames in every file against two rows in every metric array:
    the assertion fails at the first trajectory of P1, before anything is
    pooled. *)
Example getFeaturesData_mismatch :
  let w := (addFeature toy_pyemma "metrics" "L" (world_of full_table 3)).1 in
  (getFeaturesData toy_pyemma "L" w).2 = Raise AssertionError
  ∧ data_at (self (getFeaturesData toy_pyemma "L" w).1) "L" "P1"
    = Some [frames 3 10; frames 3 20]
  ∧ Dict.get "L" (all_data (self (getFeaturesData toy_pyemma "L" w).1))
    = Some [].
Proof. by vm_compute. Qed.

(** An instance on [table] whose files are those the table describes: one
    file of one frame for P2, and for P1 a file of two frames and a file
    of one frame; P2 comes first. *)
Definition w_files : @world Z file (list string) toy_model :=
  {| self :=
       {| pele_analysis :=
            {| proteins := ["P2"; "P1"];
               pele_combinations := [("P2", "L"); ("P1", "L")];
               pele_data := table |};
          trajectories := [(("P2", "L"), [frames 1 30]);
                           (("P1", "L"), [frames 2 10; frames 1 20])];
          all_trajectories := [frames 1 30; frames 2 10; frames 1 20];
          topology := [("L", frames 1 0)];
          ligand_atoms := [("L", ["C1"; "C2"; "O1"])];
          features := [("L", [])];
          data := []; tica_output := []; tica_concatenated := [];
          all_data := []; all_tica := []; all_tica_output := [];
          all_tica_concatenated := []; metric_features := [];
          ndims := None |};
     plots := [] |}.

(** An instance on [full_table] with a third file for P1, which the table
    has no trajectory for. *)
Definition w_third_file : @world Z file (list string) toy_model :=
  {| self :=
       {| pele_analysis := pele_analysis (instance_of full_table 2);
          trajectories :=
            [(("P1", "L"), [frames 2 10; frames 2 20; frames 2 50]);
             (("P2", "L"), [frames 2 30; frames 2 40])];
          all_trajectories := [frames 2 10; frames 2 20; frames 2 50;
                               frames 2 30; frames 2 40];
          topology := [("L", frames 1 0)];
          ligand_atoms := [("L", ["C1"; "C2"; "O1"])];
          features := [("L", [])];
          data := []; tica_output := []; tica_concatenated := [];
          all_data := []; all_tica := []; all_tica_output := [];
          all_tica_concatenated := []; metric_features := [];
          ndims := None |};
     plots := [] |}.

(** C3 fails where a protein has not as many metric arrays as files. On
    [w_files] the only file of P2 has the row count of its metric array,
    but P2 has a second, empty, metric array for the Trajectory label of
    P1, and [getFeaturesData] raises IndexError, not AssertionError, with
    nothing pooled. On [w_third_file] every file has two rows as every
    metric array has, and [getFeaturesData] returns with the third array
    of P1 as it was loaded, three columns wide beside two arrays of four
    columns. *)
Lemma getFeaturesData_unmatched_counts :
  let w1 := (addFeature toy_pyemma "metrics" "L" w_files).1 in
  let w2 := (addFeature toy_pyemma "metrics" "L" w_third_file).1 in
  (addFeature toy_pyemma "metrics" "L" w_files).2 = Ok ()
  ∧ map shape0 <$> Dict.get ("P2", "L") (trajectories (self w1))
    = Some [1%nat]
  ∧ map shape0 <$> metric_at (self w1) "L" "P2" = Some [1%nat; 0%nat]
  ∧ (getFeaturesData toy_pyemma "L" w1).2 = Raise IndexError
  ∧ Dict.get "L" (all_data (self (getFeaturesData toy_pyemma "L" w1).1))
    = Some []
  ∧ (addFeature toy_pyemma "metrics" "L" w_third_file).2 = Ok ()
  ∧ map shape0 <$> Dict.get ("P1", "L") (trajectories (self w2))
    = Some [2%nat; 2%nat; 2%nat]
  ∧ map shape0 <$> metric_at (self w2) "L" "P1" = Some [2%nat; 2%nat]
  ∧ (getFeaturesData toy_pyemma "L" w2).2 = Ok ()
  ∧ map shape1
      <$> data_at (self (getFeaturesData toy_pyemma "L" w2).1) "L" "P1"
    = Some [4%nat; 4%nat; 3%nat].
Proof. by vm_compute. Qed.

(** ** Fitting twice, and the lag-time sweep *)

Definition w_fit1 := (calculateTICA toy_pyemma "L" 1 w_loaded).1.
Definition w_fit12 := (calculateTICA toy_pyemma "L" 2 w_fit1).1.

Lemma calculateTICA_overwrites_witness :
  ndims (self w_fit1) = Some 1%nat
  ∧ ndims (self w_fit12) = Some 2%nat
  ∧ ∃ w2', calculateTICA toy_pyemma "L" 2 w_loaded = (w2', Ok ())
           ∧ same_fit "L" (self w_fit12) (self w2').
Proof.
  split; [by vm_compute|]. split; [by vm_compute|].
  destruct (calculateTICA_overwrites toy_pyemma "L" 1 2
              w_loaded w_fit1 w_fit12 (Ok ())) as (_ & _ & H);
    [by vm_compute|by vm_compute|].
  exact H.
Defined.



(** ** Two ligands *)

Definition narrow : ndarray Z := {| shape1 := 2; cells := [[1; 2]; [3; 4]] |}.

(** An instance with features for the ligands L, of three columns, and M,
    of two columns. *)
Definition w_two_ligands : @world Z file (list string) toy_model :=
  {| self :=
       set_all_data [("L", [frames 2 10]); ("M", [narrow])]
         (set_data [("L", [("P1", [frames 2 10])]); ("M", [("P1", [narrow])])]
            (instance_of full_table 2));
     plots := [] |}.

Definition w_fit_L := (calculateTICA toy_pyemma "L" 5 w_two_ligands).1.
Definition w_fit_LM := (calculateTICA toy_pyemma "M" 5 w_fit_L).1.

Lemma ndims_last_fit_witness :
  ∃ c1 c2,
    Dict.get "L" (all_tica_concatenated (self w_fit_L)) = Some c1
    ∧ ndims (self w_fit_L) = Some (shape1 c1)
    ∧ Dict.get "L" (all_tica_concatenated (self w_fit_LM)) = Some c1
    ∧ Dict.get "M" (all_tica_concatenated (self w_fit_LM)) = Some c2
    ∧ ndims (self w_fit_LM) = Some (shape1 c2)
    ∧ (shape1 c1 ≠ shape1 c2 → ndims (self w_fit_LM) ≠ Some (shape1 c1)).
Proof.
  apply (ndims_last_fit toy_pyemma "L" "M" 5 5 w_two_ligands);
    [done|by vm_compute|by vm_compute].
Defined.

(** On that instance [ndims] is 2 after the second fit, and the pooled
    output of L has three columns. *)
Example ndims_describes_last_ligand :
  ndims (self w_fit_L) = Some 3%nat
  ∧ ndims (self w_fit_LM) = Some 2%nat
  ∧ shape1 <$> Dict.get "L" (all_tica_concatenated (self w_fit_LM))
    = Some 3%nat.
Proof. by vm_compute. Qed.

(** ** Two proteins with two trajectories of 100 frames *)

Definition w_hundred := world_of full_table 100.
Definition pooled_hundred : list (ndarray Z) :=
  [frames 100 10; frames 100 20; frames 100 30; frames 100 40].
Definition model_hundred : toy_model := (1%nat, pooled_hundred).
Definition out_hundred : list (ndarray Z) :=
  map (columns_upto 1) pooled_hundred.
Definition conc_hundred : ndarray Z :=
  {| shape1 := 1; cells := concat (map cells out_hundred) |}.

Lemma two_proteins_two_trajectories_witness :
  ∃ w1 w2 c1 c2,
    getFeaturesData toy_pyemma "L" w_hundred = (w1, Ok ())
    ∧ calculateTICA toy_pyemma "L" 1 w1 = (w2, Ok ())
    ∧ Dict.get "L" (all_tica_concatenated (self w2)) = Some conc_hundred
    ∧ ndims (self w2) = Some (shape1 conc_hundred)
    ∧ tcon_at (self w2) "L" "P1" = Some c1
    ∧ tcon_at (self w2) "L" "P2" = Some c2
    ∧ shape0 c1 = 200%nat ∧ shape0 c2 = 200%nat
    ∧ ndims (self w2) = Some (shape1 c1)
    ∧ ndims (self w2) = Some (shape1 c2).
Proof.
  apply (two_proteins_two_trajectories toy_pyemma "L" "P1" "P2" w_hundred
           [frames 100 10; frames 100 20] [frames 100 30; frames 100 40] []
           (frames 100 10) (frames 100 20) (frames 100 30) (frames 100 40)
           model_hundred out_hundred conc_hundred
           (map (columns_upto 1) [frames 100 10; frames 100 20])
           (map (columns_upto 1) [frames 100 30; frames 100 40]));
    try done; try (by vm_compute);
    unfold projects_each; simpl; repeat constructor.
Defined.

End Example.

(** * The free-energy transform on a flat histogram *)
Module FreeEnergyExample.
Import FreeEnergy.
Local Open Scope R_scope.

Lemma free_energy_shift_witness :
  ∃ surface,
    free_energy [[2; 2]; [2; 2]] = Ok surface
    ∧ (∀ v, v ∈ concat surface → v = 0)
    ∧ length surface = 2%nat
    ∧ Forall (λ srow, length srow = 2%nat) surface.
Proof.
  destruct (free_energy_shift [2; 2] [[2; 2]])
    as (surface & m & H1 & _ & _ & _ & H5 & _ & H7); [done|].
  exists surface. split; [exact H1|]. split.
  - apply (H5 2).
    intros c Hc. simpl in Hc.
    repeat (apply elem_of_cons in Hc as [->|Hc]; [reflexivity|]).
    by apply elem_of_nil in Hc.
  - destruct H7 as (H8 & H9 & _); [by repeat constructor|]. done.
Defined.

End FreeEnergyExample.

(** * Further properties of the class

    What the methods leave alone, how they fail when an earlier step is
    missing, and how they fit together. *)
Section More.
Context {V path featurizer selection tica_model : Type}.
Context (pyemma : @Pyemma V path featurizer selection tica_model).
Context (plt : @plot_call V → option exn).

Abbreviation array := (ndarray V).
Abbreviation instance := (@ligand_msm V path featurizer tica_model).
Abbreviation state := (@world V path featurizer tica_model).
Abbreviation cmd := (@M V path featurizer tica_model).

(** What the constructor fills in and no other method assigns. *)
Definition loaded_files (s : instance) :=
  (pele_analysis s, trajectories s, all_trajectories s, topology s,
   ligand_atoms s).

(** The attributes [calculateTICA] assigns. *)
Definition tica_results (s : instance) :=
  (tica_output s, tica_concatenated s, all_tica s, all_tica_output s,
   all_tica_concatenated s, ndims s).

Definition on_self {X} (g : instance → X) : state → X := λ w, g (self w).

Lemma stable_write {X} (g : instance → X) (f : instance → instance) :
  (∀ s, g (f s) = g s) → stable (on_self g) (write f).
Proof. intros H w w' r [= <- _]. apply H. Qed.

Ltac frame_step :=
  first
    [ apply stable_bind; [|intros ?]
    | apply stable_for_in; intros ?
    | apply stable_if
    | apply stable_decide
    | apply stable_ret
    | apply stable_raise
    | apply stable_lift
    | apply stable_read
    | apply stable_write_plots
    | apply stable_write; intros ?; reflexivity ].

(** X1. [calculateTICA], whether it returns or raises, assigns nothing but
    the results of the fit: what the constructor loaded, the featurizers
    in [features], [metric_features], [data] and [all_data] are as before,
    and no plotting call is made. *)
Theorem calculateTICA_keeps_features (ligand : string) (lag_time : Z)
    (w w' : state) (r : result ()) :
  calculateTICA pyemma ligand lag_time w = (w', r) →
  loaded_files (self w') = loaded_files (self w)
  ∧ features (self w') = features (self w)
  ∧ metric_features (self w') = metric_features (self w)
  ∧ data (self w') = data (self w)
  ∧ all_data (self w') = all_data (self w)
  ∧ plots w' = plots w.
Proof.
  intros Hrun.
  pose (g := λ s : instance, (loaded_files s, features s, metric_features s,
                              data s, all_data s)).
  assert (stable (on_self g) (calculateTICA pyemma ligand lag_time)) as Hs.
  { unfold calculateTICA, project_protein, data_list. repeat frame_step. }
  assert (stable plots (calculateTICA pyemma ligand lag_time)) as Hp.
  { unfold calculateTICA, project_protein, data_list. repeat frame_step. }
  specialize (Hs _ _ _ Hrun). specialize (Hp _ _ _ Hrun).
  unfold on_self, g in Hs. repeat split; congruence.
Qed.

(** X2. [getFeaturesData], whether it returns or raises, assigns nothing
    but [data] and [all_data]: what the constructor loaded, the
    featurizers in [features], [metric_features] and every result of a fit
    are as before, and no plotting call is made. *)
Theorem getFeaturesData_keeps_fits (ligand : string) (w w' : state)
    (r : result ()) :
  getFeaturesData pyemma ligand w = (w', r) →
  loaded_files (self w') = loaded_files (self w)
  ∧ features (self w') = features (self w)
  ∧ metric_features (self w') = metric_features (self w)
  ∧ tica_results (self w') = tica_results (self w)
  ∧ plots w' = plots w.
Proof.
  intros Hrun.
  pose (g := λ s : instance, (loaded_files s, features s, metric_features s,
                              tica_results s)).
  assert (stable (on_self g) (getFeaturesData pyemma ligand)) as Hs.
  { unfold getFeaturesData, load_protein, attach_metrics, set_data_list,
      data_list, metric_list.
    repeat frame_step. }
  assert (stable plots (getFeaturesData pyemma ligand)) as Hp.
  { unfold getFeaturesData, load_protein, attach_metrics, set_data_list,
      data_list, metric_list.
    repeat frame_step. }
  specialize (Hs _ _ _ Hrun). specialize (Hp _ _ _ Hrun).
  unfold on_self, g in Hs. repeat split; congruence.
Qed.

(** X3. [addFeature], whatever the feature and whether it returns or
    raises, leaves what the constructor loaded, [data], [all_data] and
    every result of a fit as they are and makes no plotting call; only
    'positions' can change [features] and only 'metrics' can change
    [metric_features]. *)
Theorem addFeature_keeps_data (feature ligand : string) (w w' : state)
    (r : result ()) :
  addFeature pyemma feature ligand w = (w', r) →
  loaded_files (self w') = loaded_files (self w)
  ∧ data (self w') = data (self w)
  ∧ all_data (self w') = all_data (self w)
  ∧ tica_results (self w') = tica_results (self w)
  ∧ plots w' = plots w
  ∧ (feature ≠ "positions" → features (self w') = features (self w))
  ∧ (feature ≠ "metrics" →
     metric_features (self w') = metric_features (self w)).
Proof.
  intros Hrun.
  pose (g := λ s : instance, (loaded_files s, data s, all_data s,
                              tica_results s)).
  assert (stable (on_self g) (addFeature pyemma feature ligand)) as Hs.
  { unfold addFeature, register_metrics, append_metric.
    repeat frame_step. }
  assert (stable plots (addFeature pyemma feature ligand)) as Hp.
  { unfold addFeature, register_metrics, append_metric.
    repeat frame_step. }
  assert (feature ≠ "positions" →
          stable (on_self features) (addFeature pyemma feature ligand))
    as Hf.
  { intros Hne. unfold addFeature, register_metrics, append_metric.
    rewrite (decide_False (P := feature = "positions")) by done.
    repeat frame_step. }
  assert (feature ≠ "metrics" →
          stable (on_self metric_features)
            (addFeature pyemma feature ligand)) as Hm.
  { intros Hne. unfold addFeature.
    rewrite (decide_False (P := feature = "metrics")) by done.
    repeat frame_step. }
  specialize (Hs _ _ _ Hrun). specialize (Hp _ _ _ Hrun).
  unfold on_self, g in Hs.
  do 5 (split; [congruence|]). split; intros Hne.
  - exact (Hf Hne _ _ _ Hrun).
  - exact (Hm Hne _ _ _ Hrun).
Qed.

(** ** calculateTICA: how it fails *)

(** X4. [calculateTICA] for a ligand without pooled features, which is
    every ligand before [getFeaturesData], raises KeyError for the ligand;
    when pyemma's tica raises, that exception is the outcome. In both
    cases nothing has been assigned. *)
Theorem calculateTICA_nothing_assigned (ligand : string) (lag_time : Z)
    (w : state) (e : exn) :
  match Dict.get ligand (all_data (self w)) with
  | None => e = KeyError (KStr ligand)
  | Some pooled => coordinates_tica pyemma pooled lag_time = Raise e
  end →
  calculateTICA pyemma ligand lag_time w = (w, Raise e).
Proof.
  intros H. rewrite calculateTICA_eq. unfold calculateTICA_fn.
  destruct (Dict.get ligand (all_data (self w))) as [pooled|].
  - rewrite H. by destruct w.
  - subst e. by destruct w.
Qed.

(** X5. [calculateTICA] assigns the model before it asks for the model's
    output: when [get_output] raises, the call ends with that exception,
    the ligand's model is the new one, and the outputs, the pooled outputs,
    the projections and [ndims] are those of before the call. *)
Theorem calculateTICA_model_without_output (ligand : string) (lag_time : Z)
    (w w' : state) (r : result ()) (pooled : list array)
    (model : tica_model) (e : exn) :
  Dict.get ligand (all_data (self w)) = Some pooled →
  coordinates_tica pyemma pooled lag_time = Ok model →
  tica_get_output pyemma model = Raise e →
  calculateTICA pyemma ligand lag_time w = (w', r) →
  r = Raise e
  ∧ Dict.get ligand (all_tica (self w')) = Some model
  ∧ all_tica_output (self w') = all_tica_output (self w)
  ∧ all_tica_concatenated (self w') = all_tica_concatenated (self w)
  ∧ tica_output (self w') = tica_output (self w)
  ∧ tica_concatenated (self w') = tica_concatenated (self w)
  ∧ ndims (self w') = ndims (self w).
Proof.
  intros Hp Hm Ho. rewrite calculateTICA_eq. unfold calculateTICA_fn.
  rewrite Hp, Hm. cbv zeta. rewrite Ho. intros [= <- <-]. simpl.
  by rewrite Dict.get_set_eq.
Qed.

(** ** getFeaturesData: how it fails *)

(** X6. [getFeaturesData] for a ligand whose first protein has no trajectory
    files (an unknown ligand, for one) raises KeyError for the pair, after
    it has created the ligand's entries: [data] and [all_data] hold the
    ligand from then on, with an empty mapping and an empty list where it
    was missing, so that a later [calculateTICA] finds pooled features. *)
Theorem getFeaturesData_unknown_pair (ligand p : string) (ps : list string)
    (w : state) :
  proteins (pele_analysis (self w)) = p :: ps →
  Dict.get (p, ligand) (trajectories (self w)) = None →
  ∃ w',
    getFeaturesData pyemma ligand w
    = (w', Raise (KeyError (KPair p ligand)))
    ∧ Dict.get ligand (data (self w'))
      = Some (default [] (Dict.get ligand (data (self w))))
    ∧ Dict.get ligand (all_data (self w'))
      = Some (default [] (Dict.get ligand (all_data (self w)))).
Proof.
  intros Hps Ht. rewrite getFeaturesData_eq. cbv zeta.
  destruct (init_entries_spec ligand (self w)) as (_ & _ & _ & Htr & _ & Hpa).
  cbv zeta in Htr, Hpa. rewrite Hpa, Hps. simpl.
  unfold load_protein_fn at 1 2. rewrite Htr, Ht. simpl.
  eexists. split; [reflexivity|]. simpl. split.
  - unfold init_entries.
    destruct (Dict.mem ligand (data (self w))) eqn:E1; simpl.
    + apply Dict.mem_get in E1 as [v Hv].
      destruct (Dict.mem ligand (all_data (self w))); simpl; by rewrite Hv.
    + assert (Dict.get ligand (data (self w)) = None) as ->.
      { destruct (Dict.get ligand (data (self w))) eqn:E; [|done].
        assert (is_Some (Dict.get ligand (data (self w)))) as Hs by eauto.
        apply Dict.mem_get in Hs. congruence. }
      destruct (Dict.mem ligand (all_data (self w))); simpl;
        by rewrite Dict.get_set_eq.
  - apply init_entries_all_data.
Qed.

Lemma attach_loop_surplus (ms : list array) (n : nat) :
  ∀ t0 ds,
    (t0 ≤ length ds)%nat → (length ds < t0 + n)%nat →
    (attach_loop (seq t0 n) ms ds).2 = Raise IndexError
    ∨ (attach_loop (seq t0 n) ms ds).2 = Raise AssertionError.
Proof.
  induction n as [|n IH]; intros t0 ds Hlo Hhi; [lia|]. simpl.
  destruct (ms !! t0) as [m_t|]; [|by left].
  destruct (ds !! t0) as [d_t|] eqn:Ed; [|by left].
  destruct (decide (shape0 m_t = shape0 d_t)) as [Heq|]; [|by right].
  rewrite (concatenate_axis1_ok _ _ Heq).
  apply lookup_lt_Some in Ed.
  apply IH; rewrite length_insert; lia.
Qed.

(** X7. A protein with more metric arrays than trajectory files makes
    [getFeaturesData] fail: where the first protein has [ms] metric arrays
    registered and its files load as fewer arrays, the call raises
    IndexError, or AssertionError when a row count differs before the
    surplus is reached, and the pooled list of the ligand is not extended.
    Two calls of [addFeature('metrics', ligand)] leave such an
    instance. *)
Theorem getFeaturesData_surplus_metrics (ligand p : string)
    (ps : list string) (w : state) (paths : list path) (f : featurizer)
    (loaded ms : list array) :
  proteins (pele_analysis (self w)) = p :: ps →
  Dict.get (p, ligand) (trajectories (self w)) = Some paths →
  Dict.get ligand (features (self w)) = Some f →
  coordinates_load pyemma paths f = Ok loaded →
  metric_at (self w) ligand p = Some ms →
  (length loaded < length ms)%nat →
  ∃ w' e,
    getFeaturesData pyemma ligand w = (w', Raise e)
    ∧ (e = IndexError ∨ e = AssertionError)
    ∧ Dict.get ligand (all_data (self w'))
      = Some (default [] (Dict.get ligand (all_data (self w)))).
Proof.
  intros Hps Ht Hf Hl Hm Hlen. rewrite getFeaturesData_eq. cbv zeta.
  destruct (init_entries_spec ligand (self w))
    as (Hd & _ & Hmf & Htr & Hfe & Hpa).
  cbv zeta in Hd, Hmf, Htr, Hfe, Hpa. rewrite Hpa, Hps. simpl.
  unfold load_protein_fn at 1 2. rewrite Htr, Ht, Hfe, Hf, Hl.
  unfold attached. rewrite Hmf.
  unfold metric_at in Hm.
  destruct (Dict.get ligand (metric_features (self w))) as [inner_m|];
    [|done].
  rewrite Hm.
  pose proof (attach_loop_surplus ms (length ms) 0 loaded) as Hs.
  destruct (attach_loop (seq 0 (length ms)) ms loaded) as [ds r].
  simpl in Hs.
  assert (∃ e, r = Raise e ∧ (e = IndexError ∨ e = AssertionError))
    as (e & -> & He).
  { destruct Hs as [->| ->]; [lia|lia|..]; eauto. }
  simpl. eexists _, e. split; [reflexivity|]. split; [done|]. simpl.
  unfold put_data. destruct Hd as [inner Hd]. rewrite Hd. simpl.
  apply init_entries_all_data.
Qed.

(** ** addFeature('metrics') and getMetricData read the same cells *)

Lemma index_of_elem (x : string) (l : list string) :
  x ∈ l → is_Some (index_of x l).
Proof.
  induction l as [|y l IH]; [by intros ?%elem_of_nil|]. simpl.
  destruct (decide (x = y)); [by eauto|].
  intros [?|Hin]%elem_of_cons; [done|].
  destruct (IH Hin) as [c ->]. by eexists.
Qed.

Lemma for_each_lookup {A B} (f : A → result B) (l : list A) :
  ∀ ys j x, for_each f l = Ok ys → l !! j = Some x →
    ∃ y, f x = Ok y ∧ ys !! j = Some y.
Proof.
  induction l as [|a l IH]; intros ys j x; [done|]. simpl.
  destruct (f a) as [b|] eqn:Ea; cbn [mbind result_bind]; [|done].
  destruct (for_each f l) as [bs|] eqn:El; cbn [mbind result_bind]; [|done].
  intros [= <-]. destruct j as [|j]; simpl.
  - intros [= <-]. eauto.
  - by apply IH.
Qed.

Lemma for_each_length {A B} (f : A → result B) (l : list A) :
  ∀ ys, for_each f l = Ok ys → length ys = length l.
Proof.
  induction l as [|a l IH]; intros ys; simpl.
  - by intros [= <-].
  - destruct (f a); cbn [mbind result_bind]; [|done].
    destruct (for_each f l); cbn [mbind result_bind]; [|done].
    intros [= <-]. simpl. f_equal. by apply IH.
Qed.

Lemma select_level_inv (name : string) (x : label) (df df' : DataFrame V) :
  select_level name x df = Ok df' →
  columns df' = columns df
  ∧ common_dtype df' = common_dtype df
  ∧ (rows_wf df → rows_wf df').
Proof.
  unfold select_level.
  destruct (level_position name df) as [p|]; cbn [mbind result_bind];
    [|done].
  intros [= <-]. simpl. do 2 (split; [done|]).
  unfold rows_wf. simpl. rewrite !Forall_forall.
  intros Hwf r [_ Hr]%list_elem_of_filter. by apply Hwf.
Qed.

(** The positions of the columns [addFeature] registers: those of every
    column whose name starts with metric_, name after name. *)
Definition metric_positions (df : DataFrame V) : list nat :=
  concat (map (λ m, positions m (columns df)) (metric_columns df)).

(** Where every column name occurs once, the listed names have one
    position each. *)
Lemma positions_listed (cols metrics : list string) (j : nat) (m : string) :
  NoDup cols → Forall (λ m, m ∈ cols) metrics → metrics !! j = Some m →
  ∃ c, index_of m cols = Some c
       ∧ concat (map (λ m, positions m cols) metrics) !! j = Some c.
Proof.
  intros Hnd Hall. revert j. induction Hall as [|m0 ms Hm0 _ IH]; intros j;
    [done|].
  destruct (index_of_elem _ _ Hm0) as [c0 Hc0]. simpl.
  rewrite (positions_index_of _ _ _ Hnd Hc0). simpl.
  destruct j as [|j]; simpl.
  - intros [= <-]. eauto.
  - apply IH.
Qed.

Lemma positions_lt (x : string) (l : list string) (p : nat) :
  p ∈ positions x l → (p < length l)%nat.
Proof.
  revert p. induction l as [|y l IH]; simpl; intros p;
    [by intros ?%elem_of_nil|].
  intros [Hp|Hp]%elem_of_app.
  - destruct (decide (x = y)); [|by apply elem_of_nil in Hp].
    apply list_elem_of_singleton in Hp as ->. lia.
  - apply elem_of_map in Hp as (q & -> & Hq). specialize (IH _ Hq). lia.
Qed.

(** Column [j] of the array made of the columns [metrics] holds the cells
    of the column of the [j]-th name, converted to the common dtype. *)
Lemma column_of_array (metrics : list string) (td : DataFrame V)
    (arr : array) (j : nat) (m : string) :
  rows_wf td → NoDup (columns td) → metrics !! j = Some m →
  columns_to_numpy metrics td = Ok arr →
  ∃ col,
    column m td = Ok (Array1 col)
    ∧ column_at j arr
      = Ok (map (common_dtype td
                   (concat (map (λ m, positions m (columns td)) metrics)))
              col).
Proof.
  intros Hwf Hnd Hj. unfold columns_to_numpy.
  destruct (decide _) as [Hall|]; [|done]. intros [= <-].
  set (cs := concat (map (λ m, positions m (columns td)) metrics)).
  destruct (positions_listed _ _ _ _ Hnd Hall Hj) as (c & Hc & Hcs).
  fold cs in Hcs.
  exists (omap (λ r, r.2 !! c) (rows td)). split.
  - unfold column. by rewrite (positions_index_of _ _ _ Hnd Hc).
  - unfold column_at, to_numpy. simpl.
    rewrite decide_True by (by eapply lookup_lt_Some). f_equal.
    assert (Forall (λ c, c < length (columns td))%nat cs) as Hlt.
    { apply Forall_forall. intros q Hq. subst cs.
      apply elem_of_concat in Hq as (ps & Hq & Hps).
      apply elem_of_map in Hps as (m' & -> & _). by eapply positions_lt. }
    unfold rows_wf in Hwf. induction Hwf as [|r rs Hr _ IH]; [done|].
    simpl.
    rewrite (omap_lookup_total
               (λ c0, common_dtype td cs <$> r.2 !! c0) cs j c); [|..|done].
    + destruct (r.2 !! c); simpl; [f_equal|]; exact IH.
    + eapply Forall_impl; [exact Hlt|]. intros c0 Hc0. simpl.
      apply fmap_is_Some, lookup_lt_is_Some_2. rewrite Hr. exact Hc0.
Qed.

(** Slicing column [j] out of the arrays registered for a protein gives
    the arrays [getMetricData] returns for the [j]-th metric, converted
    to the common dtype of the metric columns. *)
Lemma metric_column_agrees (pa : PeleAnalysis) (ligand protein : string)
    (j : nat) (m : string) (arrs : list array) :
  rows_wf (pele_data pa) →
  NoDup (columns (pele_data pa)) →
  metric_columns (pele_data pa) !! j = Some m →
  registered_arrays pa ligand protein = Ok arrs →
  ∃ cols,
    getMetricData_table (pele_data pa) ligand protein m
    = Ok (map Array1 cols)
    ∧ for_each (column_at j) arrs
      = Ok (map (map (common_dtype (pele_data pa)
                        (metric_positions (pele_data pa)))) cols).
Proof.
  intros Hwf Hnd Hj. unfold registered_arrays, getMetricData_table.
  destruct (select_level "Ligand" (LStr ligand) (pele_data pa))
    as [ld|] eqn:El; cbn [mbind result_bind]; [|done].
  unfold metric_arrays.
  destruct (select_level "Protein" (LStr protein) ld) as [pd|] eqn:Ep;
    cbn [mbind result_bind]; [|done].
  destruct (levels3 ld) as [lv|]; cbn [mbind result_bind]; [|done].
  destruct (select_level_inv _ _ _ _ El) as (Hc1 & Hd1 & Hw1).
  destruct (select_level_inv _ _ _ _ Ep) as (Hc2 & Hd2 & Hw2).
  clear El Ep. unfold trajectory_array. revert arrs.
  induction lv as [|t lv IH]; intros arrs; simpl.
  - intros [= <-]. by exists [].
  - destruct (select_level "Trajectory" t pd) as [td|] eqn:Et;
      cbn [mbind result_bind]; [|done].
    destruct (columns_to_numpy _ td) as [arr|] eqn:Ea;
      cbn [mbind result_bind]; [|done].
    destruct (for_each _ lv) as [rest|] eqn:Er; cbn [mbind result_bind];
      [|done].
    intros [= <-]. simpl.
    destruct (select_level_inv _ _ _ _ Et) as (Hc3 & Hd3 & Hw3).
    destruct (column_of_array (metric_columns (pele_data pa)) td arr j m)
      as (col & Hcol & Hat); [by auto|congruence|done|done|].
    destruct (IH rest eq_refl) as (cols & Hcols & Hrest).
    exists (col :: cols). rewrite Hcol, Hat. cbn [mbind result_bind].
    rewrite Hcols, Hrest. cbn [mbind result_bind]. simpl.
    unfold metric_positions. by rewrite Hd3, Hd2, Hd1, Hc3, Hc2, Hc1.
Qed.

(** X8. After [addFeature('metrics', ligand)] has returned on an instance
    that had no metric arrays for a protein, where every column name of
    the table occurs once: the protein has one array for each array
    [getMetricData] returns for a metric, the arrays of [getMetricData]
    are 1-D, and column [j] of the [t]-th registered array holds the cells
    of the [t]-th array [getMetricData] returns for the [j]-th column of
    the table whose name starts with metric_, each cell converted to the
    common dtype of the metric columns, which [to_numpy] does for the
    table of these columns and not for a single column. Every row of the
    table has a cell for every column. *)
Theorem addFeature_metrics_columns (ligand p : string) (j : nat)
    (m : string) (w w' : state) :
  NoDup (proteins (pele_analysis (self w))) →
  NoDup (columns (pele_data (pele_analysis (self w)))) →
  rows_wf (pele_data (pele_analysis (self w))) →
  p ∈ proteins (pele_analysis (self w)) →
  metric_at (self w) ligand p = None →
  metric_columns (pele_data (pele_analysis (self w))) !! j = Some m →
  addFeature pyemma "metrics" ligand w = (w', Ok ()) →
  ∃ arrs cols,
    metric_at (self w') ligand p = Some arrs
    ∧ getMetricData ligand p m w' = (w', Ok (map Array1 cols))
    ∧ length cols = length arrs
    ∧ ∀ t arr, arrs !! t = Some arr →
        ∃ col,
          cols !! t = Some col
          ∧ column_at j arr
            = Ok (map (common_dtype (pele_data (pele_analysis (self w)))
                         (metric_positions
                            (pele_data (pele_analysis (self w))))) col).
Proof.
  intros Hnd Hnc Hwf Hp Hnone Hj Hrun.
  destruct (addFeature_metrics_twice pyemma ligand w w' Hnd Hrun)
    as (w2 & _ & Hall).
  destruct (Hall p Hp) as (news & Hreg & Hat & _).
  rewrite Hnone in Hat. simpl in Hat.
  assert (pele_analysis (self w') = pele_analysis (self w)) as Hpa.
  { assert (stable (on_self pele_analysis)
              (addFeature pyemma "metrics" ligand)) as Hs.
    { unfold addFeature, register_metrics, append_metric.
      repeat frame_step. }
    exact (Hs _ _ _ Hrun). }
  destruct (metric_column_agrees _ _ _ _ _ _ Hwf Hnc Hj Hreg)
    as (cols & Hget & Hcols).
  exists news, cols. split; [done|]. split; [|split].
  - unfold getMetricData. cbv [mbind M_bind read lift].
    by rewrite Hpa, Hget.
  - apply for_each_length in Hcols. by rewrite length_map in Hcols.
  - intros t arr Ht.
    destruct (for_each_lookup _ _ _ _ _ Hcols Ht) as (col' & Hat' & Hl).
    rewrite list_lookup_fmap in Hl.
    destruct (cols !! t) as [col|]; [|done]. injection Hl as <-.
    eauto.
Qed.

(** ** plotTICADensity: the dimensions asked for and those there are *)

(** Lines 165-166 for a list of dimensions, where the pooled output of the
    ligand is [conc]. *)
Definition IC_body (ligand : string) (IC : Dict.t Z (list V)) (i : Z)
  : cmd (Dict.t Z (list V)) :=
  concs ← read all_tica_concatenated;
  conc ← lift (getitem KStr ligand concs);
  col ← lift (column_at (Z.to_nat i) conc);
  mret (Dict.set i col IC).

(** Column [i] of [conc], as [conc[:, i]] returns it. *)
Definition IC_column (conc : array) (i : Z) : list V :=
  omap (λ r, r !! Z.to_nat i) (cells conc).

Lemma IC_body_run (ligand : string) (conc : array)
    (IC : Dict.t Z (list V)) (i : Z) (w : state) :
  Dict.get ligand (all_tica_concatenated (self w)) = Some conc →
  IC_body ligand IC i w
  = (w, if decide (Z.to_nat i < shape1 conc)%nat
        then Ok (Dict.set i (IC_column conc i) IC)
        else Raise IndexError).
Proof.
  intros Hc. unfold IC_body. cbv [mbind M_bind read lift mret M_ret getitem].
  rewrite Hc. unfold column_at.
  by destruct (decide (Z.to_nat i < shape1 conc)%nat).
Qed.

Lemma IC_loop_out_of_range (ligand : string) (conc : array) (w : state)
    (l : list Z) :
  Dict.get ligand (all_tica_concatenated (self w)) = Some conc →
  Exists (λ i, shape1 conc ≤ Z.to_nat i)%nat l →
  ∀ IC, for_fold l (IC_body ligand) IC w = (w, Raise IndexError).
Proof.
  intros Hc. induction l as [|i l IH]; intros Hex IC.
  - by apply Exists_nil in Hex.
  - simpl. rewrite bind_run, (IC_body_run _ conc) by done.
    destruct (decide (Z.to_nat i < shape1 conc)%nat) as [Hlt|]; [|done].
    apply IH. apply Exists_cons in Hex as [?|?]; [lia|done].
Qed.

Lemma IC_loop_in_range (ligand : string) (conc : array) (w : state)
    (l : list Z) :
  Dict.get ligand (all_tica_concatenated (self w)) = Some conc →
  Forall (λ i, Z.to_nat i < shape1 conc)%nat l →
  ∀ IC0,
    (∀ i, is_Some (Dict.get i IC0) →
          Dict.get i IC0 = Some (IC_column conc i)) →
    ∃ IC,
      for_fold l (IC_body ligand) IC0 w = (w, Ok IC)
      ∧ (∀ i, is_Some (Dict.get i IC) →
              Dict.get i IC = Some (IC_column conc i))
      ∧ (∀ i, is_Some (Dict.get i IC0) → is_Some (Dict.get i IC))
      ∧ ∀ i, i ∈ l → is_Some (Dict.get i IC).
Proof.
  intros Hc Hall. induction Hall as [|i l Hi _ IH]; intros IC0 H0.
  - exists IC0. split; [done|]. split; [done|]. split; [done|].
    by intros i ?%elem_of_nil.
  - simpl. rewrite bind_run, (IC_body_run _ conc) by done.
    rewrite decide_True by done.
    destruct (IH (Dict.set i (IC_column conc i) IC0))
      as (IC & Hrun & Hgood & Hkeep & Hin).
    { intros k. destruct (decide (i = k)) as [->|Hne].
      - by rewrite Dict.get_set_eq.
      - rewrite Dict.get_set_ne by done. apply H0. }
    exists IC. split; [done|]. split; [done|]. split.
    + intros k Hk. apply Hkeep. destruct (decide (i = k)) as [->|Hne].
      * by rewrite Dict.get_set_eq.
      * by rewrite Dict.get_set_ne.
    + intros k [->|Hk]%elem_of_cons; [|by apply Hin].
      apply Hkeep. by rewrite Dict.get_set_eq.
Qed.

Lemma plotTICADensity_unfold (ligand : string) (nd : Z) :
  plotTICADensity plt ligand nd
  = (IC ← for_fold (py_range 0 nd) (IC_body ligand) [];
     let combinations := combinations2 (py_range 0 nd) in
     let n := length combinations in
     call_plot plt (Subplots (Z.of_nat n) 7 (5 * Z.of_nat n));;
     for_in (zip (seq 0 n) combinations) (λ '(i, c),
       let ax := if decide (n ≤ 1)%nat then None else Some i in
       x ← lift (getitem KInt c.1 IC);
       y ← lift (getitem KInt c.2 IC);
       call_plot plt (Density x y ax);;
       call_plot plt (SetXLabel ax ("IC " +:+ pretty (c.1 + 1)));;
       call_plot plt (SetYLabel ax ("IC " +:+ pretty (c.2 + 1))))).
Proof. reflexivity. Qed.

Lemma elem_of_py_range (lo hi i : Z) : i ∈ py_range lo hi ↔ lo ≤ i < hi.
Proof.
  unfold py_range. rewrite elem_of_map. split.
  - intros (k & -> & Hk). apply elem_of_seq in Hk. lia.
  - intros H. exists (Z.to_nat (i - lo)). split; [lia|].
    apply elem_of_seq. lia.
Qed.

(** X9. [plotTICADensity] for more dimensions than the pooled output of a
    fitted ligand has columns raises IndexError before any plotting call,
    and nothing is changed. The default of 4 dimensions does so for a fit
    that kept fewer. *)
Theorem plotTICADensity_too_many_dimensions (ligand : string) (nd : Z)
    (conc : array) (w : state) :
  Dict.get ligand (all_tica_concatenated (self w)) = Some conc →
  Z.of_nat (shape1 conc) < nd →
  plotTICADensity plt ligand nd w = (w, Raise IndexError).
Proof.
  intros Hc Hnd. rewrite plotTICADensity_unfold.
  apply bind_raise. apply (IC_loop_out_of_range _ conc); [done|].
  apply Exists_exists. exists (Z.of_nat (shape1 conc)). split; [|lia].
  apply elem_of_py_range. lia.
Qed.

(** The body of the loop of lines 170-178, for [n] panels. *)
Definition density_panel (IC : Dict.t Z (list V)) (n : nat)
  : nat * (Z * Z) → cmd () :=
  λ '(i, c),
    let ax := if decide (n ≤ 1)%nat then None else Some i in
    x ← lift (getitem KInt c.1 IC);
    y ← lift (getitem KInt c.2 IC);
    call_plot plt (Density x y ax);;
    call_plot plt (SetXLabel ax ("IC " +:+ pretty (c.1 + 1)));;
    call_plot plt (SetYLabel ax ("IC " +:+ pretty (c.2 + 1))).

(** The plotting calls of one panel: the density of two columns of the
    pooled output [conc], and the labels of its axes. With a single panel
    [plt.subplots] has returned one Axes object, with more an array of
    them. *)
Definition panel_calls (conc : array) (n : nat) (ic : nat * (Z * Z))
  : list (@plot_call V) :=
  let ax := if decide (n ≤ 1)%nat then None else Some ic.1 in
  [Density (IC_column conc ic.2.1) (IC_column conc ic.2.2) ax;
   SetXLabel ax ("IC " +:+ pretty (ic.2.1 + 1));
   SetYLabel ax ("IC " +:+ pretty (ic.2.2 + 1))].

Lemma density_panels_run (conc : array) (IC : Dict.t Z (list V)) (n : nat)
    (l : list (nat * (Z * Z))) :
  (∀ ic, ic ∈ l →
         Dict.get ic.2.1 IC = Some (IC_column conc ic.2.1)
         ∧ Dict.get ic.2.2 IC = Some (IC_column conc ic.2.2)) →
  ∀ w w', for_in l (density_panel IC n) w = (w', Ok ()) →
    plots w' = plots w ++ flat_map (panel_calls conc n) l.
Proof.
  induction l as [|[i c] l IH]; intros Hin w w'; simpl.
  - intros [= <-]. by rewrite app_nil_r.
  - destruct (Hin (i, c)) as [H1 H2]; [by left|]. simpl in H1, H2.
    intros Hrun.
    apply bind_ok_inv in Hrun as (w1 & [] & Hbody & Hrest).
    apply IH in Hrest; [|intros ic Hic; apply Hin; by right].
    rewrite Hrest. clear Hrest IH.
    revert Hbody. unfold density_panel. cbv zeta.
    unfold getitem. rewrite H1, H2.
    intros Hbody.
    apply bind_ok_inv in Hbody as (w2 & x & [= <- <-] & Hbody).
    apply bind_ok_inv in Hbody as (w3 & y & [= <- <-] & Hbody).
    apply bind_ok_inv in Hbody as (w4 & [] & Hd & Hbody).
    apply bind_ok_inv in Hbody as (w5 & [] & Hx & Hy).
    apply call_plot_inv in Hd as [_ Hd].
    apply call_plot_inv in Hx as [_ Hx].
    apply call_plot_inv in Hy as [_ Hy].
    rewrite Hy, Hx, Hd. unfold panel_calls. simpl.
    by rewrite <- !app_assoc.
Qed.

Lemma combinations2_length {A} (l : list A) :
  (2 * length (combinations2 l) = length l * (length l - 1))%nat.
Proof.
  induction l as [|x l IH]; [done|]. simpl.
  rewrite length_app, length_map. nia.
Qed.

Lemma combinations2_py_range (n : nat) :
  ∀ lo hi c, Z.to_nat (hi - lo) = n → c ∈ combinations2 (py_range lo hi) →
    lo ≤ c.1 ∧ c.1 < c.2 ∧ c.2 < hi.
Proof.
  induction n as [|n IH]; intros lo hi c Hn.
  - rewrite py_range_nil by lia. by intros ?%elem_of_nil.
  - rewrite py_range_cons by lia. simpl.
    intros [H|H]%elem_of_app.
    + apply elem_of_map in H as (y & -> & Hy).
      apply elem_of_py_range in Hy. simpl. lia.
    + apply IH in H; [|lia]. lia.
Qed.

(** X10. [plotTICADensity] for [nd] dimensions of a fitted ligand, where the
    call returns: after [plt.subplots] every pair [i < j] of the [nd] first
    dimensions has its panel, the density of the columns [i] and [j] of
    the pooled output with the labels 'IC i+1' and 'IC j+1', in the order
    of [itertools.combinations]; the panels are nd(nd-1)/2. *)
Theorem plotTICADensity_panels (ligand : string) (nd : Z) (conc : array)
    (w w' : state) :
  Dict.get ligand (all_tica_concatenated (self w)) = Some conc →
  nd ≤ Z.of_nat (shape1 conc) →
  plotTICADensity plt ligand nd w = (w', Ok ()) →
  let combinations := combinations2 (py_range 0 nd) in
  let n := length combinations in
  plots w'
  = plots w ++ Subplots (Z.of_nat n) 7 (5 * Z.of_nat n)
      :: flat_map (panel_calls conc n) (zip (seq 0 n) combinations)
  ∧ (2 * n = Z.to_nat nd * (Z.to_nat nd - 1))%nat
  ∧ ∀ c, c ∈ combinations → 0 ≤ c.1 ∧ c.1 < c.2 ∧ c.2 < nd.
Proof.
  intros Hc Hnd Hrun combinations n.
  assert (∀ c, c ∈ combinations → 0 ≤ c.1 ∧ c.1 < c.2 ∧ c.2 < nd) as Hord.
  { intros c Hin. eapply (combinations2_py_range _ 0 nd); [|exact Hin].
    reflexivity. }
  split; [|split; [|exact Hord]].
  - rewrite plotTICADensity_unfold in Hrun.
    destruct (IC_loop_in_range ligand conc w (py_range 0 nd) Hc) with
      (IC0 := @nil (Z * list V)) as (IC & HIC & Hgood & _ & Hin).
    { apply Forall_forall. intros i Hi%elem_of_py_range. lia. }
    { by intros i [? ?]. }
    rewrite (bind_ok _ _ _ _ _ HIC) in Hrun. cbv zeta in Hrun.
    apply bind_ok_inv in Hrun as (w1 & [] & Hsub & Hloop).
    apply call_plot_inv in Hsub as [_ Hsub].
    apply (density_panels_run conc) in Hloop.
    + rewrite Hloop, Hsub. by rewrite <- app_assoc.
    + intros [i c] Hic. apply elem_of_zip_r in Hic. simpl.
      destruct (Hord c Hic) as (? & ? & ?).
      split; apply Hgood, Hin, elem_of_py_range; lia.
  - subst n combinations. rewrite combinations2_length.
    unfold py_range. rewrite length_map, length_seq.
    replace (nd - 0) with nd by lia. done.
Qed.

(** ** plotTICADistribution: labels and columns *)

(** X11. [plotTICADistribution] for a fitted ligand, where [plt.subplots]
    returns and [max_tica] is not negative, hands the histogram function
    [max_tica] labels, IC1 onwards, and the columns of the pooled output
    up to [max_tica], which are all its columns when it has fewer: the
    labels are as many as the columns only for [max_tica] within the
    column count. The default of 10 gives 10 labels whatever the fit
    kept. *)
Theorem plotTICADistribution_labels (ligand : string) (max_tica : Z)
    (conc : array) (w w' : state) (r : result ()) :
  Dict.get ligand (all_tica_concatenated (self w)) = Some conc →
  plt (Subplots 1 12 max_tica) = None →
  0 ≤ max_tica →
  plotTICADistribution plt ligand max_tica w = (w', r) →
  ∃ a labels rest,
    plots w'
    = plots w ++ Subplots 1 12 max_tica :: FeatureHistograms a labels :: rest
    ∧ length labels = Z.to_nat max_tica
    ∧ head labels = (if decide (max_tica = 0) then None else Some "IC1")
    ∧ shape1 a = Nat.min (Z.to_nat max_tica) (shape1 conc)
    ∧ Forall (λ row, length row ≤ shape1 a)%nat (cells a)
    ∧ (length labels = shape1 a ↔ max_tica ≤ Z.of_nat (shape1 conc)).
Proof.
  intros Hc Hsub Hpos. unfold plotTICADistribution.
  cbv [mbind M_bind call_plot read lift getitem]. simpl.
  rewrite Hsub, Hc.
  set (a := columns_upto max_tica conc).
  set (labels := map (λ i, "IC" +:+ pretty i) (py_range 1 (max_tica + 1))).
  assert (length labels = Z.to_nat max_tica) as Hlen.
  { unfold labels, py_range. rewrite !length_map, length_seq. lia. }
  assert (shape1 a = Nat.min (Z.to_nat max_tica) (shape1 conc)) as Ha.
  { unfold a, columns_upto, slice_stop. simpl. by rewrite decide_True. }
  intros Hrun. exists a, labels.
  exists (match plt (FeatureHistograms a labels) with
          | None => [TightLayout]
          | Some _ => []
          end).
  split; [|split; [done|split; [|split; [done|split]]]].
  - destruct (plt (FeatureHistograms a labels)); simpl in Hrun;
      injection Hrun as <- _; simpl; by rewrite <- ?app_assoc.
  - unfold labels. destruct (decide (max_tica = 0)) as [->|Hne]; [done|].
    rewrite py_range_cons by lia. done.
  - rewrite Ha. unfold a, columns_upto. simpl.
    apply Forall_forall. intros row (r0 & -> & _)%elem_of_map.
    rewrite length_take. unfold slice_stop. rewrite decide_True by done.
    lia.
  - rewrite Hlen, Ha. lia.
Qed.

(** ** getMetricData: a metric that is no column *)

(** X12. [getMetricData] for a name that is no column of the table reads the
    column once for every label of index level 3: it raises KeyError for
    the name when that level has a label and returns the empty list when
    it has none, whatever the ligand and the protein, known or not. The
    index has the levels Ligand, Protein and Trajectory, and every level
    name once. *)
Theorem getMetricData_unknown_metric (ligand protein metric : string)
    (lv : list label) (w : state) :
  NoDup (index_names (pele_data (pele_analysis (self w)))) →
  "Ligand" ∈ index_names (pele_data (pele_analysis (self w))) →
  "Protein" ∈ index_names (pele_data (pele_analysis (self w))) →
  "Trajectory" ∈ index_names (pele_data (pele_analysis (self w))) →
  index_levels (pele_data (pele_analysis (self w))) !! 3%nat = Some lv →
  metric ∉ columns (pele_data (pele_analysis (self w))) →
  getMetricData ligand protein metric w
  = (w, match lv with
        | [] => Ok []
        | _ :: _ => Raise (KeyError (KStr metric))
        end).
Proof.
  intros Hnd [pl Hl]%index_of_elem [pp Hp]%index_of_elem
    [pt Ht]%index_of_elem H3 Hm%positions_not_elem.
  unfold getMetricData. cbv [mbind M_bind read lift]. f_equal.
  unfold getMetricData_table, select_level.
  rewrite (level_position_ok "Ligand" _ pl) by done. simpl.
  rewrite (level_position_ok "Protein" _ pp) by done. simpl.
  unfold levels3. simpl. rewrite H3.
  destruct lv as [|t lv]; [done|]. simpl.
  rewrite (level_position_ok "Trajectory" _ pt) by done. simpl.
  unfold column. simpl. by rewrite Hm.
Qed.

(** ** plotLagTimeVsTICADim: nothing to fit *)

(** X13. [plotLagTimeVsTICADim] for a ligand without pooled features: with
    [max_lag_time >= 1] the first fit raises KeyError for the ligand,
    nothing is assigned and no plotting call is made; with
    [max_lag_time <= 0] no fit is made, the instance is left as it is, and
    a call that returns has plotted two empty series. *)
Theorem plotLagTimeVsTICADim_no_features (ligand : string)
    (max_lag_time : Z) (w : state) :
  Dict.get ligand (all_data (self w)) = None →
  (1 ≤ max_lag_time →
   plotLagTimeVsTICADim pyemma plt ligand max_lag_time w
   = (w, Raise (KeyError (KStr ligand))))
  ∧ (max_lag_time ≤ 0 →
     ∀ w' r,
       plotLagTimeVsTICADim pyemma plt ligand max_lag_time w = (w', r) →
       self w' = self w
       ∧ (r = Ok () →
          plots w'
          = plots w ++ [Figure 4 2; Plot [] []; XLabel "Lag time [ns]";
                        YLabel ("Nbr. of dimensions holding" +:+ newline
                                  +:+ "95% of the kinetic variance")])).
Proof.
  intros Hnone. split; intros Hmax.
  - unfold plotLagTimeVsTICADim. rewrite py_range_cons by lia. simpl.
    apply bind_raise. apply bind_raise. unfold sweep_step.
    apply bind_raise. rewrite calculateTICA_eq. unfold calculateTICA_fn.
    rewrite Hnone. by destruct w.
  - intros w' r. unfold plotLagTimeVsTICADim.
    rewrite py_range_nil by lia. simpl.
    cbv [mbind M_bind mret M_ret call_plot]. simpl.
    destruct (plt (Figure 4 2)); [by intros [= <- <-]|].
    destruct (plt (Plot [] [])); [by intros [= <- <-]|].
    destruct (plt (XLabel _)); [by intros [= <- <-]|].
    destruct (plt (YLabel _)); [by intros [= <- <-]|].
    intros [= <- <-]. simpl. split; [done|]. intros _.
    by rewrite <- !app_assoc.
Qed.
End More.

(** * The constructor (lines 16-54) *)
Section Constructor.
Context {V path featurizer tica_model : Type}.

Abbreviation instance := (@ligand_msm V path featurizer tica_model).
Abbreviation state := (@world V path featurizer tica_model).
Abbreviation cmd := (@M V path featurizer tica_model).

(** What the constructor calls outside the class; each call may raise. *)
Record Sources := {
    (* pele_analysis.getLigandTrajectoryPerTrajectory(protein, ligand,
       return_paths=True): the trajectory files and the topology file *)
    getLigandTrajectoryPerTrajectory :
      string → string → result (list path * path);
    (* [a.name for a in md.load(top).topology.atoms] *)
    atom_names : path → result (list string);
    (* pyemma.coordinates.featurizer(top) *)
    coordinates_featurizer : path → result featurizer
  }.

Definition set_trajectories v (s : instance) : instance :=
    {| pele_analysis := pele_analysis s; trajectories := v;
       all_trajectories := all_trajectories s; topology := topology s;
       ligand_atoms := ligand_atoms s; features := features s; data := data s;
       tica_output := tica_output s; tica_concatenated := tica_concatenated s;
       all_data := all_data s; all_tica := all_tica s;
       all_tica_output := all_tica_output s;
       all_tica_concatenated := all_tica_concatenated s;
       metric_features := metric_features s; ndims := ndims s |}.

Definition set_all_trajectories v (s : instance) : instance :=
    {| pele_analysis := pele_analysis s; trajectories := trajectories s;
       all_trajectories := v; topology := topology s;
       ligand_atoms := ligand_atoms s; features := features s; data := data s;
       tica_output := tica_output s; tica_concatenated := tica_concatenated s;
       all_data := all_data s; all_tica := all_tica s;
       all_tica_output := all_tica_output s;
       all_tica_concatenated := all_tica_concatenated s;
       metric_features := metric_features s; ndims := ndims s |}.

Definition set_topology v (s : instance) : instance :=
    {| pele_analysis := pele_analysis s; trajectories := trajectories s;
       all_trajectories := all_trajectories s; topology := v;
       ligand_atoms := ligand_atoms s; features := features s; data := data s;
       tica_output := tica_output s; tica_concatenated := tica_concatenated s;
       all_data := all_data s; all_tica := all_tica s;
       all_tica_output := all_tica_output s;
       all_tica_concatenated := all_tica_concatenated s;
       metric_features := metric_features s; ndims := ndims s |}.

Definition set_ligand_atoms v (s : instance) : instance :=
    {| pele_analysis := pele_analysis s; trajectories := trajectories s;
       all_trajectories := all_trajectories s; topology := topology s;
       ligand_atoms := v; features := features s; data := data s;
       tica_output := tica_output s; tica_concatenated := tica_concatenated s;
       all_data := all_data s; all_tica := all_tica s;
       all_tica_output := all_tica_output s;
       all_tica_concatenated := all_tica_concatenated s;
       metric_features := metric_features s; ndims := ndims s |}.

(** Lines 22-35: every attribute empty; [ndims] is not assigned. *)
Definition new_instance (pa : PeleAnalysis) : instance :=
    {| pele_analysis := pa; trajectories := []; all_trajectories := [];
       topology := []; ligand_atoms := []; features := []; data := [];
       tica_output := []; tica_concatenated := []; all_data := [];
       all_tica := []; all_tica_output := [];
       all_tica_concatenated := []; metric_features := [];
       ndims := None |}.

Context (src : Sources).

(** Line 45 *)
Definition gather (t : path) : cmd () :=
  all ← read all_trajectories;
  write (set_all_trajectories (all ++ [t])).

(** The body of the loop over the pairs (lines 41-54). The two targets of
    line 41 are assigned from left to right once the call has returned. *)
Definition init_pair (pl : string * string) : cmd () :=
  let '(protein, ligand) := pl in
  r ← lift (getLigandTrajectoryPerTrajectory src protein ligand);
  trajs ← read trajectories;
  write (set_trajectories (Dict.set (protein, ligand) r.1 trajs));;
  tops ← read topology;
  write (set_topology (Dict.set ligand r.2 tops));;
  trajs ← read trajectories;
  ts ← lift (getitem pair_key (protein, ligand) trajs);
  for_in ts gather;;
  atoms ← read ligand_atoms;
  (if Dict.mem ligand atoms then mret ()
   else
     tops ← read topology;
     top ← lift (getitem KStr ligand tops);
     names ← lift (atom_names src top);
     atoms ← read ligand_atoms;
     write (set_ligand_atoms (Dict.set ligand names atoms)));;
  fs ← read features;
  (if Dict.mem ligand fs then mret ()
   else
     tops ← read topology;
     top ← lift (getitem KStr ligand tops);
     f ← lift (coordinates_featurizer src top);
     fs ← read features;
     write (set_features (Dict.set ligand f fs))).

(** The constructor, on the instance being made; what it prints is not
    modelled. *)
Definition __init__ (pa : PeleAnalysis) : cmd () :=
  write (λ _, new_instance pa);;
  pa ← read pele_analysis;
  for_in (pele_combinations pa) init_pair.

(** The ligands of a list of pairs. *)
Definition ligands_of (l : list (string * string)) : list string :=
  map snd l.

(** The attributes only the later methods assign are as the constructor
    made them: empty, and no [ndims]. *)
Definition unprocessed (s : instance) : Prop :=
  data s = [] ∧ all_data s = [] ∧ metric_features s = []
  ∧ tica_output s = [] ∧ tica_concatenated s = [] ∧ all_tica s = []
  ∧ all_tica_output s = [] ∧ all_tica_concatenated s = []
  ∧ ndims s = None.

Lemma gather_run (ts : list path) :
  ∀ w : state,
    for_in ts gather w
    = (upd (set_all_trajectories (all_trajectories (self w) ++ ts)) w, Ok ()).
Proof.
  induction ts as [|t ts IH]; intros w; simpl.
  - rewrite app_nil_r. by destruct w as [[] ?].
  - rewrite bind_run. unfold gather at 1.
    cbv [mbind M_bind read write]. rewrite IH. unfold upd. simpl.
    by rewrite <- app_assoc.
Qed.

Lemma for_in_app_inv {A} (l1 l2 : list A) (body : A → cmd ()) :
  ∀ w w', for_in (l1 ++ l2) body w = (w', Ok ()) →
    ∃ w1, for_in l1 body w = (w1, Ok ()) ∧ for_in l2 body w1 = (w', Ok ()).
Proof.
  induction l1 as [|x l1 IH]; intros w w'; simpl.
  - intros H. by exists w.
  - intros H. apply bind_ok_inv in H as (w0 & [] & Hx & Hrest).
    apply IH in Hrest as (w1 & H1 & H2). exists w1. split; [|done].
    by rewrite (bind_ok _ _ _ _ _ Hx).
Qed.

(** What one round of the loop has done when it ends without an
    exception. *)
Lemma init_pair_ok (p l : string) (w w' : state) :
  init_pair (p, l) w = (w', Ok ()) →
  ∃ paths top,
    getLigandTrajectoryPerTrajectory src p l = Ok (paths, top)
    ∧ trajectories (self w') = Dict.set (p, l) paths (trajectories (self w))
    ∧ topology (self w') = Dict.set l top (topology (self w))
    ∧ all_trajectories (self w') = all_trajectories (self w) ++ paths
    ∧ (if Dict.mem l (ligand_atoms (self w))
       then ligand_atoms (self w') = ligand_atoms (self w)
       else ∃ names, atom_names src top = Ok names
              ∧ ligand_atoms (self w')
                = Dict.set l names (ligand_atoms (self w)))
    ∧ (if Dict.mem l (features (self w))
       then features (self w') = features (self w)
       else ∃ f, coordinates_featurizer src top = Ok f
              ∧ features (self w') = Dict.set l f (features (self w)))
    ∧ pele_analysis (self w') = pele_analysis (self w)
    ∧ (unprocessed (self w) → unprocessed (self w'))
    ∧ plots w' = plots w.
Proof.
  unfold init_pair. intros H.
  apply bind_ok_inv in H as (w1 & [paths top] & Hr & H).
  injection Hr as <- Hr. exists paths, top. split; [done|].
  apply bind_ok_inv in H as (? & trajs & [= <- <-] & H).
  apply bind_ok_inv in H as (w2 & [] & [= <-] & H).
  apply bind_ok_inv in H as (? & tops & [= <- <-] & H).
  apply bind_ok_inv in H as (w3 & [] & [= <-] & H).
  apply bind_ok_inv in H as (? & trajs' & [= <- <-] & H).
  apply bind_ok_inv in H as (? & ts & [= <- Hts] & H).
  simpl in Hts. unfold getitem in Hts. rewrite Dict.get_set_eq in Hts.
  injection Hts as <-.
  apply bind_ok_inv in H as (w4 & [] & Hg & H).
  rewrite gather_run in Hg. injection Hg as <-.
  apply bind_ok_inv in H as (? & atoms & [= <- <-] & H).
  apply bind_ok_inv in H as (w5 & [] & Ha & H).
  apply bind_ok_inv in H as (? & fs & [= <- <-] & H).
  simpl in Ha, H.
  destruct (Dict.mem l (ligand_atoms (self w))) eqn:Ea.
  - injection Ha as <-. simpl in H.
    destruct (Dict.mem l (features (self w))) eqn:Ef.
    + injection H as <-. simpl. done.
    + apply bind_ok_inv in H as (? & tops' & [= <- <-] & H).
      apply bind_ok_inv in H as (? & top' & [= <- Ht] & H).
      simpl in Ht. unfold getitem in Ht. rewrite Dict.get_set_eq in Ht.
      injection Ht as <-.
      apply bind_ok_inv in H as (? & f & [= <- Hf] & H).
      apply bind_ok_inv in H as (? & fs' & [= <- <-] & H).
      injection H as <-. simpl. eauto 10.
  - apply bind_ok_inv in Ha as (? & tops' & [= <- <-] & Ha).
    apply bind_ok_inv in Ha as (? & top' & [= <- Ht] & Ha).
    simpl in Ht. unfold getitem in Ht. rewrite Dict.get_set_eq in Ht.
    injection Ht as <-.
    apply bind_ok_inv in Ha as (? & names & [= <- Hn] & Ha).
    apply bind_ok_inv in Ha as (? & atoms' & [= <- <-] & Ha).
    injection Ha as <-. simpl in H.
    destruct (Dict.mem l (features (self w))) eqn:Ef.
    + injection H as <-. simpl. eauto 10.
    + apply bind_ok_inv in H as (? & tops' & [= <- <-] & H).
      apply bind_ok_inv in H as (? & top' & [= <- Ht] & H).
      simpl in Ht. unfold getitem in Ht. rewrite Dict.get_set_eq in Ht.
      injection Ht as <-.
      apply bind_ok_inv in H as (? & f & [= <- Hf] & H).
      apply bind_ok_inv in H as (? & fs' & [= <- <-] & H).
      injection H as <-. simpl. eauto 12.
Qed.

Lemma init_unfold (pa : PeleAnalysis) (w : state) :
  __init__ pa w
  = for_in (pele_combinations pa) init_pair (upd (λ _, new_instance pa) w).
Proof. reflexivity. Qed.

(** The trajectory files of a pair, as line 41 stores them. *)
Definition paths_of (pl : string * string) : result (list path) :=
  r ← getLigandTrajectoryPerTrajectory src pl.1 pl.2; Ok r.1.

Lemma init_loop_trajectories (combos : list (string * string)) :
  ∀ w w' : state, for_in combos init_pair w = (w', Ok ()) →
    pele_analysis (self w') = pele_analysis (self w)
    ∧ (unprocessed (self w) → unprocessed (self w'))
    ∧ plots w' = plots w
    ∧ (∃ pss, for_each paths_of combos = Ok pss
         ∧ all_trajectories (self w')
           = all_trajectories (self w) ++ concat pss)
    ∧ ∀ p l,
        ((p, l) ∈ combos →
         ∃ paths top,
           getLigandTrajectoryPerTrajectory src p l = Ok (paths, top)
           ∧ Dict.get (p, l) (trajectories (self w')) = Some paths)
        ∧ ((p, l) ∉ combos →
           Dict.get (p, l) (trajectories (self w'))
           = Dict.get (p, l) (trajectories (self w))).
Proof.
  induction combos as [|[p0 l0] combos IH]; intros w w'; simpl.
  - intros [= <-]. do 3 (split; [done|]). split.
    + exists []. by rewrite app_nil_r.
    + intros p l. split; [by intros ?%elem_of_nil|done].
  - intros H. apply bind_ok_inv in H as (w1 & [] & Hstep & Hrest).
    apply init_pair_ok in Hstep
      as (paths0 & top0 & Hget & Htr & _ & Hall & _ & _ & Hpa & Hun & Hpl).
    apply IH in Hrest as (Hpa' & Hun' & Hpl' & (pss & Hpss & Hall') & Htr').
    split; [congruence|]. split; [by auto|]. split; [congruence|]. split.
    + exists (paths0 :: pss).
      assert (paths_of (p0, l0) = Ok paths0) as ->.
      { unfold paths_of. simpl. by rewrite Hget. }
      cbn [mbind result_bind]. rewrite Hpss.
      cbn [mbind result_bind]. split; [done|].
      rewrite Hall', Hall. simpl. by rewrite <- app_assoc.
    + intros p l. destruct (Htr' p l) as [Hin Hout]. split.
      * intros Hmem. destruct (decide ((p, l) ∈ combos)) as [Hc|Hc];
          [by apply Hin|].
        apply elem_of_cons in Hmem as [[= -> ->]|?]; [|done].
        exists paths0, top0. split; [done|].
        rewrite (Hout Hc), Htr. apply Dict.get_set_eq.
      * intros Hmem. apply not_elem_of_cons in Hmem as [Hne Hc].
        rewrite (Hout Hc), Htr. by apply Dict.get_set_ne.
Qed.

Lemma mem_false_get {K A} `{EqDecision K} (k : K) (d : Dict.t K A) :
  Dict.mem k d = false → Dict.get k d = None.
Proof.
  intros Hm. destruct (Dict.get k d) eqn:E; [|done].
  assert (is_Some (Dict.get k d)) as Hs by eauto.
  apply Dict.mem_get in Hs. congruence.
Qed.

Lemma init_loop_ligand (combos : list (string * string)) :
  ∀ w w' : state, for_in combos init_pair w = (w', Ok ()) →
    ∀ l,
      (l ∉ ligands_of combos →
       Dict.get l (features (self w')) = Dict.get l (features (self w))
       ∧ Dict.get l (ligand_atoms (self w'))
         = Dict.get l (ligand_atoms (self w))
       ∧ Dict.get l (topology (self w')) = Dict.get l (topology (self w)))
      ∧ (is_Some (Dict.get l (features (self w))) →
         Dict.get l (features (self w')) = Dict.get l (features (self w)))
      ∧ (is_Some (Dict.get l (ligand_atoms (self w))) →
         Dict.get l (ligand_atoms (self w'))
         = Dict.get l (ligand_atoms (self w))).
Proof.
  induction combos as [|[p0 l0] combos IH]; intros w w'; simpl.
  - by intros [= <-].
  - intros H l. apply bind_ok_inv in H as (w1 & [] & Hstep & Hrest).
    apply init_pair_ok in Hstep
      as (paths0 & top0 & _ & _ & Htop & _ & Hat & Hfe & _).
    destruct (IH _ _ Hrest l) as (Hout & Hf & Ha).
    assert (l ≠ l0 →
            Dict.get l (features (self w1)) = Dict.get l (features (self w))
            ∧ Dict.get l (ligand_atoms (self w1))
              = Dict.get l (ligand_atoms (self w))) as Hother.
    { intros Hne. split.
      - destruct (Dict.mem l0 (features (self w))); [by rewrite Hfe|].
        destruct Hfe as (f & _ & ->). by apply Dict.get_set_ne.
      - destruct (Dict.mem l0 (ligand_atoms (self w))); [by rewrite Hat|].
        destruct Hat as (n & _ & ->). by apply Dict.get_set_ne. }
    split; [|split].
    + intros Hl. apply not_elem_of_cons in Hl as [Hne Hl].
      destruct (Hout Hl) as (-> & -> & ->).
      destruct (Hother Hne) as [-> ->]. do 2 (split; [done|]).
      rewrite Htop. by apply Dict.get_set_ne.
    + intros Hs.
      assert (Dict.get l (features (self w1))
              = Dict.get l (features (self w))) as Heq.
      { destruct (decide (l = l0)) as [->|Hne]; [|by apply Hother].
        apply Dict.mem_get in Hs. rewrite Hs in Hfe. by rewrite Hfe. }
      rewrite <- Heq. apply Hf. by rewrite Heq.
    + intros Hs.
      assert (Dict.get l (ligand_atoms (self w1))
              = Dict.get l (ligand_atoms (self w))) as Heq.
      { destruct (decide (l = l0)) as [->|Hne]; [|by apply Hother].
        apply Dict.mem_get in Hs. rewrite Hs in Hat. by rewrite Hat. }
      rewrite <- Heq. apply Ha. by rewrite Heq.
Qed.

(** X14. A constructor that returns has stored for every pair of
    [pele_combinations] the trajectory files retrieved for it and has
    gathered in [all_trajectories] the files of all pairs, pair after pair
    in the order of [pele_combinations], a pair listed twice twice. The
    attributes of the later methods are empty, [ndims] is not assigned,
    and nothing is plotted. *)
Theorem init_gathers_trajectories (pa : PeleAnalysis) (w w' : state) :
  __init__ pa w = (w', Ok ()) →
  pele_analysis (self w') = pa
  ∧ unprocessed (self w')
  ∧ plots w' = plots w
  ∧ (∃ pss, for_each paths_of (pele_combinations pa) = Ok pss
       ∧ all_trajectories (self w') = concat pss)
  ∧ ∀ p l, (p, l) ∈ pele_combinations pa →
      ∃ paths top,
        getLigandTrajectoryPerTrajectory src p l = Ok (paths, top)
        ∧ Dict.get (p, l) (trajectories (self w')) = Some paths.
Proof.
  rewrite init_unfold. intros H.
  apply init_loop_trajectories in H as (Hpa & Hun & Hpl & Hall & Htr).
  split; [done|]. split; [by apply Hun|]. split; [done|]. split; [done|].
  intros p l. apply Htr.
Qed.

(** X15. The featurizer and the atom names of a ligand are made from the
    topology file returned for the first pair of [pele_combinations] with
    that ligand, while [topology[ligand]] ends as the file returned for
    the last such pair: with several proteins for a ligand the stored
    topology need not be the one the featurizer was made from. *)
Theorem init_first_and_last_topology (pa : PeleAnalysis) (w w' : state)
    (l p p' : string) (pre post pre' post' : list (string * string)) :
  pele_combinations pa = pre ++ (p, l) :: post →
  l ∉ ligands_of pre →
  pele_combinations pa = pre' ++ (p', l) :: post' →
  l ∉ ligands_of post' →
  __init__ pa w = (w', Ok ()) →
  ∃ paths top f names paths' top',
    getLigandTrajectoryPerTrajectory src p l = Ok (paths, top)
    ∧ coordinates_featurizer src top = Ok f
    ∧ atom_names src top = Ok names
    ∧ Dict.get l (features (self w')) = Some f
    ∧ Dict.get l (ligand_atoms (self w')) = Some names
    ∧ getLigandTrajectoryPerTrajectory src p' l = Ok (paths', top')
    ∧ Dict.get l (topology (self w')) = Some top'.
Proof.
  intros Hfirst Hpre Hlast Hpost. rewrite init_unfold. intros H.
  pose proof H as H'.
  rewrite Hfirst in H. apply for_in_app_inv in H as (w1 & H1 & H2).
  simpl in H2. apply bind_ok_inv in H2 as (w2 & [] & Hstep & H2).
  destruct (init_loop_ligand _ _ _ H1 l) as (Hout & _ & _).
  destruct (Hout Hpre) as (Hf1 & Ha1 & _). simpl in Hf1, Ha1.
  apply init_pair_ok in Hstep
    as (paths & top & Hget & _ & _ & _ & Hat & Hfe & _).
  destruct (Dict.mem l (features (self w1))) eqn:Ef.
  { apply Dict.mem_get in Ef as [? Ef]. congruence. }
  destruct (Dict.mem l (ligand_atoms (self w1))) eqn:Ea.
  { apply Dict.mem_get in Ea as [? Ea]. congruence. }
  destruct Hfe as (f & Hf & Hfe). destruct Hat as (names & Hn & Hat).
  destruct (init_loop_ligand _ _ _ H2 l) as (_ & Hf2 & Ha2).
  rewrite Hfe, Dict.get_set_eq in Hf2. rewrite Hat, Dict.get_set_eq in Ha2.
  rewrite Hlast in H'. apply for_in_app_inv in H' as (w3 & _ & H4).
  simpl in H4. apply bind_ok_inv in H4 as (w4 & [] & Hstep' & H4).
  apply init_pair_ok in Hstep' as (paths' & top' & Hget' & _ & Htop & _).
  destruct (init_loop_ligand _ _ _ H4 l) as (Hout' & _ & _).
  destruct (Hout' Hpost) as (_ & _ & Ht).
  rewrite Htop, Dict.get_set_eq in Ht.
  exists paths, top, f, names, paths', top'.
  split; [done|]. split; [done|]. split; [done|].
  split; [by apply Hf2|]. split; [by apply Ha2|]. done.
Qed.
End Constructor.

(** * From the constructor to the pooled features *)
Section Pipeline.
Context {V path featurizer selection tica_model : Type}.
Context (pyemma : @Pyemma V path featurizer selection tica_model).
Context (src : @Sources path featurizer).

Abbreviation array := (ndarray V).
Abbreviation instance := (@ligand_msm V path featurizer tica_model).
Abbreviation state := (@world V path featurizer tica_model).

Lemma load_all_total (ligand : string) (ps : list string) :
  ∀ s : instance,
    is_Some (Dict.get ligand (data s)) →
    is_Some (Dict.get ligand (all_data s)) →
    (∀ p, p ∈ ps → is_Some (featurised pyemma s ligand p)) →
    ∃ s1, load_all pyemma ligand ps s = (s1, Ok ()).
Proof.
  induction ps as [|p ps IH]; intros s Hd Ha Hall; simpl; [by eexists|].
  destruct (Hall p) as [ds Hds]; [by left|].
  assert (load_protein_fn pyemma ligand p s
          = (extend_all_data ligand ds (put_data ligand p ds s), Ok ()))
    as Hstep.
  { apply load_protein_fn_ok. eauto. }
  rewrite Hstep.
  pose proof (load_protein_fn_entries pyemma ligand p s Hd Ha) as [Hd1 Ha1].
  pose proof (load_protein_fn_frame pyemma ligand p s) as (Hm & Ht & Hf & _).
  cbv zeta in Hm, Ht, Hf. rewrite Hstep in Hd1, Ha1, Hm, Ht, Hf.
  simpl in Hd1, Ha1, Hm, Ht, Hf.
  apply IH; [done|done|].
  intros q Hq. rewrite (featurised_frame pyemma s _ ligand q) by done.
  apply Hall. by right.
Qed.

(** X16. [getFeaturesData] for a ligand without registered metrics: where the
    ligand has a featurizer and the files of every protein load, the call
    returns, every protein has the arrays loaded from its files, unchanged,
    and the pooled list of the ligand is extended by the arrays of all
    proteins in the order of [proteins]. *)
Theorem getFeaturesData_without_metrics (ligand : string) (w : state)
    (f : featurizer) (loaded_of : string → list array) :
  Dict.get ligand (metric_features (self w)) = None →
  Dict.get ligand (features (self w)) = Some f →
  (∀ p, p ∈ proteins (pele_analysis (self w)) →
     ∃ paths,
       Dict.get (p, ligand) (trajectories (self w)) = Some paths
       ∧ coordinates_load pyemma paths f = Ok (loaded_of p)) →
  ∃ w',
    getFeaturesData pyemma ligand w = (w', Ok ())
    ∧ (∀ p, p ∈ proteins (pele_analysis (self w)) →
         data_at (self w') ligand p = Some (loaded_of p))
    ∧ Dict.get ligand (all_data (self w'))
      = Some (default [] (Dict.get ligand (all_data (self w)))
                ++ concat (map loaded_of
                             (proteins (pele_analysis (self w))))).
Proof.
  intros Hm Hf Hall. rewrite getFeaturesData_eq. cbv zeta.
  destruct (init_entries_spec ligand (self w))
    as (Hd & Ha & Hmf & Htr & Hfe & Hpa).
  cbv zeta in Hd, Ha, Hmf, Htr, Hfe, Hpa. rewrite Hpa.
  set (s0 := init_entries ligand (self w)) in *.
  set (ps := proteins (pele_analysis (self w))) in *.
  assert (∀ p, p ∈ ps →
               featurised pyemma s0 ligand p = Some (loaded_of p)) as Hfeat.
  { intros p Hp. destruct (Hall p Hp) as (paths & Hpaths & Hload).
    unfold featurised, attached.
    by rewrite Htr, Hpaths, Hfe, Hf, Hload, Hmf, Hm. }
  destruct (load_all_total ligand ps s0 Hd Ha) as [s1 Hrun].
  { intros p Hp. rewrite (Hfeat p Hp). by eexists. }
  rewrite Hrun. simpl. eexists. split; [reflexivity|]. simpl.
  destruct (load_all_first pyemma ligand ps s0 s1 _ Hrun Hd
              (init_entries_all_data ligand (self w)))
    as (dss & Hdss & Hat & Hpool & _).
  split.
  - intros p Hp. rewrite (Hat p Hp). by apply Hfeat.
  - rewrite Hpool. do 2 f_equal.
    clear Hrun Hat Hpool Hall. induction Hdss as [|p ds ps' dss' Hp _ IH];
      [done|].
    simpl. rewrite Hfeat in Hp by (by left). injection Hp as <-.
    f_equal. apply IH. intros q Hq. apply Hfeat. by right.
Qed.

Lemma init_loop_has_featurizer (combos : list (string * string)) :
  ∀ w w' : state, for_in combos (init_pair src) w = (w', Ok ()) →
    ∀ l, l ∈ ligands_of combos → is_Some (Dict.get l (features (self w'))).
Proof.
  induction combos as [|[p0 l0] combos IH]; intros w w'; simpl.
  - by intros _ l ?%elem_of_nil.
  - intros H l Hl. apply bind_ok_inv in H as (w1 & [] & Hstep & Hrest).
    destruct (decide (l ∈ ligands_of combos)) as [Hin|Hout];
      [by eapply IH|].
    apply elem_of_cons in Hl as [->|?]; [|done]. simpl.
    apply init_pair_ok in Hstep
      as (paths0 & top0 & _ & _ & _ & _ & _ & Hfe & _).
    assert (is_Some (Dict.get l0 (features (self w1)))) as Hs.
    { destruct (Dict.mem l0 (features (self w))) eqn:E.
      - rewrite Hfe. by apply Dict.mem_get.
      - destruct Hfe as (f & _ & ->). rewrite Dict.get_set_eq. by eexists. }
    destruct (init_loop_ligand src _ _ _ Hrest l0) as (_ & Hkeep & _).
    by rewrite (Hkeep Hs).
Qed.

Lemma load_all_raises (ligand : string) (f : featurizer)
    (ps : list string) :
  ∀ (s s1 : instance) (e : exn),
    Dict.get ligand (metric_features s) = None →
    Dict.get ligand (features s) = Some f →
    (∀ p, p ∈ ps → is_Some (Dict.get (p, ligand) (trajectories s))) →
    load_all pyemma ligand ps s = (s1, Raise e) →
    ∃ p paths,
      p ∈ ps ∧ Dict.get (p, ligand) (trajectories s) = Some paths
      ∧ coordinates_load pyemma paths f = Raise e.
Proof.
  induction ps as [|p ps IH]; intros s s1 e Hm Hf Ht; simpl; [done|].
  destruct (Ht p) as [paths Hp]; [by left|].
  pose proof (load_protein_fn_frame pyemma ligand p s) as (Hm' & Ht' & Hf' & _).
  cbv zeta in Hm', Ht', Hf'. revert Hm' Ht' Hf'.
  unfold load_protein_fn, attached. rewrite Hp, Hf, Hm.
  destruct (coordinates_load pyemma paths f) as [loaded|e'] eqn:El; simpl.
  - intros Hm' Ht' Hf' Hrun.
    eapply IH in Hrun as (q & paths' & Hq & Hpaths & Hload).
    + exists q, paths'. split; [by right|]. by rewrite <- Ht'.
    + by rewrite Hm'.
    + by rewrite Hf'.
    + intros q Hq. rewrite Ht'. apply Ht. by right.
  - intros _ _ _ [= _ <-]. exists p, paths. split; [by left|done].
Qed.

(** X17. On the instance a constructor has returned, [getFeaturesData] for a
    ligand paired in [pele_combinations] with every protein of [proteins]
    finds all it looks up: the only exception it can end with is one of
    pyemma's load, raised for the files retrieved for one of the proteins
    and the ligand's featurizer. *)
Theorem getFeaturesData_after_init (pa : PeleAnalysis) (w0 w w' : state)
    (l : string) (e : exn) :
  __init__ src pa w0 = (w, Ok ()) →
  (∀ p, p ∈ proteins pa → (p, l) ∈ pele_combinations pa) →
  getFeaturesData pyemma l w = (w', Raise e) →
  ∃ p paths top f,
    p ∈ proteins pa
    ∧ getLigandTrajectoryPerTrajectory src p l = Ok (paths, top)
    ∧ Dict.get l (features (self w)) = Some f
    ∧ coordinates_load pyemma paths f = Raise e.
Proof.
  intros Hinit Hpairs. rewrite getFeaturesData_eq. cbv zeta.
  destruct (init_entries_spec l (self w)) as (_ & _ & Hmf & Htr & Hfe & Hpa).
  cbv zeta in Hmf, Htr, Hfe, Hpa. rewrite Hpa.
  rewrite init_unfold in Hinit. pose proof Hinit as Hfeat.
  apply init_loop_trajectories in Hinit
    as (Hpa0 & Hun & _ & _ & Htrajs).
  simpl in Hpa0. rewrite Hpa0.
  destruct Hun as (_ & _ & Hm0 & _); [done|].
  intros [= _ Hrun].
  destruct (proteins pa) as [|p0 ps] eqn:Eps; [done|].
  destruct (init_loop_has_featurizer _ _ _ Hfeat l) as [f Hf].
  { apply elem_of_map. exists (p0, l). split; [done|].
    apply Hpairs. by left. }
  destruct (load_all pyemma l (p0 :: ps) (init_entries l (self w)))
    as [s1 r] eqn:Eload.
  simpl in Hrun. subst r.
  assert (∀ p, p ∈ p0 :: ps →
            ∃ paths top,
              getLigandTrajectoryPerTrajectory src p l = Ok (paths, top)
              ∧ Dict.get (p, l) (trajectories (init_entries l (self w)))
                = Some paths) as Hfiles.
  { intros p Hp. rewrite Htr. destruct (Htrajs p l) as [Hin _].
    apply Hin, Hpairs, Hp. }
  destruct (load_all_raises l f (p0 :: ps) (init_entries l (self w)) s1 e)
    as (p & paths & Hp & Hpaths & Hload); [| | |exact Eload|].
  - by rewrite Hmf, Hm0.
  - by rewrite Hfe.
  - intros p Hp. destruct (Hfiles p Hp) as (? & ? & _ & ->). by eexists.
  - destruct (Hfiles p Hp) as (paths' & top & Hget & Hpaths').
    rewrite Hpaths in Hpaths'. injection Hpaths' as <-.
    exists p, paths, top, f. done.
Qed.
End Pipeline.

(** * The contour levels of the free-energy plot (lines 294-297) *)
Module Contour.
Import FreeEnergy.
Section Contour.
Local Open Scope R_scope.

(** [np.linspace(start, stop, num)]: [num] evenly spaced values, the last
    one [stop] itself. *)
Definition linspace (start stop : R) (num : nat) : list R :=
  match num with
  | O => []
  | S O => [start]
  | S n =>
      map (λ i, start + INR i * ((stop - start) / INR n)) (seq 0 n) ++ [stop]
  end.

(** [np.max(a)] over all entries; numpy raises on an array without
    entries. *)
Definition np_max (a : matrix) : result R :=
  match concat a with
  | [] => Raise (ValueError "zero-size array to reduction operation maximum which has no identity")
  | x :: l => Ok (fold_left Rmax l x)
  end.

(** Lines 294-297, for the smoothed surface [data]. *)
Definition levels (cmax : option R) (data : matrix) : result (list R) :=
  match cmax with
  | Some c => Ok (linspace 0 c 9)
  | None => m ← np_max data; Ok (linspace 0 (m - 0.5) 9)
  end.

(** Every value is below the next one. *)
Fixpoint increasing (l : list R) : Prop :=
  match l with
  | a :: (b :: _) as l' => a < b ∧ increasing l'
  | _ => True
  end.

Lemma fold_Rmax_ge (l : list R) : ∀ x, x <= fold_left Rmax l x.
Proof.
  induction l as [|y l IH]; intros x; simpl; [lra|].
  etrans; [|apply IH]. apply Rmax_l.
Qed.

Lemma fold_Rmax_upper (l : list R) :
  ∀ x y, y ∈ x :: l → y <= fold_left Rmax l x.
Proof.
  induction l as [|z l IH]; intros x y Hy; simpl.
  - apply list_elem_of_singleton in Hy as ->. lra.
  - apply elem_of_cons in Hy as [->|Hy].
    + etrans; [|apply fold_Rmax_ge]. apply Rmax_l.
    + apply elem_of_cons in Hy as [->|Hy].
      * etrans; [|apply fold_Rmax_ge]. apply Rmax_r.
      * apply IH. by right.
Qed.

Lemma fold_Rmax_in (l : list R) : ∀ x, fold_left Rmax l x ∈ x :: l.
Proof.
  induction l as [|z l IH]; intros x; simpl; [by left|].
  specialize (IH (Rmax x z)).
  apply elem_of_cons in IH as [->|IH]; [|by do 2 right].
  unfold Rmax. destruct (Rle_dec x z); [right; by left|by left].
Qed.

Lemma linspace_nine (top : R) :
  linspace 0 top 9
  = [0; top / 8; 2 * (top / 8); 3 * (top / 8); 4 * (top / 8);
     5 * (top / 8); 6 * (top / 8); 7 * (top / 8); top].
Proof.
  unfold linspace. simpl. repeat (f_equal; try lra).
Qed.

(** X18. The nine contour levels run from 0 to the top level, which is [cmax]
    when it is given and the maximum of the smoothed surface minus 0.5
    otherwise; they increase exactly when the top level is positive. With
    [cmax] left out the levels increase only for a surface that exceeds
    0.5 somewhere; a surface without entries raises. *)
Theorem levels_increasing (cmax : option R) (data : matrix) :
  match levels cmax data with
  | Ok lv =>
      ∃ top,
        length lv = 9%nat ∧ head lv = Some 0 ∧ last lv = Some top
        ∧ (increasing lv ↔ 0 < top)
        ∧ match cmax with
          | Some c => top = c
          | None =>
              (∃ m, m ∈ concat data ∧ top = m - 0.5
                    ∧ ∀ v, v ∈ concat data → v <= m)
              ∧ (increasing lv ↔ ∃ v, v ∈ concat data ∧ 0.5 < v)
          end
  | Raise _ => cmax = None ∧ concat data = []
  end.
Proof.
  assert (∀ top, length (linspace 0 top 9) = 9%nat
                 ∧ head (linspace 0 top 9) = Some 0
                 ∧ last (linspace 0 top 9) = Some top
                 ∧ (increasing (linspace 0 top 9) ↔ 0 < top)) as Hlin.
  { intros top. rewrite linspace_nine. do 3 (split; [done|]). simpl.
    split; [intros (? & ? & ?); lra|intros ?; repeat split; lra]. }
  unfold levels. destruct cmax as [c|].
  - exists c. destruct (Hlin c) as (? & ? & ? & ?). done.
  - unfold np_max. destruct (concat data) as [|x l] eqn:E; [done|].
    cbn [mbind result_bind].
    set (m := fold_left Rmax l x).
    exists (m - 0.5). destruct (Hlin (m - 0.5)) as (? & ? & ? & Hinc).
    do 4 (split; [done|]). split.
    + exists m. split; [apply fold_Rmax_in|]. split; [done|].
      apply fold_Rmax_upper.
    + rewrite Hinc. split.
      * intros ?. exists m. split; [apply fold_Rmax_in|lra].
      * intros (v & Hv & ?). pose proof (fold_Rmax_upper l x v Hv) as Hle.
        fold m in Hle. lra.
Qed.
End Contour.
End Contour.

(** * The further properties on the concrete instance *)
Module MoreExample.
Import Example.

(** A pyemma whose models give no output. *)
Definition pyemma_without_output
  : @Pyemma Z file (list string) string toy_model :=
  {| coordinates_load := coordinates_load toy_pyemma;
     feat_select := feat_select toy_pyemma;
     feat_add_selection := feat_add_selection toy_pyemma;
     coordinates_tica := coordinates_tica toy_pyemma;
     tica_get_output := λ _, Raise (ExternalError "model not estimated");
     tica_transform := tica_transform toy_pyemma |}.

(** A pyemma that cannot read the trajectory files. *)
Definition pyemma_without_files
  : @Pyemma Z file (list string) string toy_model :=
  {| coordinates_load := λ _ _, Raise (ExternalError "cannot read file");
     feat_select := feat_select toy_pyemma;
     feat_add_selection := feat_add_selection toy_pyemma;
     coordinates_tica := coordinates_tica toy_pyemma;
     tica_get_output := tica_get_output toy_pyemma;
     tica_transform := tica_transform toy_pyemma |}.

(** Retrieval that returns two files of two frames for a pair and a
    topology file of its own for each protein; the featurizer made from a
    topology file records its first coordinate. *)
Definition toy_sources : @Sources file (list string) :=
  {| getLigandTrajectoryPerTrajectory := λ protein ligand,
       if decide (protein = "P1") then
         Ok ([frames 2 10; frames 2 20], frames 1 1)
       else Ok ([frames 2 30; frames 2 40], frames 1 2);
     atom_names := λ top, Ok ["C1"; "C2"; "O1"];
     coordinates_featurizer := λ top,
       Ok (map (λ r, pretty (default 0 (r !! 0%nat))) (cells top)) |}.

Definition toy_analysis : @PeleAnalysis Z :=
  pele_analysis (instance_of full_table 2).

(** The world before the constructor runs: what the instance holds is
    replaced by lines 22-35. *)
Definition w_blank : @world Z file (list string) toy_model :=
  {| self := new_instance toy_analysis; plots := [] |}.

Definition w_constructed := (__init__ toy_sources toy_analysis w_blank).1.

Lemma calculateTICA_keeps_features_witness :
  loaded_files (self w_fit1) = loaded_files (self w_loaded)
  ∧ features (self w_fit1) = features (self w_loaded)
  ∧ metric_features (self w_fit1) = metric_features (self w_loaded)
  ∧ data (self w_fit1) = data (self w_loaded)
  ∧ all_data (self w_fit1) = all_data (self w_loaded)
  ∧ plots w_fit1 = plots w_loaded.
Proof.
  apply (calculateTICA_keeps_features toy_pyemma "L" 1 w_loaded w_fit1
           (Ok ())).
  by vm_compute.
Defined.

Lemma getFeaturesData_keeps_fits_witness :
  loaded_files (self w_loaded) = loaded_files (self w_full)
  ∧ features (self w_loaded) = features (self w_full)
  ∧ metric_features (self w_loaded) = metric_features (self w_full)
  ∧ tica_results (self w_loaded) = tica_results (self w_full)
  ∧ plots w_loaded = plots w_full.
Proof.
  apply (getFeaturesData_keeps_fits toy_pyemma "L" w_full w_loaded (Ok ())).
  by vm_compute.
Defined.

Lemma addFeature_keeps_data_witness :
  loaded_files (self w_metrics) = loaded_files (self w_full)
  ∧ data (self w_metrics) = data (self w_full)
  ∧ all_data (self w_metrics) = all_data (self w_full)
  ∧ tica_results (self w_metrics) = tica_results (self w_full)
  ∧ plots w_metrics = plots w_full
  ∧ ("metrics" ≠ "positions" →
     features (self w_metrics) = features (self w_full))
  ∧ ("metrics" ≠ "metrics" →
     metric_features (self w_metrics) = metric_features (self w_full)).
Proof.
  apply (addFeature_keeps_data toy_pyemma "metrics" "L" w_full w_metrics
           (Ok ())).
  by vm_compute.
Defined.

Lemma calculateTICA_nothing_assigned_witness :
  calculateTICA toy_pyemma "L" 1 w_full
  = (w_full, Raise (KeyError (KStr "L"))).
Proof.
  apply (calculateTICA_nothing_assigned toy_pyemma "L" 1 w_full).
  reflexivity.
Defined.

Definition w_half_fitted :=
  (calculateTICA pyemma_without_output "L" 1 w_loaded).1.

Lemma calculateTICA_model_without_output_witness :
  (calculateTICA pyemma_without_output "L" 1 w_loaded).2
  = Raise (ExternalError "model not estimated")
  ∧ Dict.get "L" (all_tica (self w_half_fitted))
    = Some (1%nat, [frames 2 10; frames 2 20; frames 2 30; frames 2 40])
  ∧ all_tica_output (self w_half_fitted) = all_tica_output (self w_loaded)
  ∧ all_tica_concatenated (self w_half_fitted)
    = all_tica_concatenated (self w_loaded)
  ∧ tica_output (self w_half_fitted) = tica_output (self w_loaded)
  ∧ tica_concatenated (self w_half_fitted) = tica_concatenated (self w_loaded)
  ∧ ndims (self w_half_fitted) = ndims (self w_loaded).
Proof.
  apply (calculateTICA_model_without_output pyemma_without_output "L" 1
           w_loaded w_half_fitted
           (calculateTICA pyemma_without_output "L" 1 w_loaded).2
           [frames 2 10; frames 2 20; frames 2 30; frames 2 40]
           (1%nat, [frames 2 10; frames 2 20; frames 2 30; frames 2 40])
           (ExternalError "model not estimated")).
  - by vm_compute.
  - by vm_compute.
  - reflexivity.
  - by vm_compute.
Defined.

Lemma getFeaturesData_unknown_pair_witness :
  ∃ w',
    getFeaturesData toy_pyemma "X" w_full
    = (w', Raise (KeyError (KPair "P1" "X")))
    ∧ Dict.get "X" (data (self w'))
      = Some (default [] (Dict.get "X" (data (self w_full))))
    ∧ Dict.get "X" (all_data (self w'))
      = Some (default [] (Dict.get "X" (all_data (self w_full)))).
Proof.
  apply (getFeaturesData_unknown_pair toy_pyemma "X" "P1" ["P2"] w_full);
    reflexivity.
Defined.

Lemma getFeaturesData_surplus_metrics_witness :
  ∃ w' e,
    getFeaturesData toy_pyemma "L" w_metrics_twice = (w', Raise e)
    ∧ (e = IndexError ∨ e = AssertionError)
    ∧ Dict.get "L" (all_data (self w'))
      = Some (default [] (Dict.get "L" (all_data (self w_metrics_twice)))).
Proof.
  apply (getFeaturesData_surplus_metrics toy_pyemma "L" "P1" ["P2"]
           w_metrics_twice [frames 2 10; frames 2 20] []
           [frames 2 10; frames 2 20]
           (default [] (metric_at (self w_metrics_twice) "L" "P1"))).
  - reflexivity.
  - reflexivity.
  - reflexivity.
  - reflexivity.
  - by vm_compute.
  - vm_compute. lia.
Defined.

Lemma addFeature_metrics_columns_witness :
  ∃ arrs cols,
    metric_at (self w_metrics) "L" "P1" = Some arrs
    ∧ getMetricData "L" "P1" "metric_distance" w_metrics
      = (w_metrics, Ok (map Array1 cols))
    ∧ length cols = length arrs
    ∧ ∀ t arr, arrs !! t = Some arr →
        ∃ col,
          cols !! t = Some col
          ∧ column_at 0 arr
            = Ok (map (common_dtype full_table (metric_positions full_table))
                    col).
Proof.
  apply (addFeature_metrics_columns toy_pyemma "L" "P1" 0 "metric_distance"
           w_full w_metrics).
  - apply (bool_decide_unpack _). by vm_compute.
  - apply (bool_decide_unpack _). by vm_compute.
  - unfold rows_wf. simpl. repeat constructor.
  - simpl. repeat constructor.
  - reflexivity.
  - reflexivity.
  - by vm_compute.
Defined.

(** The pooled output of the fit of L with lag time 1: one column. *)
Definition conc_fit1 : ndarray Z :=
  default (frames 0 0) (Dict.get "L" (all_tica_concatenated (self w_fit1))).

Lemma plotTICADensity_too_many_dimensions_witness :
  plotTICADensity matplotlib "L" 4 w_fit1 = (w_fit1, Raise IndexError).
Proof.
  apply (plotTICADensity_too_many_dimensions matplotlib "L" 4 conc_fit1
           w_fit1).
  - by vm_compute.
  - by vm_compute.
Defined.

(** The pooled output of the fit of L with lag time 5: three columns. *)
Definition conc_fit_L : ndarray Z :=
  default (frames 0 0) (Dict.get "L" (all_tica_concatenated (self w_fit_L))).

Definition w_density := (plotTICADensity matplotlib "L" 3 w_fit_L).1.

Lemma plotTICADensity_panels_witness :
  plots w_density
  = plots w_fit_L ++ Subplots 3 7 15
      :: flat_map (panel_calls conc_fit_L 3)
           [(0%nat, (0, 1)); (1%nat, (0, 2)); (2%nat, (1, 2))]
  ∧ (2 * 3 = Z.to_nat 3 * (Z.to_nat 3 - 1))%nat
  ∧ ∀ c, c ∈ [(0, 1); (0, 2); (1, 2)] → 0 ≤ c.1 ∧ c.1 < c.2 ∧ c.2 < 3.
Proof.
  apply (plotTICADensity_panels matplotlib "L" 3 conc_fit_L w_fit_L
           w_density).
  - by vm_compute.
  - by vm_compute.
  - by vm_compute.
Defined.

Definition w_distribution :=
  (plotTICADistribution matplotlib "L" 10 w_fit1).1.

Lemma plotTICADistribution_labels_witness :
  ∃ a labels rest,
    plots w_distribution
    = plots w_fit1 ++ Subplots 1 12 10 :: FeatureHistograms a labels :: rest
    ∧ length labels = Z.to_nat 10
    ∧ head labels = (if decide (10 = 0) then None else Some "IC1")
    ∧ shape1 a = Nat.min (Z.to_nat 10) (shape1 conc_fit1)
    ∧ Forall (λ row, length row ≤ shape1 a)%nat (cells a)
    ∧ (length labels = shape1 a ↔ 10 ≤ Z.of_nat (shape1 conc_fit1)).
Proof.
  apply (plotTICADistribution_labels matplotlib "L" 10 conc_fit1 w_fit1
           w_distribution (Ok ())).
  - by vm_compute.
  - reflexivity.
  - lia.
  - by vm_compute.
Defined.

Lemma getMetricData_unknown_metric_witness :
  getMetricData "L" "P1" "metric_rmsd" w_full
  = (w_full, Raise (KeyError (KStr "metric_rmsd"))).
Proof.
  apply (getMetricData_unknown_metric "L" "P1" "metric_rmsd"
           [LInt 1; LInt 2] w_full).
  - apply (bool_decide_unpack _). by vm_compute.
  - simpl. repeat constructor.
  - simpl. repeat constructor.
  - simpl. repeat constructor.
  - reflexivity.
  - apply (bool_decide_unpack _). by vm_compute.
Defined.

Lemma plotLagTimeVsTICADim_no_features_witness :
  plotLagTimeVsTICADim toy_pyemma matplotlib "L" 3 w_full
  = (w_full, Raise (KeyError (KStr "L"))).
Proof.
  apply (proj1 (plotLagTimeVsTICADim_no_features toy_pyemma matplotlib "L" 3
                  w_full eq_refl)).
  lia.
Defined.

Lemma init_gathers_trajectories_witness :
  pele_analysis (self w_constructed) = toy_analysis
  ∧ unprocessed (self w_constructed)
  ∧ plots w_constructed = plots w_blank
  ∧ (∃ pss,
       for_each (paths_of toy_sources) (pele_combinations toy_analysis)
       = Ok pss
       ∧ all_trajectories (self w_constructed) = concat pss)
  ∧ ∀ p l, (p, l) ∈ pele_combinations toy_analysis →
      ∃ paths top,
        getLigandTrajectoryPerTrajectory toy_sources p l = Ok (paths, top)
        ∧ Dict.get (p, l) (trajectories (self w_constructed)) = Some paths.
Proof.
  apply (init_gathers_trajectories toy_sources toy_analysis w_blank
           w_constructed).
  by vm_compute.
Defined.

Lemma init_first_and_last_topology_witness :
  ∃ paths top f names paths' top',
    getLigandTrajectoryPerTrajectory toy_sources "P1" "L" = Ok (paths, top)
    ∧ coordinates_featurizer toy_sources top = Ok f
    ∧ atom_names toy_sources top = Ok names
    ∧ Dict.get "L" (features (self w_constructed)) = Some f
    ∧ Dict.get "L" (ligand_atoms (self w_constructed)) = Some names
    ∧ getLigandTrajectoryPerTrajectory toy_sources "P2" "L"
      = Ok (paths', top')
    ∧ Dict.get "L" (topology (self w_constructed)) = Some top'.
Proof.
  apply (init_first_and_last_topology toy_sources toy_analysis w_blank
           w_constructed "L" "P1" "P2" [] [("P2", "L")] [("P1", "L")] []).
  - reflexivity.
  - apply (bool_decide_unpack _). by vm_compute.
  - reflexivity.
  - apply (bool_decide_unpack _). by vm_compute.
  - by vm_compute.
Defined.

(** The featurizer of L is made from the topology file of P1, and the
    topology stored for L is the file of P2. *)
Example init_topology_differs :
  Dict.get "L" (features (self w_constructed)) = Some ["1"]
  ∧ coordinates_featurizer toy_sources (frames 1 1) = Ok ["1"]
  ∧ Dict.get "L" (topology (self w_constructed)) = Some (frames 1 2).
Proof. by vm_compute. Qed.

Lemma getFeaturesData_without_metrics_witness :
  ∃ w',
    getFeaturesData toy_pyemma "L" w_full = (w', Ok ())
    ∧ (∀ p, p ∈ proteins (pele_analysis (self w_full)) →
         data_at (self w') "L" p = Some (loaded_of p))
    ∧ Dict.get "L" (all_data (self w'))
      = Some (default [] (Dict.get "L" (all_data (self w_full)))
                ++ concat (map loaded_of
                             (proteins (pele_analysis (self w_full))))).
Proof.
  apply (getFeaturesData_without_metrics toy_pyemma "L" w_full [] loaded_of).
  - reflexivity.
  - reflexivity.
  - intros p Hp.
    apply elem_of_cons in Hp as [->|Hp];
      [|apply elem_of_cons in Hp as [->|Hp];
        [|by apply elem_of_nil in Hp]].
    + eexists. split; reflexivity.
    + eexists. split; reflexivity.
Defined.

Definition w_unread :=
  (getFeaturesData pyemma_without_files "L" w_constructed).1.

Lemma getFeaturesData_after_init_witness :
  ∃ p paths top f,
    p ∈ proteins toy_analysis
    ∧ getLigandTrajectoryPerTrajectory toy_sources p "L" = Ok (paths, top)
    ∧ Dict.get "L" (features (self w_constructed)) = Some f
    ∧ coordinates_load pyemma_without_files paths f
      = Raise (ExternalError "cannot read file").
Proof.
  apply (getFeaturesData_after_init pyemma_without_files toy_sources
           toy_analysis w_blank w_constructed w_unread "L"
           (ExternalError "cannot read file")).
  - by vm_compute.
  - intros p Hp.
    apply elem_of_cons in Hp as [->|Hp];
      [|apply elem_of_cons in Hp as [->|Hp];
        [|by apply elem_of_nil in Hp]].
    + simpl. repeat constructor.
    + simpl. repeat constructor.
  - by vm_compute.
Defined.

End MoreExample.
